(** * Session lifecycle engine of the annotation backend (main.py)

    A shallow embedding of [annotation-backend/main.py]: the file hierarchy
    the program works on, the pathlib / os / shutil calls it makes, the
    session store, the correction operations, promotion and the ingestion
    pipeline, followed by the properties of the specification.

    Conventions of the embedding.
    - Python [str] values are Rocq strings (byte strings); blanks and digits
      outside ASCII are not interpreted by [strip] and [int].
    - A request body is a JSON object whose fields are strings (a finite
      map from strings to strings); fields of other types are not covered.
    - The file system is a tree of regular files and directories (no
      symbolic links, no permissions, one device).
    - Randomness ([uuid.uuid4]) and the detector are inputs of the
      operations that use them. *)

From stdpp Require Import gmap strings list fin_maps sorting.
From Stdlib Require Import ZArith Ascii String DecimalString DecimalZ DecimalPos.

Set Warnings "-register-all".
Local Open Scope string_scope.
Local Open Scope list_scope.
Local Open Scope Z_scope.

(** ** Python string and integer primitives *)
Module Py.

(** Blank characters of [str.strip] in the ASCII range. *)
Definition is_space (c : ascii) : bool :=
  let n := N_of_ascii c in
  ((9 <=? n)%N && (n <=? 13)%N) || ((28 <=? n)%N && (n <=? 32)%N).

Fixpoint lstrip (s : string) : string :=
  match s with
  | String c s' => if is_space c then lstrip s' else s
  | EmptyString => EmptyString
  end.

Fixpoint rstrip (s : string) : string :=
  match s with
  | EmptyString => EmptyString
  | String c s' =>
      match rstrip s' with
      | EmptyString => if is_space c then EmptyString else String c EmptyString
      | r => String c r
      end
  end.

(** [s.strip()] *)
Definition strip (s : string) : string := rstrip (lstrip s).

(** [s.replace(a, b)] for one-character [a] and [b]. *)
Fixpoint replace (a b : ascii) (s : string) : string :=
  match s with
  | EmptyString => EmptyString
  | String c s' => String (if Ascii.eqb c a then b else c) (replace a b s')
  end.

(** [s.split(sep)] for a one-character separator: never the empty list. *)
Fixpoint split (sep : ascii) (s : string) : list string :=
  match s with
  | EmptyString => [EmptyString]
  | String c s' =>
      if Ascii.eqb c sep then EmptyString :: split sep s'
      else match split sep s' with
           | w :: ws => String c w :: ws
           | [] => [String c EmptyString]
           end
  end.

(** [s.startswith(p)] *)
Definition startswith (p s : string) : bool := String.prefix p s.

(** Truth value of a string: [if s:]. *)
Definition truthy (s : string) : bool :=
  match s with EmptyString => false | _ => true end.

(** [s.rfind(c)] as an index, [None] for -1. *)
Fixpoint rfind (c : ascii) (s : string) : option nat :=
  match s with
  | EmptyString => None
  | String d s' =>
      match rfind c s' with
      | Some i => Some (S i)
      | None => if Ascii.eqb d c then Some O else None
      end
  end.

Fixpoint all_dots (s : string) : bool :=
  match s with
  | EmptyString => true
  | String c s' => Ascii.eqb c "." && all_dots s'
  end.

(** [os.path.splitext(p)]: the extension starts at the last dot of the
    last component, unless only dots precede it there. *)
Definition splitext (p : string) : string * string :=
  match rfind "." p with
  | None => (p, EmptyString)
  | Some dot =>
      let start := match rfind "/" p with Some i => S i | None => O end in
      if (start <=? dot)%nat && negb (all_dots (substring start (dot - start) p))
      then (substring 0 dot p, substring dot (String.length p - dot) p)
      else (p, EmptyString)
  end.

Definition digit_of (c : ascii) : option Z :=
  let n := N_of_ascii c in
  if (48 <=? n)%N && (n <=? 57)%N then Some (Z.of_N n - 48) else None.

(** Digits of an integer literal; a single underscore may separate two
    digits. [prev] tells whether the previous character was a digit. *)
Fixpoint digits_val (acc : Z) (prev : bool) (s : string) : option Z :=
  match s with
  | EmptyString => if prev then Some acc else None
  | String c s' =>
      match digit_of c with
      | Some d => digits_val (10 * acc + d) true s'
      | None => if Ascii.eqb c "_" && prev then digits_val acc false s' else None
      end
  end.

(** Blank characters that [int] skips around a literal. They are fewer
    than those of [str.strip]: the separators 0x1c to 0x1f are blank for
    [strip] and make [int] raise. *)
Definition is_int_space (c : ascii) : bool :=
  let n := N_of_ascii c in
  ((9 <=? n)%N && (n <=? 13)%N) || (n =? 32)%N.

Fixpoint int_lstrip (s : string) : string :=
  match s with
  | String c s' => if is_int_space c then int_lstrip s' else s
  | EmptyString => EmptyString
  end.

Fixpoint int_rstrip (s : string) : string :=
  match s with
  | EmptyString => EmptyString
  | String c s' =>
      match int_rstrip s' with
      | EmptyString => if is_int_space c then EmptyString else String c EmptyString
      | r => String c r
      end
  end.

(** [int(s)]: [None] stands for [ValueError]. *)
Definition int (s : string) : option Z :=
  match int_rstrip (int_lstrip s) with
  | String "-" r => Z.opp <$> digits_val 0 false r
  | String "+" r => digits_val 0 false r
  | r => digits_val 0 false r
  end.

(** [str(n)] and [f"{n}"] for an integer. *)
Definition str (n : Z) : string := NilZero.string_of_int (Z.to_int n).

Definition hexdigit (d : N) : ascii :=
  match d with
  | 0 => "0" | 1 => "1" | 2 => "2" | 3 => "3" | 4 => "4" | 5 => "5"
  | 6 => "6" | 7 => "7" | 8 => "8" | 9 => "9" | 10 => "a" | 11 => "b"
  | 12 => "c" | 13 => "d" | 14 => "e" | _ => "f"
  end%N%char.

Fixpoint hex_digits (k : nat) (n : N) (acc : string) : string :=
  match k with
  | O => acc
  | S k' => hex_digits k' (n / 16)%N (String (hexdigit (n mod 16)%N) acc)
  end.

(** [uuid.uuid4()] built from 128 random bits [r]: version and variant
    bits are forced. *)
Definition uuid4 (r : N) : N :=
  let i := (r mod 2 ^ 128)%N in
  let i := N.lor (N.ldiff i (N.shiftl 0xc000 48)) (N.shiftl 0x8000 48) in
  N.lor (N.ldiff i (N.shiftl 0xf000 64)) (N.shiftl 4 76).

(** [u.hex]: 32 lowercase hexadecimal digits. *)
Definition hex (u : N) : string := hex_digits 32 u EmptyString.

(** [s[:n]] *)
Definition take (n : nat) (s : string) : string := substring 0 n s.

(** [all(P(c) for c in s)] *)
Fixpoint all_chars (P : ascii -> bool) (s : string) : bool :=
  match s with
  | EmptyString => true
  | String c s' => P c && all_chars P s'
  end.

(** Character classes of the strings built by [str] and [hex]. *)
Definition is_digit (c : ascii) : bool :=
  match digit_of c with Some _ => true | None => false end.

Definition sign_or_digit (c : ascii) : bool := is_digit c || Ascii.eqb c "-".

Definition is_hex (c : ascii) : bool :=
  let n := N_of_ascii c in
  ((48 <=? n)%N && (n <=? 57)%N) || ((97 <=? n)%N && (n <=? 102)%N).

(** Value of a decimal numeral read from the left, starting from [acc]. *)
Definition uint_val (acc : Z) (d : Decimal.uint) : Z :=
  (fix go (d : Decimal.uint) (acc : Z) : Z :=
     match d with
     | Decimal.Nil => acc
     | Decimal.D0 l => go l (10 * acc + 0)
     | Decimal.D1 l => go l (10 * acc + 1)
     | Decimal.D2 l => go l (10 * acc + 2)
     | Decimal.D3 l => go l (10 * acc + 3)
     | Decimal.D4 l => go l (10 * acc + 4)
     | Decimal.D5 l => go l (10 * acc + 5)
     | Decimal.D6 l => go l (10 * acc + 6)
     | Decimal.D7 l => go l (10 * acc + 7)
     | Decimal.D8 l => go l (10 * acc + 8)
     | Decimal.D9 l => go l (10 * acc + 9)
     end) d acc.

End Py.

(** ** pathlib: pure paths

    An absolute POSIX path is the list of its components below the root.
    Components are names or [".."]; pathlib drops empty components and
    ["."] when it parses a string. *)
Definition path := list string.

Module PurePath.

Definition keep_part (c : string) : bool :=
  negb (String.eqb c EmptyString) && negb (String.eqb c ".").

(** A string that is one component naming a directory entry. *)
Definition is_name (c : string) : bool :=
  negb (String.eqb c EmptyString) && negb (String.eqb c ".") && negb (String.eqb c "..")
  && Py.all_chars (fun a => negb (Ascii.eqb a "/")) c.

(** Components of one string segment. *)
Definition parts (s : string) : list string := filter keep_part (Py.split "/" s).

(** [p / s]: a segment that starts with a slash replaces [p]. *)
Definition joinpath (p : path) (s : string) : path :=
  if Py.startswith "/" s then parts s else p ++ parts s.

(** [p.parent]: the root is its own parent. *)
Definition parent (p : path) : path := removelast p.

(** [p.name]: the last component, empty for the root. *)
Definition name (p : path) : string := List.last p EmptyString.

(** [os.path.abspath] / [Path.resolve] without symbolic links: [".."] is
    folded lexically, and the parent of the root is the root. *)
Definition normalize_from (stack : list string) (p : path) : list string :=
  fold_left (fun st c => if String.eqb c ".." then removelast st else st ++ [c]) p stack.

Definition normalize (p : path) : list string := normalize_from [] p.

(** [str(p)] *)
Definition to_string (p : path) : string :=
  match p with
  | [] => "/"
  | _ => String.concat EmptyString (map (fun c => "/" +:+ c) p)
  end.

End PurePath.

Notation "p // s" := (PurePath.joinpath p s) (at level 40, left associativity).

(** ** File contents *)

(** A decoded frame of [h] x [w] pixels, the [k]-th of its video, and the
    slices [frame[y1:y2, x1:x2]] cut out of it. *)
Inductive image :=
| Frame (h w : Z) (k : nat)
| Crop (src : image) (y1 y2 x1 x2 : Z).

Inductive json :=
| JStr (s : string)
| JList (l : list json)
| JObj (members : list (string * json)).

(** What a regular file holds: raw bytes, an image written by
    [cv2.imwrite], or a document written by [json.dump]. *)
Inductive data :=
| Blob (bytes : string)
| Jpeg (img : image)
| Json (doc : json).

(** ** The file hierarchy *)
Inductive node :=
| File (content : data)
| Dir (entries : gmap string node).

Module FS.

Inductive errno := ENOENT | ENOTDIR | EEXIST | EISDIR | ENOTEMPTY | EBUSY | EINVAL.

(** The node at a canonical path (names only) below [n]. *)
Fixpoint lookup_path (n : node) (p : list string) : option node :=
  match p with
  | [] => Some n
  | c :: p' =>
      match n with
      | Dir m => match m !! c with Some n' => lookup_path n' p' | None => None end
      | File _ => None
      end
  end.

(** Set ([Some]) or remove ([None]) the entry at a canonical path whose
    parent is a directory; anything else leaves the tree as it is. *)
Fixpoint update (p : list string) (x : option node) (n : node) : node :=
  match p, n with
  | [], _ => n
  | _, File _ => n
  | [c], Dir m => Dir (partial_alter (fun _ => x) c m)
  | c :: p', Dir m => Dir (alter (update p' x) c m)
  end.

(** What a canonical path holds. *)
Inductive kind := Missing | IsFile (d : data) | IsDir.

Definition kind_of (o : option node) : kind :=
  match o with
  | None => Missing
  | Some (File d) => IsFile d
  | Some (Dir _) => IsDir
  end.

Definition kind_at (fs : node) (p : list string) : kind := kind_of (lookup_path fs p).

(** Directories of [fs] are directories of [fs']. *)
Definition keeps_dirs (fs fs' : node) : Prop :=
  forall P, kind_at fs P = IsDir -> kind_at fs' P = IsDir.

(** Whatever [fs] holds, [fs'] holds unchanged: entries are only added. *)
Definition grows (fs fs' : node) : Prop :=
  forall P, kind_at fs P <> Missing -> kind_at fs' P = kind_at fs P.

Definition is_dir_node (n : node) : bool :=
  match n with Dir _ => true | File _ => false end.

Definition is_file_node (n : node) : bool :=
  match n with Dir _ => false | File _ => true end.

(** Path resolution as the kernel does it: before a component is taken
    the path walked so far must be a directory; [".."] steps to the
    parent, and the parent of the root is the root. *)
Fixpoint walk (fs : node) (stack : list string) (p : path) : errno + list string :=
  match p with
  | [] => inr stack
  | c :: p' =>
      match lookup_path fs stack with
      | None => inl ENOENT
      | Some (File _) => inl ENOTDIR
      | Some (Dir _) =>
          walk fs (if String.eqb c ".." then removelast stack else stack ++ [c]) p'
      end
  end.

(** Canonical path and node of [p] ([os.stat]). *)
Definition stat (fs : node) (p : path) : errno + (list string * node) :=
  match walk fs [] p with
  | inl e => inl e
  | inr q => match lookup_path fs q with
             | Some n => inr (q, n)
             | None => inl ENOENT
             end
  end.

(** [Path.exists], [Path.is_dir], [Path.is_file]: errors read as [False]. *)
Definition exists_ (fs : node) (p : path) : bool :=
  match stat fs p with inr _ => true | inl _ => false end.

Definition is_dir (fs : node) (p : path) : bool :=
  match stat fs p with inr (_, n) => is_dir_node n | inl _ => false end.

Definition is_file (fs : node) (p : path) : bool :=
  match stat fs p with inr (_, n) => is_file_node n | inl _ => false end.

(** [os.mkdir] *)
Definition os_mkdir (fs : node) (p : path) : errno + node :=
  match walk fs [] p with
  | inl e => inl e
  | inr q => match lookup_path fs q with
             | Some _ => inl EEXIST
             | None => inr (update q (Some (Dir ∅)) fs)
             end
  end.

(** [Path.mkdir(parents=False, exist_ok=...)]: the tree it leaves, and
    the error it raises, if any. *)
Definition mkdir_flat (exist_ok : bool) (fs : node) (p : path) : node * option errno :=
  match os_mkdir fs p with
  | inr fs' => (fs', None)
  | inl ENOENT => (fs, Some ENOENT)
  | inl e => if exist_ok && is_dir fs p then (fs, None) else (fs, Some e)
  end.

(** [Path.mkdir(parents=True, exist_ok=...)] on the path [rev rp]: on
    [FileNotFoundError] the parent is made first, with
    [parents=True, exist_ok=True], and the call is repeated without
    [parents]. Parents made before an error stay. *)
Fixpoint mkdir_parents (exist_ok : bool) (fs : node) (rp : list string)
  : node * option errno :=
  match os_mkdir fs (rev rp) with
  | inr fs' => (fs', None)
  | inl ENOENT =>
      match rp with
      | [] => (fs, Some ENOENT)
      | _ :: rparent =>
          match mkdir_parents true fs rparent with
          | (fs1, Some e) => (fs1, Some e)
          | (fs1, None) => mkdir_flat exist_ok fs1 (rev rp)
          end
      end
  | inl e => if exist_ok && is_dir fs (rev rp) then (fs, None) else (fs, Some e)
  end.

Definition mkdir (parents exist_ok : bool) (fs : node) (p : path) : node * option errno :=
  if parents then mkdir_parents exist_ok fs (rev p) else mkdir_flat exist_ok fs p.

(** [os.unlink] *)
Definition unlink (fs : node) (p : path) : errno + node :=
  match stat fs p with
  | inl e => inl e
  | inr (_, Dir _) => inl EISDIR
  | inr (q, File _) => inr (update q None fs)
  end.

(** [open(p, "w")], write, close: creates or truncates a regular file. *)
Definition write_file (fs : node) (p : path) (d : data) : errno + node :=
  match walk fs [] p with
  | inl e => inl e
  | inr q => match lookup_path fs q with
             | Some (Dir _) => inl EISDIR
             | _ => inr (update q (Some (File d)) fs)
             end
  end.

(** [Path.iterdir]: names and nodes of the entries, in the order the
    system lists them. *)
Definition iterdir (fs : node) (p : path) : errno + list (string * node) :=
  match stat fs p with
  | inl e => inl e
  | inr (_, File _) => inl ENOTDIR
  | inr (_, Dir m) => inr (map_to_list m)
  end.

Definition ends_with_dotdot (p : path) : bool :=
  match p with
  | [] => true
  | _ => String.eqb (List.last p EmptyString) ".."
  end.

(** [q] lies strictly below [p]. *)
Definition strictly_below (p q : list string) : bool :=
  bool_decide (p `prefix_of` q) && negb (bool_decide (p = q)).

(** [os.rename(src, dst)] *)
Definition rename (fs : node) (src dst : path) : errno + node :=
  match stat fs src with
  | inl e => inl e
  | inr (sq, sn) =>
      if ends_with_dotdot src then inl EBUSY
      else match walk fs [] dst with
      | inl e => inl e
      | inr dq =>
          if ends_with_dotdot dst then inl EBUSY
          else if bool_decide (sq = dq) then inr fs
          else if is_dir_node sn && strictly_below sq dq then inl EINVAL
          else
            let moved := update dq (Some sn) (update sq None fs) in
            match lookup_path fs dq, sn with
            | None, _ => inr moved
            | Some (File _), File _ => inr moved
            | Some (File _), Dir _ => inl ENOTDIR
            | Some (Dir _), File _ => inl EISDIR
            | Some (Dir m), Dir _ =>
                if Nat.eqb (size m) 0 then inr moved else inl ENOTEMPTY
            end
      end
  end.

(** [os.path.samefile], with errors read as [False]. *)
Definition samefile (fs : node) (p1 p2 : path) : bool :=
  match stat fs p1, stat fs p2 with
  | inr (q1, _), inr (q2, _) => bool_decide (q1 = q2)
  | _, _ => false
  end.

(** Outcome of [shutil.move]. The copy-and-delete fallback it takes when
    [os.rename] refuses a directory that could be copied is not part of
    this model: [MoveBeyond]. *)
Inductive move_result :=
| Moved (fs : node)
| MoveError              (* shutil.Error *)
| MoveOSError (e : errno)
| MoveBeyond.

(** [shutil.move(str(src), str(dst))] *)
Definition shutil_move (fs : node) (src dst : path) : move_result :=
  let go (real_dst : path) :=
    match rename fs src real_dst with
    | inr fs' => Moved fs'
    | inl e =>
        if is_dir fs src then
          if bool_decide (PurePath.normalize src `prefix_of` PurePath.normalize dst)
          then MoveError
          else if exists_ fs real_dst then MoveOSError EEXIST
          else MoveBeyond
        else MoveOSError e
    end in
  if is_dir fs dst then
    if samefile fs src dst then
      match rename fs src dst with
      | inr fs' => Moved fs'
      | inl e => MoveOSError e
      end
    else
      let real_dst := dst ++ [PurePath.name src] in
      if exists_ fs real_dst then MoveError else go real_dst
  else go dst.

(** [shutil.rmtree(p, ignore_errors=True)] for a path that names an
    entry of its parent directory; errors leave the tree as it is.
    [None]: not part of this model (the root, or a path ending in
    [".."]). *)
Definition rmtree_ignore (fs : node) (p : path) : option node :=
  if ends_with_dotdot p then None
  else match stat fs p with
       | inr (q, Dir _) => Some (update q None fs)
       | _ => Some fs
       end.

End FS.

(** ** Exceptions, results and the state monad of the handlers *)

Inductive exc :=
| HTTPException (status_code : Z) (detail : string)
| ProcessingFailed (cause : exc)   (* HTTPException(500, f"Processing failed: {e}") from e *)
| OSError (e : FS.errno)
| ShutilError
| AdapterError (msg : string).

(** Status the client sees; an exception no handler catches is a 500. *)
Definition status_of (e : exc) : Z :=
  match e with
  | HTTPException c _ => c
  | _ => 500
  end.

(** The store: the file hierarchy, and the paths opened for writing so
    far, oldest first. *)
Record world := World { tree : node; written : list path }.

Inductive result (S A : Type) :=
| Returns (a : A) (s : S)
| Raises (e : exc) (s : S)
| Beyond.   (* a library call left the model, see [FS.shutil_move] *)
Arguments Returns {S A} a s.
Arguments Raises {S A} e s.
Arguments Beyond {S A}.

Definition M (S A : Type) : Type := S -> result S A.

Definition ret {S A} (a : A) : M S A := fun s => Returns a s.

Definition raise {S A} (e : exc) : M S A := fun s => Raises e s.

Definition bind {S A B} (m : M S A) (k : A -> M S B) : M S B :=
  fun s => match m s with
           | Returns a s' => k a s'
           | Raises e s' => Raises e s'
           | Beyond => Beyond
           end.

(** [try: m except Exception as e: h e] *)
Definition try_except {S A} (m : M S A) (h : exc -> M S A) : M S A :=
  fun s => match m s with
           | Raises e s' => h e s'
           | r => r
           end.

Notation "'do' x <- m ; k" := (bind m (fun x => k))
  (at level 10, x name, m at level 100, k at level 200).
Notation "m ;; k" := (bind m (fun _ => k))
  (at level 100, k at level 200, right associativity).

(** Run a handler of the store inside a larger state. *)
Definition lift {S A} (get : S -> world) (put : world -> S -> S) (m : M world A) : M S A :=
  fun s => match m (get s) with
           | Returns a w => Returns a (put w s)
           | Raises e w => Raises e (put w s)
           | Beyond => Beyond
           end.

(** *** The file system calls as actions on the store *)
Module Sys.

Definition observe {A} (f : node -> A) : M world A :=
  fun w => Returns (f (tree w)) w.

Definition os_call (f : node -> FS.errno + node) : M world unit :=
  fun w => match f (tree w) with
           | inr t => Returns tt (World t (written w))
           | inl e => Raises (OSError e) w
           end.

Definition exists_ (p : path) : M world bool := observe (fun t => FS.exists_ t p).

Definition mkdir (parents exist_ok : bool) (p : path) : M world unit :=
  fun w => match FS.mkdir parents exist_ok (tree w) p with
           | (t, None) => Returns tt (World t (written w))
           | (t, Some e) => Raises (OSError e) (World t (written w))
           end.

Definition unlink (p : path) : M world unit := os_call (fun t => FS.unlink t p).

Definition rename (src dst : path) : M world unit :=
  os_call (fun t => FS.rename t src dst).

Definition iterdir (p : path) : M world (list (string * node)) :=
  fun w => match FS.iterdir (tree w) p with
           | inr l => Returns l w
           | inl e => Raises (OSError e) w
           end.

Definition shutil_move (src dst : path) : M world unit :=
  fun w => match FS.shutil_move (tree w) src dst with
           | FS.Moved t => Returns tt (World t (written w))
           | FS.MoveError => Raises ShutilError w
           | FS.MoveOSError e => Raises (OSError e) w
           | FS.MoveBeyond => Beyond
           end.

Definition rmtree_ignore (p : path) : M world unit :=
  fun w => match FS.rmtree_ignore (tree w) p with
           | Some t => Returns tt (World t (written w))
           | None => Beyond
           end.

(** [with open(p, "w") as f: f.write(d)] *)
Definition write_file (p : path) (d : data) : M world unit :=
  fun w => match FS.write_file (tree w) p d with
           | inr t => Returns tt (World t (written w ++ [p]))
           | inl e => Raises (OSError e) w
           end.

(** [cv2.imwrite(str(p), img)]: a file that cannot be written is
    reported by the return value, which the program does not look at. *)
Definition imwrite (p : path) (img : image) : M world bool :=
  fun w => match FS.write_file (tree w) p (Jpeg img) with
           | inr t => Returns true (World t (written w ++ [p]))
           | inl _ => Returns false w
           end.

End Sys.

(** ** The detector and the video, as inputs *)

(** One result of the tracking stream: [orig_img], and [boxes] with its
    [id] and [xyxy] attributes. An entry of [xyxy] that does not convert
    to four integers is [None]. *)
Record track_boxes := TrackBoxes {
  tb_id : option (list Z);
  tb_xyxy : option (list (option (Z * Z * Z * Z)))
}.

Record track_result := TrackResult {
  orig_img : option image;
  tr_boxes : option track_boxes
}.

(** One box of the per-frame detector: class and corners, [None] where
    reading the attribute raises. *)
Record det_box := DetBox {
  db_cls : option Z;
  db_xyxy : option (Z * Z * Z * Z)
}.

(** What [model(path, conf=...)] does on one frame. *)
Inductive detection :=
| DetRaises (msg : string)
| DetResults (results : list (option (list det_box))).

Record detector := Detector {
  has_track : bool;                                (* getattr(model, "track", None) *)
  track_stream : list track_result * option string; (* results, then how the stream ends *)
  capture : list (image * detection)                (* frames of cap.read(), with the detector's answer *)
}.

(** [frame.shape[:2]] *)
Definition shape (i : image) : Z * Z :=
  match i with
  | Frame h w _ => (h, w)
  | Crop _ y1 y2 x1 x2 => (y2 - y1, x2 - x1)
  end.

(** ** JSON bodies *)
Definition json_of_map (pm : list (string * list string)) : json :=
  JObj (map (fun kv => (kv.1, JList (map JStr kv.2))) pm).

(** [d.setdefault(k, []).append(v)] on an insertion-ordered dict. *)
Fixpoint setdefault_append (k v : string) (d : list (string * list string))
  : list (string * list string) :=
  match d with
  | [] => [(k, [v])]
  | (k', vs) :: d' =>
      if String.eqb k' k then (k', vs ++ [v]) :: d'
      else (k', vs) :: setdefault_append k v d'
  end.

(** [payload.get(k)] and the truth value of what it returns. *)
Definition truthy_opt (o : option string) : bool :=
  match o with Some s => Py.truthy s | None => false end.

Definition the (o : option string) : string := default EmptyString o.

(** ** main.py *)
Section Backend.

(** [Path(__file__).resolve().parent] *)
Variable BACKEND_DIR : path.

Definition FRONTEND_DIR : path := PurePath.parent BACKEND_DIR // "annotation-frontend".
Definition UPLOADS_DIR : path := BACKEND_DIR // "uploads".
Definition ANNOTATIONS_DIR : path := BACKEND_DIR // "annotations".
Definition PERSONS_DB : path := BACKEND_DIR // "persons".
Definition TEMP_ROOT : path := FRONTEND_DIR // "temp".
Definition STATIC_DIR : path := FRONTEND_DIR // "static".
Definition TEMPLATES_DIR : path := FRONTEND_DIR // "templates".

(** Ensure folders exist. *)
Definition startup : M world unit :=
  fold_right (fun p k => Sys.mkdir true true p ;; k) (ret tt)
    [UPLOADS_DIR; ANNOTATIONS_DIR; PERSONS_DB; TEMP_ROOT; STATIC_DIR; TEMPLATES_DIR].

(** *** Helpers *)

Definition safe_temp_session_path (session_id : string) : exc + path :=
  let path := PurePath.normalize (TEMP_ROOT // session_id) in
  if negb (Py.startswith (PurePath.to_string (PurePath.normalize TEMP_ROOT))
                         (PurePath.to_string path))
  then inl (HTTPException 400 "Invalid session path")
  else inr path.

(** [sorted(folder.iterdir())]: entries of one directory, by name. *)
Definition sorted_entries (l : list (string * node)) : list (string * node) :=
  merge_sort (fun a b => String.le a.1 b.1) l.

Definition web_path (session_id person file : string) : string :=
  "/temp/" +:+ session_id +:+ "/" +:+ person +:+ "/" +:+ file.

(** Images of one person folder: its regular files, by name. *)
Definition list_images (session_id person : string) (files : list (string * node))
  : list string :=
  map (fun f => web_path session_id person f.1)
      (filter (fun f => FS.is_file_node f.2) (sorted_entries files)).

Definition list_session_persons (session_id : string)
  : M world (list (string * list string)) :=
  let session_folder := TEMP_ROOT // session_id in
  do found <- Sys.exists_ session_folder;
  if negb found then raise (HTTPException 404 "Session not found") else
  do entries <- Sys.iterdir session_folder;
  ret (omap (fun person_folder =>
              match person_folder.2 with
              | Dir files => Some (person_folder.1,
                                   list_images session_id person_folder.1 (map_to_list files))
              | File _ => None
              end)
            (sorted_entries entries)).

(** *** Upload and process a video *)

Definition MIN_BOX_AREA : Z := 25 * 25.
Definition SAMPLE_EVERY_N_FRAMES : Z := 1.

(** State of the pipeline: the store and the [person_map] dict. *)
Record pipe := Pipe { store : world; person_map : list (string * list string) }.

Definition in_store {A} (m : M world A) : M pipe A :=
  lift store (fun w s => Pipe w (person_map s)) m.

Definition run_pipe (m : M pipe unit) : M world (list (string * list string)) :=
  fun w => match m (Pipe w []) with
           | Returns _ s => Returns (person_map s) (store s)
           | Raises e s => Raises e (store s)
           | Beyond => Beyond
           end.

Fixpoint for_each {S A} (l : list A) (body : A -> M S unit) : M S unit :=
  match l with
  | [] => ret tt
  | x :: l' => body x ;; for_each l' body
  end.

(** Clamp a box to the frame and filter it by size; [None]: skipped. *)
Definition clamp_box (h w : Z) (c : Z * Z * Z * Z) : option (Z * Z * Z * Z) :=
  let '(x1, y1, x2, y2) := c in
  let x1 := Z.max 0 (Z.min x1 (w - 1)) in
  let x2 := Z.max 0 (Z.min x2 (w - 1)) in
  let y1 := Z.max 0 (Z.min y1 (h - 1)) in
  let y2 := Z.max 0 (Z.min y2 (h - 1)) in
  if (x2 <=? x1) || (y2 <=? y1) then None
  else if (x2 - x1) * (y2 - y1) <? MIN_BOX_AREA then None
  else Some (x1, y1, x2, y2).

Section Session.

Variable session_id : string.

Definition session_temp : path := TEMP_ROOT // session_id.

(** Helper to save crop and map to web path. *)
Definition save_crop_and_map (person_key : string) (crop_img : image) (fname : string)
  : M pipe unit :=
  let folder := session_temp // person_key in
  in_store (Sys.mkdir true true folder) ;;
  let dst := folder // fname in
  in_store (Sys.imwrite dst crop_img) ;;
  let web := web_path session_id person_key fname in
  fun s => Returns tt (Pipe (store s) (setdefault_append person_key web (person_map s))).

(** Body of the tracking loop for one result of the stream. *)
Definition track_frame (frame_idx : Z) (result : track_result) : M pipe unit :=
  match orig_img result with
  | None => ret tt
  | Some frame =>
      match tr_boxes result with
      | None => ret tt
      | Some boxes =>
          let ids_list := default [] (tb_id boxes) in
          match tb_xyxy boxes with
          | None => ret tt
          | Some xyxy_np =>
              let '(h, w) := shape frame in
              for_each (imap (fun i tid => (i, tid)) ids_list)
                (fun it =>
                   let '(i, tid) := it in
                   match xyxy_np !! i with
                   | Some (Some coords) =>
                       match clamp_box h w coords with
                       | Some (x1, y1, x2, y2) =>
                           let crop := Crop frame y1 y2 x1 x2 in
                           let person_key := "person_" +:+ Py.str tid in
                           let fname :=
                             "f" +:+ Py.str frame_idx +:+ "_id" +:+ Py.str tid +:+ ".jpg" in
                           save_crop_and_map person_key crop fname
                       | None => ret tt
                       end
                   | _ => ret tt
                   end)
          end
      end
  end.

(** A result that raises is passed over; [frame_idx] advances anyway. *)
Fixpoint track_loop (frame_idx : Z) (stream : list track_result) : M pipe unit :=
  match stream with
  | [] => ret tt
  | result :: rest =>
      try_except (track_frame frame_idx result) (fun _ => ret tt) ;;
      track_loop (frame_idx + 1) rest
  end.

Definition track_all (stream : list track_result * option string) : M pipe unit :=
  track_loop 0 stream.1 ;;
  match stream.2 with
  | Some msg => raise (AdapterError msg)
  | None => ret tt
  end.

(** Boxes of one frame in the fallback; returns the next person id. *)
Fixpoint detect_boxes (frame : image) (frame_idx next_pid : Z) (boxes : list det_box)
  : M pipe Z :=
  match boxes with
  | [] => ret next_pid
  | r :: rest =>
      let continue := detect_boxes frame frame_idx next_pid rest in
      match db_cls r with
      | None => continue
      | Some cls =>
          if negb (cls =? 0) then continue else
          match db_xyxy r with
          | None => continue
          | Some coords =>
              let '(h, w) := shape frame in
              match clamp_box h w coords with
              | None => continue
              | Some (x1, y1, x2, y2) =>
                  let crop := Crop frame y1 y2 x1 x2 in
                  let person_key := "person_" +:+ Py.str next_pid in
                  let fname :=
                    "f" +:+ Py.str frame_idx +:+ "_p" +:+ Py.str next_pid +:+ ".jpg" in
                  save_crop_and_map person_key crop fname ;;
                  detect_boxes frame frame_idx (next_pid + 1) rest
              end
          end
      end
  end.

(** Fallback: per-frame detection without tracking. *)
Fixpoint detect_loop (frame_idx next_pid : Z) (frames : list (image * detection))
  : M pipe unit :=
  match frames with
  | [] => ret tt
  | (frame, answer) :: rest =>
      do next_pid' <-
        (if frame_idx mod SAMPLE_EVERY_N_FRAMES =? 0 then
           let tmp_frame_path := session_temp // ("frame_" +:+ Py.str frame_idx +:+ ".jpg") in
           in_store (Sys.imwrite tmp_frame_path frame) ;;
           do results <- match answer with
                         | DetRaises msg => raise (AdapterError msg)
                         | DetResults results => ret results
                         end;
           match results with
           | Some (b :: bs) :: _ => detect_boxes frame frame_idx next_pid (b :: bs)
           | _ => ret next_pid
           end
         else ret next_pid);
      detect_loop (frame_idx + 1) next_pid' rest
  end.

End Session.

(** [r] are the random bits of [uuid.uuid4], [file] the uploaded bytes,
    [model] the module-level detector ([None] when it is not available). *)
Definition upload_video (r : N) (file : string) (model : option detector) : M world json :=
  let session_id := Py.hex (Py.uuid4 r) in
  let upload_path := UPLOADS_DIR // (session_id +:+ ".mp4") in
  Sys.write_file upload_path (Blob file) ;;
  let session_temp := TEMP_ROOT // session_id in
  Sys.mkdir true true session_temp ;;
  match model with
  | None => ret (JObj [("session_id", JStr session_id); ("persons", JObj [])])
  | Some model =>
      let use_tracking := has_track model in
      try_except
        (do person_map <-
           run_pipe (if use_tracking then track_all session_id (track_stream model)
                     else detect_loop session_id 0 0 (capture model));
         let ann_file := session_temp // "annotation.json" in
         Sys.write_file ann_file (Json (json_of_map person_map)) ;;
         let summary_path := ANNOTATIONS_DIR // (session_id +:+ "_summary.json") in
         Sys.write_file summary_path
           (Json (JObj [("session_id", JStr session_id); ("persons", json_of_map person_map)])) ;;
         ret (JObj [("session_id", JStr session_id); ("persons", json_of_map person_map)]))
        (fun e =>
           try_except
             (do found <- Sys.exists_ session_temp;
              if found then Sys.rmtree_ignore session_temp else ret tt)
             (fun _ => ret tt) ;;
           raise (ProcessingFailed e))
  end.

(** *** Session helpers and human-in-the-loop endpoints *)

Definition get_session_persons (session_id : string) : M world json :=
  do persons <- list_session_persons session_id;
  ret (JObj [("session_id", JStr session_id); ("persons", json_of_map persons)]).

Definition list_sessions : M world json :=
  do entries <- Sys.iterdir TEMP_ROOT;
  let sessions := map fst (filter (fun p => FS.is_dir_node p.2) entries) in
  ret (JObj [("sessions", JList (map JStr sessions))]).

(** [int(e.split("_")[1])]; [None] when it raises. *)
Definition index_of_name (e : string) : option Z :=
  match Py.split "_" e !! 1%nat with
  | Some field => Py.int field
  | None => None
  end.

(** The loop of [add_person] and [confirm_session] over existing names;
    names whose index does not parse are passed over. *)
Definition next_index (start : Z) (existing : list string) : Z :=
  fold_left (fun idx e =>
               match index_of_name e with
               | Some n => Z.max idx (n + 1)
               | None => idx
               end) existing start.

Definition add_person (payload : gmap string string) : M world json :=
  let session_id := payload !! "session_id" in
  let name := payload !! "name" in
  if negb (truthy_opt session_id) then raise (HTTPException 400 "session_id required") else
  let session_dir := TEMP_ROOT // the session_id in
  do found <- Sys.exists_ session_dir;
  if negb found then raise (HTTPException 404 "Session not found") else
  do new_name <-
    (if truthy_opt name then ret (Py.replace " " "_" (Py.strip (the name)))
     else
       do entries <- Sys.iterdir session_dir;
       let existing :=
         map fst (filter (fun p => FS.is_dir_node p.2 && Py.startswith "person_" p.1) entries) in
       let idx := next_index 0 existing in
       ret ("person_" +:+ Py.str idx));
  let new_folder := session_dir // new_name in
  do taken <- Sys.exists_ new_folder;
  if taken then raise (HTTPException 400 "Person folder exists") else
  Sys.mkdir true false new_folder ;;
  ret (JObj [("person", JStr new_name)]).

(** [r] are the random bits [uuid.uuid4] draws when it is called. *)
Definition move_image (r : N) (payload : gmap string string) : M world json :=
  let src := payload !! "src" in
  let dest_person := payload !! "dest_person" in
  if negb (truthy_opt src) || negb (truthy_opt dest_person)
  then raise (HTTPException 400 "src and dest_person required") else
  if negb (Py.startswith "/temp/" (the src))
  then raise (HTTPException 400 "Only /temp/ paths supported") else
  let parts := Py.split "/" (the src) in
  if (List.length parts <? 5)%nat then raise (HTTPException 400 "Invalid src path") else
  let session_id := nth 2 parts EmptyString in
  let filename := List.last parts EmptyString in
  let src_fs := TEMP_ROOT // session_id // nth 3 parts EmptyString // filename in
  do found <- Sys.exists_ src_fs;
  if negb found then raise (HTTPException 404 "Source file not found") else
  let dest_folder_fs := TEMP_ROOT // session_id // the dest_person in
  Sys.mkdir true true dest_folder_fs ;;
  do taken <- Sys.exists_ (dest_folder_fs // filename);
  let dest_fs :=
    if taken then
      let '(base, ext) := Py.splitext filename in
      dest_folder_fs // (base +:+ "_" +:+ Py.take 6 (Py.hex (Py.uuid4 r)) +:+ ext)
    else dest_folder_fs // filename in
  Sys.shutil_move src_fs dest_fs ;;
  let new_web := web_path session_id (the dest_person) (PurePath.name dest_fs) in
  ret (JObj [("moved_to", JStr new_web)]).

Definition delete_image (payload : gmap string string) : M world json :=
  let path := payload !! "path" in
  if negb (truthy_opt path) || negb (Py.startswith "/temp/" (the path))
  then raise (HTTPException 400 "Invalid path") else
  let parts := Py.split "/" (the path) in
  if (List.length parts <? 5)%nat then raise (HTTPException 400 "Invalid path") else
  let session_id := nth 2 parts EmptyString in
  let filename := List.last parts EmptyString in
  let fs := TEMP_ROOT // session_id // nth 3 parts EmptyString // filename in
  do found <- Sys.exists_ fs;
  if negb found then raise (HTTPException 404 "File not found") else
  Sys.unlink fs ;;
  ret (JObj [("deleted", JStr (the path))]).

Definition rename_person (payload : gmap string string) : M world json :=
  let session_id := payload !! "session_id" in
  let old_name := payload !! "old_name" in
  let new_name := payload !! "new_name" in
  if negb (truthy_opt session_id && truthy_opt old_name && truthy_opt new_name)
  then raise (HTTPException 400 "Missing parameters") else
  let session_dir := TEMP_ROOT // the session_id in
  let old_fs := session_dir // the old_name in
  let new_fs := session_dir // the new_name in
  do old_found <- Sys.exists_ old_fs;
  if negb old_found then raise (HTTPException 404 "Old person not found") else
  do new_found <- Sys.exists_ new_fs;
  if new_found then raise (HTTPException 400 "Target name exists") else
  Sys.rename old_fs new_fs ;;
  ret (JObj [("from", JStr (the old_name)); ("to", JStr (the new_name))]).

Definition confirm_session (payload : gmap string string) : M world json :=
  let session_id := payload !! "session_id" in
  if negb (truthy_opt session_id) then raise (HTTPException 400 "session_id required") else
  let src := TEMP_ROOT // the session_id in
  do found <- Sys.exists_ src;
  if negb found then raise (HTTPException 404 "Session not found") else
  Sys.mkdir true true PERSONS_DB ;;
  do entries <- Sys.iterdir PERSONS_DB;
  let existing := map fst (filter (fun d => FS.is_dir_node d.2) entries) in
  let n := next_index 1 (filter (fun d => Py.startswith "database_" d) existing) in
  let dest := PERSONS_DB // ("database_" +:+ Py.str n) in
  Sys.shutil_move src dest ;;
  ret (JObj [("moved_to", JStr ("/persons/" +:+ PurePath.name dest))]).

End Backend.

(** ** Notions used to state the properties *)

(** The file a web path is taken to by [move_image] and [delete_image]. *)
Definition image_file (B : path) (web : string) : path :=
  let parts := Py.split "/" web in
  TEMP_ROOT B // nth 2 parts EmptyString // nth 3 parts EmptyString
              // List.last parts EmptyString.

(** A web path that passes the checks of [move_image]. *)
Definition well_formed_web (web : string) : Prop :=
  web <> EmptyString /\ Py.startswith "/temp/" web = true /\
  (5 <= List.length (Py.split "/" web))%nat.

(** *** Sequences of corrections *)

Inductive correction :=
| AddPerson (payload : gmap string string)
| MoveImage (r : N) (payload : gmap string string)
| DeleteImage (payload : gmap string string)
| RenamePerson (payload : gmap string string).

Definition apply_correction (B : path) (c : correction) : M world json :=
  match c with
  | AddPerson payload => add_person B payload
  | MoveImage r payload => move_image B r payload
  | DeleteImage payload => delete_image B payload
  | RenamePerson payload => rename_person B payload
  end.

(** A web path of the fixed pattern [/temp/<session>/<group>/<file>]. *)
Definition matches_pattern (web : string) : bool :=
  match Py.split "/" web with
  | [e; t; s; g; f] =>
      String.eqb e EmptyString && String.eqb t "temp"
      && PurePath.is_name s && PurePath.is_name g && PurePath.is_name f
  | _ => false
  end.

(** A request that addresses images by web paths of the fixed pattern
    and groups by the name of a directory of the session. *)
Definition well_addressed (B : path) (w : world) (c : correction) : bool :=
  match c with
  | AddPerson _ => true
  | MoveImage _ payload =>
      matches_pattern (the (payload !! "src"))
      && PurePath.is_name (the (payload !! "dest_person"))
  | DeleteImage payload => matches_pattern (the (payload !! "path"))
  | RenamePerson payload =>
      PurePath.is_name (the (payload !! "session_id"))
      && PurePath.is_name (the (payload !! "old_name"))
      && PurePath.is_name (the (payload !! "new_name"))
      && FS.is_dir (tree w) (TEMP_ROOT B // the (payload !! "session_id")
                                         // the (payload !! "old_name"))
  end.

(** The store a handler leaves, whether it returns or raises. *)
Inductive leaves {A} : result world A -> world -> Prop :=
| leaves_returns a w : leaves (Returns a w) w
| leaves_raises e w : leaves (Raises e w) w.

(** [corrections B w cs w']: the well-addressed requests [cs], served one
    after the other from [w], leave [w']. *)
Inductive corrections (B : path) : world -> list correction -> world -> Prop :=
| corrections_nil w : corrections B w [] w
| corrections_cons w c cs w1 w2 :
    well_addressed B w c = true ->
    leaves (apply_correction B c w) w1 ->
    corrections B w1 cs w2 ->
    corrections B w (c :: cs) w2.

(** The store keeps the file at [P] and opens no file for writing. *)
Definition keeps_file (P : list string) (w w' : world) : Prop :=
  written w' = written w /\
  forall d, FS.kind_at (tree w) P = FS.IsFile d -> FS.kind_at (tree w') P = FS.IsFile d.

(** *** Steps of the pipeline *)

(** From [w] to [w']: directories stay directories, and the files opened
    for writing in between all satisfy [okp]. *)
Definition step_rel (okp : path -> Prop) (w w' : world) : Prop :=
  FS.keeps_dirs (tree w) (tree w') /\
  exists l, written w' = written w ++ l /\ Forall okp l.

(** An action that never leaves the model and whose every run, returning
    or raising, is such a step. *)
Definition safe {S A} (get : S -> world) (okp : path -> Prop) (m : M S A) : Prop :=
  forall s, match m s with
            | Returns _ s' | Raises _ s' => step_rel okp (get s) (get s')
            | Beyond => False
            end.

(** How often a path was opened for writing. *)
Definition times_written (p : path) (l : list path) : nat :=
  List.length (filter (fun q => q = p) l).

(** *** The parts of [upload_video] *)

(** [uuid.uuid4().hex] on the random bits [r]. *)
Definition new_session_id (r : N) : string := Py.hex (Py.uuid4 r).

Definition session_dir (B : path) (r : N) : path := TEMP_ROOT B ++ [new_session_id r].

Definition upload_path (B : path) (r : N) : path :=
  UPLOADS_DIR B ++ [new_session_id r +:+ ".mp4"].

Definition ann_file (B : path) (r : N) : path := session_dir B r ++ ["annotation.json"].

Definition summary_path (B : path) (r : N) : path :=
  ANNOTATIONS_DIR B ++ [new_session_id r +:+ "_summary.json"].

(** The statements inside [try]. *)
Definition ingest (B : path) (r : N) (model : detector) : M world json :=
  let sid := new_session_id r in
  do person_map <-
    run_pipe (if has_track model then track_all B sid (track_stream model)
              else detect_loop B sid 0 0 (capture model));
  Sys.write_file (ann_file B r) (Json (json_of_map person_map)) ;;
  Sys.write_file (summary_path B r)
    (Json (JObj [("session_id", JStr sid); ("persons", json_of_map person_map)])) ;;
  ret (JObj [("session_id", JStr sid); ("persons", json_of_map person_map)]).

(** The [except] clause. *)
Definition cleanup (B : path) (r : N) (e : exc) : M world json :=
  try_except
    (do found <- Sys.exists_ (session_dir B r);
     if found then Sys.rmtree_ignore (session_dir B r) else ret tt)
    (fun _ => ret tt) ;;
  raise (ProcessingFailed e).

(** ** Example stores *)

(** The store a run leaves, [w] itself when the run left the model. *)
Definition store_after {A} (r : result world A) (w : world) : world :=
  match r with
  | Returns _ w' | Raises _ w' => w'
  | Beyond => w
  end.

Definition run {A} (m : M world A) (w : world) : world := store_after (m w) w.

(** The run stayed inside the model. *)
Definition stays {A} (r : result world A) : bool :=
  match r with
  | Beyond => false
  | _ => true
  end.

(** The store after serving the requests [cs] one after the other. *)
Definition run_all (B : path) (cs : list correction) (w : world) : world :=
  fold_left (fun w c => run (apply_correction B c) w) cs w.

(** Every request of [cs] is well addressed in the store it is served
    from, and none of them leaves the model. *)
Fixpoint admissible (B : path) (cs : list correction) (w : world) : bool :=
  match cs with
  | [] => true
  | c :: cs' =>
      well_addressed B w c && stays (apply_correction B c w)
      && admissible B cs' (run (apply_correction B c) w)
  end.

Module Ex.

Definition B : path := ["srv"; "ANNOATION"; "annotation-backend"].

(** After start-up, with the page template in place. *)
Definition provisioned : world :=
  run (Sys.write_file (TEMPLATES_DIR B // "index.html") (Blob "<html>"))
      (run (startup B) (World (Dir ∅) [])).

(** A detector without tracking, and a video of two frames with one
    person each. *)
Definition per_frame : detector :=
  Detector false ([], None)
    [(Frame 100 200 0, DetResults [Some [DetBox (Some 0) (Some (0, 0, 50, 50))]]);
     (Frame 100 200 1, DetResults [Some [DetBox (Some 0) (Some (10, 10, 90, 90))]])].

(** A detector that raises on the second frame. *)
Definition failing : detector :=
  Detector false ([], None)
    [(Frame 100 200 0, DetResults [Some [DetBox (Some 0) (Some (0, 0, 50, 50))]]);
     (Frame 100 200 1, DetRaises "out of memory")].

Definition sid : string := new_session_id 5.

Definition ingested : world := run (upload_video B 5 "video" (Some per_frame)) provisioned.

Definition snapshot : path := TEMP_ROOT B ++ [sid; "annotation.json"].

(** The session, with two more files in [person_1]: one named like the
    crop of [person_0], one named like that crop with the suffix that
    [uuid4] yields on the random bits 0. *)
Definition crowded : world :=
  run (Sys.write_file (TEMP_ROOT B ++ [sid; "person_1"; "f0_p0_000000.jpg"]) (Blob "keep me"))
      (run (Sys.write_file (TEMP_ROOT B ++ [sid; "person_1"; "f0_p0.jpg"]) (Blob "other"))
           ingested).

(** A session whose only group is [person_5_x]. *)
Definition odd_group : world :=
  run (Sys.mkdir true true (TEMP_ROOT B ++ ["s"; "person_5_x"])) provisioned.

(** A session whose only group is [person_0]. *)
Definition one_group : world :=
  run (Sys.mkdir true true (TEMP_ROOT B ++ ["s"; "person_0"])) provisioned.

Definition move_request (src dest_person : string) : gmap string string :=
  {[ "src" := src; "dest_person" := dest_person ]}.

Definition session_request (session_id : string) : gmap string string :=
  {[ "session_id" := session_id ]}.

(** Requests whose paths leave the session. *)
Definition move_out : gmap string string :=
  move_request (web_path sid "person_0" "f0_p0.jpg") "../../stolen".

Definition delete_template : gmap string string :=
  {[ "path" := "/temp/../templates/index.html" ]}.

Definition add_outside : gmap string string :=
  {[ "session_id" := sid; "name" := "../../static/evil" ]}.

Definition rename_templates : gmap string string :=
  {[ "session_id" := ".."; "old_name" := "templates"; "new_name" := "gone" ]}.

(** A request for the snapshot itself, through an empty group name. *)
Definition delete_snapshot : gmap string string :=
  {[ "path" := "/temp/" +:+ sid +:+ "//annotation.json" ]}.

(** A move onto a taken name. *)
Definition move_clash : gmap string string :=
  move_request (web_path sid "person_0" "f0_p0.jpg") "person_1".

(** The person map of [ingested], as returned and as written to the
    snapshot. *)
Definition first_persons : json :=
  JObj [("person_0", JList [JStr (web_path sid "person_0" "f0_p0.jpg")]);
        ("person_1", JList [JStr (web_path sid "person_1" "f1_p1.jpg")])].

Definition first_map : data := Json first_persons.

(** A round of corrections on [ingested]. *)
Definition edits : list correction :=
  [ MoveImage 0 (move_request (web_path sid "person_0" "f0_p0.jpg") "person_1");
    RenamePerson {[ "session_id" := sid; "old_name" := "person_1"; "new_name" := "bob" ]};
    AddPerson (session_request sid);
    DeleteImage {[ "path" := web_path sid "bob" "f1_p1.jpg" ]};
    DeleteImage {[ "path" := web_path sid "bob" "f1_p1.jpg" ]} ].

Definition named_request (session_id name : string) : gmap string string :=
  {[ "session_id" := session_id; "name" := name ]}.

(** A move whose source has a field between the group and the file. *)
Definition move_longer : gmap string string :=
  move_request ("/temp/" +:+ sid +:+ "/person_0/nosuchdir/f0_p0.jpg") "person_9".

End Ex.

(** *** The person map of the pipeline *)

(** [m], run in a state whose person map satisfies [P], leaves a map
    that satisfies [Q a] when it returns [a] and [R] when it raises. *)
Definition maps {A} (P : list (string * list string) -> Prop) (m : M pipe A)
    (Q : A -> list (string * list string) -> Prop)
    (R : list (string * list string) -> Prop) : Prop :=
  forall s, P (person_map s) ->
    match m s with
    | Returns a s' => Q a (person_map s')
    | Raises _ s' => R (person_map s')
    | Beyond => True
    end.

(** The keys are distinct, no group is empty, and every image of a group
    is the web path of a file [f] of that group with [ok key f]. *)
Definition grouped (sid : string) (ok : string -> string -> Prop)
    (pm : list (string * list string)) : Prop :=
  NoDup (map fst pm) /\
  Forall (fun kv => kv.2 <> [] /\
                    Forall (fun u => exists f, ok kv.1 f /\ u = web_path sid kv.1 f) kv.2) pm.

(** Names of the tracking mode: the group and the file carry the same
    track id. *)
Definition track_names (key file : string) : Prop :=
  exists tid idx, key = "person_" +:+ Py.str tid /\
                  file = "f" +:+ Py.str idx +:+ "_id" +:+ Py.str tid +:+ ".jpg".

(** Names of the fallback: the group and the file carry the same
    person id. *)
Definition detect_names (key file : string) : Prop :=
  exists pid idx, key = "person_" +:+ Py.str pid /\
                  file = "f" +:+ Py.str idx +:+ "_p" +:+ Py.str pid +:+ ".jpg".

(** The groups [person_0], ..., [person_<n-1>], in this order, with one
    image each. *)
Definition one_each (n : nat) (pm : list (string * list string)) : Prop :=
  map fst pm = map (fun i => "person_" +:+ Py.str (Z.of_nat i)) (seq 0 n) /\
  Forall (fun kv => exists u, kv.2 = [u]) pm.

(** * Properties *)

Import FS PurePath.

Module FSFacts.
Import FS.

Lemma lookup_path_app n p q :
  lookup_path n (p ++ q) = lookup_path n p ≫= fun n' => lookup_path n' q.
Proof.
  revert n. induction p as [|c p IH]; intros n; simpl; [done|].
  destruct n as [d|m]; [done|]. destruct (m !! c); [apply IH|done].
Qed.

Lemma lookup_path_snoc n p c :
  lookup_path n (p ++ [c]) =
  match lookup_path n p with
  | Some (Dir m) => m !! c
  | _ => None
  end.
Proof.
  rewrite lookup_path_app. destruct (lookup_path n p) as [[d|m]|]; simpl; [done| |done].
  by destruct (m !! c).
Qed.

Lemma lookup_prefix_dir n a b x :
  lookup_path n (a ++ b) = Some x -> b <> [] -> kind_at n a = IsDir.
Proof.
  rewrite lookup_path_app. unfold kind_at. intros H Hb.
  destruct (lookup_path n a) as [[d|m]|]; simpl in *; try done.
  by destruct b.
Qed.

Lemma update_nil x n : update [] x n = n.
Proof. by destruct n. Qed.

Lemma update_file p x d : update p x (File d) = File d.
Proof. by destruct p as [|c [|c' p]]. Qed.

Lemma update_cons_dir c p x m :
  update (c :: p) x (Dir m) =
  Dir (match p with
       | [] => partial_alter (fun _ => x) c m
       | _ => alter (update p x) c m
       end).
Proof. by destruct p. Qed.

(** Below the updated path the new entry is read, provided the parent of
    the path is a directory. *)
Lemma lookup_update_below p r x n :
  p <> [] -> kind_at n (removelast p) = IsDir ->
  lookup_path (update p x n) (p ++ r) = x ≫= fun n' => lookup_path n' r.
Proof.
  revert n. induction p as [|c p IH]; intros n Hp Hd; [done|].
  destruct n as [d|m].
  { unfold kind_at in Hd. destruct p; simpl in Hd; done. }
  rewrite update_cons_dir. destruct p as [|c' p].
  - simpl. rewrite lookup_partial_alter_eq. by destruct x.
  - change ((c :: c' :: p) ++ r) with (c :: ((c' :: p) ++ r)).
    cbn [lookup_path]. rewrite lookup_alter_eq.
    unfold kind_at in Hd. change (removelast (c :: c' :: p)) with (c :: removelast (c' :: p)) in Hd.
    cbn [lookup_path] in Hd.
    destruct (m !! c) as [n'|]; [|done]. simpl. apply IH; [done|]. exact Hd.
Qed.

Lemma lookup_update_eq p x n :
  p <> [] -> kind_at n (removelast p) = IsDir -> lookup_path (update p x n) p = x.
Proof.
  intros Hp Hd. pose proof (lookup_update_below p [] x n Hp Hd) as H.
  rewrite app_nil_r in H. rewrite H. by destruct x.
Qed.

(** Away from the updated path, kinds are what they were. *)
Lemma kind_update_other p x n P :
  ¬ p `prefix_of` P -> kind_at (update p x n) P = kind_at n P.
Proof.
  revert n P. induction p as [|c p IH]; intros n P Hn.
  { destruct Hn. apply prefix_nil. }
  destruct n as [d|m]; [by rewrite update_file|].
  rewrite update_cons_dir. destruct P as [|c' P]; [by destruct p|].
  unfold kind_at. cbn [lookup_path].
  destruct (decide (c = c')) as [->|Hc].
  - destruct p as [|c2 p].
    + destruct Hn. by apply prefix_cons, prefix_nil.
    + rewrite lookup_alter_eq. destruct (m !! c') as [n'|]; [|done]. simpl.
      apply (IH n' P). intros Hp. apply Hn. by apply prefix_cons.
  - destruct p as [|c2 p].
    + by rewrite lookup_partial_alter_ne.
    + by rewrite lookup_alter_ne.
Qed.

Lemma lookup_update_other p x n P :
  ¬ p `prefix_of` P -> ¬ P `prefix_of` p ->
  lookup_path (update p x n) P = lookup_path n P.
Proof.
  revert n P. induction p as [|c p IH]; intros n P Hn Hn'.
  { destruct Hn. apply prefix_nil. }
  destruct n as [d|m]; [by rewrite update_file|].
  rewrite update_cons_dir. destruct P as [|c' P]; [destruct Hn'; apply prefix_nil|].
  cbn [lookup_path].
  destruct (decide (c = c')) as [->|Hc].
  - destruct p as [|c2 p].
    + destruct Hn. by apply prefix_cons, prefix_nil.
    + rewrite lookup_alter_eq. destruct (m !! c') as [n'|]; [|done]. simpl.
      apply (IH n' P); intros Hp; [apply Hn|apply Hn']; by apply prefix_cons.
  - destruct p as [|c2 p].
    + by rewrite lookup_partial_alter_ne.
    + by rewrite lookup_alter_ne.
Qed.

(** *** Path resolution *)

Lemma walk_normalize fs st p q :
  walk fs st p = inr q -> q = PurePath.normalize_from st p.
Proof.
  revert st. induction p as [|c p IH]; intros st; simpl.
  - by intros [= <-].
  - destruct (lookup_path fs st) as [[d|m]|]; [done| |done]. apply IH.
Qed.

Lemma walk_app fs st p1 p2 :
  walk fs st (p1 ++ p2) =
  match walk fs st p1 with
  | inr st' => walk fs st' p2
  | inl e => inl e
  end.
Proof.
  revert st. induction p1 as [|c p1 IH]; intros st; simpl; [done|].
  destruct (lookup_path fs st) as [[d|m]|]; [done| |done]. apply IH.
Qed.

Lemma walk_snoc fs st p c q :
  walk fs st (p ++ [c]) = inr q ->
  exists st', walk fs st p = inr st' /\ kind_at fs st' = IsDir /\
              q = if String.eqb c ".." then removelast st' else st' ++ [c].
Proof.
  rewrite walk_app. destruct (walk fs st p) as [e|st']; [done|]. simpl.
  unfold kind_at. destruct (lookup_path fs st') as [[d|m]|] eqn:E; try done.
  intros [= <-]. exists st'. by rewrite E.
Qed.

Lemma walk_keeps_dirs fs fs' st p q :
  keeps_dirs fs fs' -> walk fs st p = inr q -> walk fs' st p = inr q.
Proof.
  intros Hk. revert st. induction p as [|c p IH]; intros st; simpl; [done|].
  pose proof (Hk st) as Hst. unfold kind_at in Hst.
  destruct (lookup_path fs st) as [[d|m]|]; [done| |done].
  specialize (Hst eq_refl).
  destruct (lookup_path fs' st) as [[d'|m']|]; [done| |done]. apply IH.
Qed.

Lemma kind_at_removelast_dir fs st :
  kind_at fs st = IsDir -> kind_at fs (removelast st) = IsDir.
Proof.
  destruct (decide (st = [])) as [->|Hne]; [done|].
  intros H. rewrite (app_removelast_last EmptyString Hne) in H.
  unfold kind_at in H.
  destruct (lookup_path fs (removelast st ++ [List.last st EmptyString])) as [x|] eqn:E; [|done].
  by eapply lookup_prefix_dir.
Qed.

Lemma removelast_snoc {A} (l : list A) x : removelast (l ++ [x]) = l.
Proof. apply removelast_last. Qed.

(** Where a successful walk ends: at a directory, or at an entry (present
    or not) of a directory, named by the last component. *)
Lemma walk_end fs p q :
  walk fs [] p = inr q ->
  kind_at fs q <> IsDir ->
  p <> [] /\ q <> [] /\ kind_at fs (removelast q) = IsDir /\
  ends_with_dotdot p = false /\ List.last q EmptyString = List.last p EmptyString \/
  p = [].
Proof.
  intros Hw Hq. destruct (decide (p = [])) as [->|Hne]; [by right|left].
  rewrite (app_removelast_last EmptyString Hne) in Hw.
  apply walk_snoc in Hw as (st' & _ & Hd & ->).
  unfold ends_with_dotdot. destruct p as [|c0 p0]; [done|].
  destruct (String.eqb (List.last (c0 :: p0) EmptyString) "..") eqn:E.
  - destruct Hq. by apply kind_at_removelast_dir.
  - rewrite removelast_snoc, last_last. repeat split; try done. by destruct st'.
Qed.

Lemma stat_inr fs p q n :
  stat fs p = inr (q, n) <->
  walk fs [] p = inr q /\ lookup_path fs q = Some n.
Proof.
  unfold stat. destruct (walk fs [] p) as [e|q']; [naive_solver|].
  destruct (lookup_path fs q') as [n'|] eqn:E; naive_solver.
Qed.

Lemma stat_normalize fs p q n :
  stat fs p = inr (q, n) -> q = PurePath.normalize p /\ lookup_path fs q = Some n.
Proof. rewrite stat_inr. intros [Hw Hl]. split; [|done]. by apply walk_normalize in Hw. Qed.

Lemma exists_false_of_missing fs p :
  lookup_path fs (PurePath.normalize p) = None -> exists_ fs p = false.
Proof.
  intros H. unfold exists_. destruct (stat fs p) as [e|[q n]] eqn:E; [done|].
  apply stat_normalize in E as [-> E]. congruence.
Qed.

Lemma exists_true fs p :
  exists_ fs p = true <-> exists q n, stat fs p = inr (q, n).
Proof.
  unfold exists_. destruct (stat fs p) as [e|[q n]]; naive_solver.
Qed.

Lemma is_dir_true fs p :
  is_dir fs p = true <-> exists q m, stat fs p = inr (q, Dir m).
Proof.
  unfold is_dir. destruct (stat fs p) as [e|[q [d|m]]]; naive_solver.
Qed.

(** *** Trees that only grow *)

Lemma grows_refl fs : grows fs fs.
Proof. by intros P _. Qed.

Lemma grows_trans a b c : grows a b -> grows b c -> grows a c.
Proof.
  intros H1 H2 P HP. rewrite <- (H1 P HP). apply H2. by rewrite (H1 P HP).
Qed.

Lemma grows_keeps_dirs fs fs' : grows fs fs' -> keeps_dirs fs fs'.
Proof. intros H P HP. rewrite H; [done|]. by rewrite HP. Qed.

Lemma keeps_dirs_refl fs : keeps_dirs fs fs.
Proof. by intros P. Qed.

Lemma keeps_dirs_trans a b c : keeps_dirs a b -> keeps_dirs b c -> keeps_dirs a c.
Proof. intros H1 H2 P HP. by apply H2, H1. Qed.

Lemma kind_missing_below fs q r :
  kind_at fs q = Missing -> kind_at fs (q ++ r) = Missing.
Proof.
  unfold kind_at. rewrite lookup_path_app.
  by destruct (lookup_path fs q) as [[d|m]|].
Qed.

Lemma kind_file_below fs q r d :
  kind_at fs q = IsFile d -> r <> [] -> kind_at fs (q ++ r) = Missing.
Proof.
  unfold kind_at. rewrite lookup_path_app.
  destruct (lookup_path fs q) as [[d'|m]|]; try done. by destruct r.
Qed.

(** Putting a node where there was none, or none but a file. *)
Lemma update_fresh_kinds fs q x P :
  (forall c, lookup_path x [c] = None) ->
  kind_at fs q <> IsDir -> P <> q -> q <> [] -> kind_at fs (removelast q) = IsDir ->
  kind_at (update q (Some x) fs) P = kind_at fs P.
Proof.
  intros Hx Hq HP Hne Hpar.
  destruct (decide (q `prefix_of` P)) as [[r ->]|Hn]; [|by apply kind_update_other].
  assert (r <> []) as Hr by (intros ->; by rewrite app_nil_r in HP).
  unfold kind_at at 1. rewrite lookup_update_below by done. simpl.
  transitivity Missing; [|symmetry].
  - destruct r as [|c r]; [done|]. specialize (Hx c). simpl in *.
    destruct x as [d|m]; [done|]. by destruct (m !! c).
  - destruct (kind_at fs q) as [|d|] eqn:E; [by apply kind_missing_below| |done].
    by eapply kind_file_below.
Qed.

Lemma os_mkdir_inr fs p fs' :
  os_mkdir fs p = inr fs' ->
  exists q, walk fs [] p = inr q /\ kind_at fs q = Missing /\ q <> [] /\
            kind_at fs (removelast q) = IsDir /\
            fs' = update q (Some (Dir ∅)) fs.
Proof.
  unfold os_mkdir. destruct (walk fs [] p) as [e|q] eqn:Hw; [done|].
  destruct (lookup_path fs q) as [n|] eqn:Hl; [done|]. intros [= <-].
  exists q. assert (kind_at fs q = Missing) as Hk by (unfold kind_at; by rewrite Hl).
  destruct (walk_end fs p q Hw) as [(?&?&?&?)| ->]; [by rewrite Hk|done|].
  simpl in Hw. by simplify_eq.
Qed.

Lemma os_mkdir_grows fs p fs' : os_mkdir fs p = inr fs' -> grows fs fs'.
Proof.
  intros (q & Hw & Hk & Hne & Hpar & ->)%os_mkdir_inr P HP.
  apply update_fresh_kinds; try done.
  - by rewrite Hk.
  - intros ->. by rewrite Hk in HP.
Qed.

Lemma os_mkdir_is_dir fs p fs' : os_mkdir fs p = inr fs' -> is_dir fs' p = true.
Proof.
  intros H. pose proof (os_mkdir_grows _ _ _ H) as Hg.
  apply os_mkdir_inr in H as (q & Hw & Hk & Hne & Hpar & ->).
  apply is_dir_true. exists q, ∅. apply stat_inr. split.
  - eapply walk_keeps_dirs; [by apply grows_keeps_dirs|done].
  - by apply lookup_update_eq.
Qed.

Lemma mkdir_flat_grows ok fs p : grows fs (mkdir_flat ok fs p).1.
Proof.
  unfold mkdir_flat. destruct (os_mkdir fs p) as [e|fs1] eqn:E.
  - destruct e; try destruct (ok && is_dir fs p); apply grows_refl.
  - by eapply os_mkdir_grows.
Qed.

Lemma mkdir_flat_is_dir ok fs p fs' :
  mkdir_flat ok fs p = (fs', None) -> is_dir fs' p = true.
Proof.
  unfold mkdir_flat. destruct (os_mkdir fs p) as [e|fs1] eqn:E.
  - destruct e; try done; (destruct ok; simpl; [|done]);
      (destruct (is_dir fs p) eqn:D; [|done]); by intros [= <-].
  - intros [= <-]. by eapply os_mkdir_is_dir.
Qed.

Lemma mkdir_parents_unfold ok fs rp :
  mkdir_parents ok fs rp =
  match os_mkdir fs (rev rp) with
  | inr fs' => (fs', None)
  | inl ENOENT =>
      match rp with
      | [] => (fs, Some ENOENT)
      | _ :: rparent =>
          match mkdir_parents true fs rparent with
          | (fs1, Some e) => (fs1, Some e)
          | (fs1, None) => mkdir_flat ok fs1 (rev rp)
          end
      end
  | inl e => if ok && is_dir fs (rev rp) then (fs, None) else (fs, Some e)
  end.
Proof. by destruct rp. Qed.

Lemma mkdir_parents_grows ok fs rp : grows fs (mkdir_parents ok fs rp).1.
Proof.
  revert ok. induction rp as [|c rp IH]; intros ok; rewrite mkdir_parents_unfold;
    (destruct (os_mkdir fs _) as [e|fs1] eqn:E; [|by eapply os_mkdir_grows]);
    destruct e; try destruct (ok && is_dir fs _); try apply grows_refl.
  pose proof (IH true) as H1.
  destruct (mkdir_parents true fs rp) as [fs1 [e|]]; [done|].
  eapply grows_trans; [exact H1|apply mkdir_flat_grows].
Qed.

Lemma mkdir_parents_is_dir ok fs rp fs' :
  mkdir_parents ok fs rp = (fs', None) -> is_dir fs' (rev rp) = true.
Proof.
  rewrite mkdir_parents_unfold.
  destruct (os_mkdir fs (rev rp)) as [e|fs1] eqn:E;
    [|intros [= <-]; by apply os_mkdir_is_dir in E].
  destruct e;
    try (destruct ok; simpl; [|done];
         destruct (is_dir fs (rev rp)) eqn:D; [|done]; by intros [= <-]).
  destruct rp as [|c rp]; [done|].
  destruct (mkdir_parents true fs rp) as [fs1 [e|]]; [done|].
  apply mkdir_flat_is_dir.
Qed.

Lemma mkdir_grows parents ok fs p : grows fs (mkdir parents ok fs p).1.
Proof.
  unfold mkdir. destruct parents; [apply mkdir_parents_grows|apply mkdir_flat_grows].
Qed.

Lemma mkdir_is_dir parents ok fs p fs' :
  mkdir parents ok fs p = (fs', None) -> is_dir fs' p = true.
Proof.
  unfold mkdir. destruct parents; [|apply mkdir_flat_is_dir].
  intros H%mkdir_parents_is_dir. by rewrite rev_involutive in H.
Qed.

End FSFacts.

Module PyFacts.
Import Py.

Lemma all_chars_app P s1 s2 :
  all_chars P (s1 +:+ s2) = all_chars P s1 && all_chars P s2.
Proof.
  induction s1 as [|c s1 IH]; [done|].
  change (String c s1 +:+ s2) with (String c (s1 +:+ s2)). simpl.
  by rewrite IH, andb_assoc.
Qed.

Lemma all_chars_impl (P Q : ascii -> bool) s :
  (forall c, P c = true -> Q c = true) -> all_chars P s = true -> all_chars Q s = true.
Proof.
  intros H. induction s as [|c s IH]; [done|]. simpl.
  intros [Hc Hs]%andb_prop. by rewrite (H c Hc), IH.
Qed.

(** A string without the separator is one field. *)
Lemma split_whole sep s :
  all_chars (fun c => negb (Ascii.eqb c sep)) s = true -> split sep s = [s].
Proof.
  induction s as [|c s IH]; [done|]. simpl.
  intros [Hc Hs]%andb_prop. apply negb_true_iff in Hc. rewrite Hc, (IH Hs). done.
Qed.

Lemma split_cons_sep sep s : split sep (String sep s) = EmptyString :: split sep s.
Proof. simpl. by rewrite Ascii.eqb_refl. Qed.

Lemma split_nonempty sep s : split sep s <> [].
Proof.
  destruct s as [|c s]; [done|]. simpl.
  destruct (Ascii.eqb c sep); [done|]. by destruct (split sep s).
Qed.

Lemma digits_val_digit c d acc prev s :
  digit_of c = Some d -> digits_val acc prev (String c s) = digits_val (10 * acc + d) true s.
Proof. intros H. simpl. by rewrite H. Qed.

Lemma digits_val_uint acc prev d :
  d <> Decimal.Nil \/ prev = true ->
  digits_val acc prev (NilEmpty.string_of_uint d) = Some (uint_val acc d).
Proof.
  revert acc prev. induction d; intros acc prev H;
    cbn [NilEmpty.string_of_uint];
    try (erewrite digits_val_digit by reflexivity; rewrite IHd by (by right); done).
  destruct H as [H| ->]; done.
Qed.

Lemma uint_val_of_uint_acc d acc :
  uint_val (Z.pos acc) d = Z.pos (Pos.of_uint_acc d acc).
Proof.
  revert acc. induction d; intros acc; simpl; try done;
    rewrite <- IHd; f_equal; lia.
Qed.

Lemma uint_val_of_uint d : uint_val 0 d = Z.of_N (Pos.of_uint d).
Proof.
  induction d; simpl; try done;
    match goal with |- _ = Z.pos (Pos.of_uint_acc ?l ?a) =>
      rewrite <- (uint_val_of_uint_acc l a) end; done.
Qed.

Lemma uint_val_to_uint p : uint_val 0 (Pos.to_uint p) = Z.pos p.
Proof. by rewrite uint_val_of_uint, DecimalPos.Unsigned.of_to. Qed.

Lemma string_of_uint_digits d : all_chars is_digit (NilEmpty.string_of_uint d) = true.
Proof. induction d; simpl; done. Qed.

Lemma str_chars n : all_chars sign_or_digit (str n) = true.
Proof.
  assert (forall d, all_chars sign_or_digit (NilEmpty.string_of_uint d) = true) as H.
  { intros d. eapply all_chars_impl; [|apply string_of_uint_digits].
    intros c Hc. unfold sign_or_digit. by rewrite Hc. }
  unfold str. destruct n as [|p|p]; simpl; try done.
  - unfold NilZero.string_of_uint. pose proof (H (Pos.to_uint p)).
    by destruct (Pos.to_uint p).
  - unfold NilZero.string_of_uint. pose proof (H (Pos.to_uint p)).
    by destruct (Pos.to_uint p).
Qed.

Lemma str_all (P : ascii -> bool) n :
  (forall c, sign_or_digit c = true -> P c = true) -> all_chars P (str n) = true.
Proof. intros H. eapply all_chars_impl; [exact H|apply str_chars]. Qed.

Lemma sign_or_digit_cases c :
  sign_or_digit c = true -> (48 <= N_of_ascii c <= 57)%N \/ c = "-"%char.
Proof.
  unfold sign_or_digit, is_digit, digit_of.
  destruct (_ && _) eqn:E.
  - intros _. left. apply andb_prop in E as [?%N.leb_le ?%N.leb_le]. lia.
  - simpl. intros ->%Ascii.eqb_eq. by right.
Qed.

Lemma lstrip_id c s : is_space c = false -> lstrip (String c s) = String c s.
Proof. intros H. simpl. by rewrite H. Qed.

Lemma rstrip_id s : all_chars (fun c => negb (is_space c)) s = true -> rstrip s = s.
Proof.
  induction s as [|c s IH]; [done|]. simpl. intros [Hc Hs]%andb_prop.
  rewrite (IH Hs). apply negb_true_iff in Hc. rewrite Hc. by destruct s.
Qed.

Lemma strip_id s : all_chars (fun c => negb (is_space c)) s = true -> strip s = s.
Proof.
  intros H. unfold strip. destruct s as [|c s]; [done|].
  rewrite lstrip_id; [by apply rstrip_id|].
  simpl in H. apply andb_prop in H as [H _]. by apply negb_true_iff in H.
Qed.

Lemma sign_or_digit_not_space c : sign_or_digit c = true -> negb (is_space c) = true.
Proof.
  intros [H| ->]%sign_or_digit_cases; [|done].
  unfold is_space. apply negb_true_iff, orb_false_iff.
  split; apply andb_false_iff; right; apply N.leb_gt; lia.
Qed.

Lemma int_rstrip_id s :
  all_chars (fun c => negb (is_int_space c)) s = true -> int_rstrip s = s.
Proof.
  induction s as [|c s IH]; [done|]. simpl. intros [Hc Hs]%andb_prop.
  rewrite (IH Hs). apply negb_true_iff in Hc. rewrite Hc. by destruct s.
Qed.

Lemma int_strip_id s :
  all_chars (fun c => negb (is_int_space c)) s = true -> int_rstrip (int_lstrip s) = s.
Proof.
  intros H. destruct s as [|c s]; [done|].
  assert (int_lstrip (String c s) = String c s) as ->; [|by apply int_rstrip_id].
  simpl in *. apply andb_prop in H as [H _]. apply negb_true_iff in H. by rewrite H.
Qed.

Lemma sign_or_digit_not_int_space c :
  sign_or_digit c = true -> negb (is_int_space c) = true.
Proof.
  intros [H| ->]%sign_or_digit_cases; [|done].
  unfold is_int_space. apply negb_true_iff, orb_false_iff.
  split; [apply andb_false_iff; right; apply N.leb_gt|apply N.eqb_neq]; lia.
Qed.

(** A separator before the digits is blank for [strip] and makes [int]
    raise. *)
Lemma int_separator :
  strip (String "028" "5") = "5" /\ int (String "028" "5") = None /\
  int (String " " "5") = Some 5.
Proof. by vm_compute. Qed.

Lemma string_of_uint_to_uint_head p :
  exists c s, NilEmpty.string_of_uint (Pos.to_uint p) = String c s /\ is_digit c = true.
Proof.
  pose proof (Unsigned.to_uint_nonnil p) as Hn.
  pose proof (string_of_uint_digits (Pos.to_uint p)) as Hd.
  destruct (Pos.to_uint p); try done; simpl in *; eauto.
Qed.

Lemma nilzero_string_of_uint_pos p :
  NilZero.string_of_uint (Pos.to_uint p) = NilEmpty.string_of_uint (Pos.to_uint p).
Proof.
  pose proof (Unsigned.to_uint_nonnil p). unfold NilZero.string_of_uint.
  by destruct (Pos.to_uint p).
Qed.

(** [int(str(n)) == n] *)
Lemma int_str n : int (str n) = Some n.
Proof.
  unfold int. rewrite int_strip_id by (apply str_all, sign_or_digit_not_int_space).
  unfold str. destruct n as [|p|p]; simpl; [done| |].
  - rewrite nilzero_string_of_uint_pos.
    destruct (string_of_uint_to_uint_head p) as (c & s & E & Hc).
    pose proof (digits_val_uint 0 false (Pos.to_uint p) (or_introl (Unsigned.to_uint_nonnil p))) as Hv.
    rewrite uint_val_to_uint in Hv. rewrite E in *.
    destruct c as [[] [] [] [] [] [] [] []]; try done.
  - rewrite nilzero_string_of_uint_pos.
    rewrite (digits_val_uint 0 false (Pos.to_uint p) (or_introl (Unsigned.to_uint_nonnil p))).
    by rewrite uint_val_to_uint.
Qed.

Lemma hexdigit_is_hex d : is_hex (hexdigit d) = true.
Proof. unfold hexdigit. repeat case_match; done. Qed.

Lemma hex_digits_chars k n acc :
  all_chars is_hex acc = true -> all_chars is_hex (hex_digits k n acc) = true.
Proof.
  revert n acc. induction k as [|k IH]; intros n acc H; simpl; [done|].
  apply IH. simpl. by rewrite hexdigit_is_hex.
Qed.

Lemma hex_digits_length k n acc :
  String.length (hex_digits k n acc) = (k + String.length acc)%nat.
Proof.
  revert n acc. induction k as [|k IH]; intros n acc; simpl; [done|].
  rewrite IH. simpl. lia.
Qed.

Lemma hex_chars u : all_chars is_hex (hex u) = true.
Proof. by apply hex_digits_chars. Qed.

Lemma hex_length u : String.length (hex u) = 32%nat.
Proof. unfold hex. by rewrite hex_digits_length. Qed.

Lemma string_app_length s1 s2 :
  String.length (s1 +:+ s2) = (String.length s1 + String.length s2)%nat.
Proof. induction s1 as [|c s1 IH]; [done|]. simpl. by rewrite <- IH. Qed.

End PyFacts.

Module PathFacts.
Import PurePath PyFacts.

Lemma is_name_spec c :
  is_name c = true <->
  c <> EmptyString /\ c <> "." /\ c <> ".." /\
  Py.all_chars (fun a => negb (Ascii.eqb a "/")) c = true.
Proof.
  unfold is_name. rewrite !andb_true_iff, !negb_true_iff, !String.eqb_neq. tauto.
Qed.

Lemma startswith_slash_name c : is_name c = true -> Py.startswith "/" c = false.
Proof.
  intros (Hne & _ & _ & Hs)%is_name_spec. destruct c as [|a c]; [done|].
  simpl in Hs. apply andb_prop in Hs as [Ha _]. apply negb_true_iff in Ha.
  unfold Py.startswith.
  change (String.prefix "/" (String a c))
    with (if ascii_dec "/" a then String.prefix EmptyString c else false).
  by destruct (ascii_dec "/" a) as [<-|].
Qed.

Lemma parts_name c : is_name c = true -> parts c = [c].
Proof.
  intros (Hne & Hd & _ & Hs)%is_name_spec. unfold parts.
  rewrite (split_whole "/" c) by done.
  assert (keep_part c = true) as Hk.
  { unfold keep_part. apply String.eqb_neq in Hne, Hd. by rewrite Hne, Hd. }
  rewrite filter_cons_True by (by rewrite Hk). done.
Qed.

Lemma joinpath_name p c : is_name c = true -> p // c = p ++ [c].
Proof.
  intros H. unfold joinpath. by rewrite startswith_slash_name, parts_name.
Qed.

Lemma is_name_not_dotdot c : is_name c = true -> String.eqb c ".." = false.
Proof. intros (_ & _ & H & _)%is_name_spec. by apply String.eqb_neq. Qed.

Lemma normalize_from_app st p q :
  normalize_from st (p ++ q) = normalize_from (normalize_from st p) q.
Proof. apply fold_left_app. Qed.

Lemma normalize_from_snoc st p c :
  String.eqb c ".." = false -> normalize_from st (p ++ [c]) = normalize_from st p ++ [c].
Proof. intros H. rewrite normalize_from_app. simpl. by rewrite H. Qed.

Lemma normalize_from_names st p :
  Forall (fun c => is_name c = true) p -> normalize_from st p = st ++ p.
Proof.
  revert st. induction p as [|c p IH]; intros st Hp.
  - by rewrite app_nil_r.
  - inversion_clear Hp as [|?? Hc Hp'].
    change (normalize_from st (c :: p))
      with (normalize_from (if String.eqb c ".." then removelast st else st ++ [c]) p).
    rewrite (is_name_not_dotdot c Hc), (IH _ Hp'). by rewrite <- app_assoc.
Qed.

Lemma normalize_names p : Forall (fun c => is_name c = true) p -> normalize p = p.
Proof. apply (normalize_from_names []). Qed.

(** A string that starts with a letter, digit or sign and has no slash
    is a name. *)
Lemma is_name_intro a s :
  Ascii.eqb a "." = false -> Ascii.eqb a "/" = false ->
  Py.all_chars (fun a => negb (Ascii.eqb a "/")) s = true ->
  is_name (String a s) = true.
Proof.
  intros Hd Hs Hr. apply is_name_spec. repeat split.
  - done.
  - intros [= -> _]. done.
  - intros [= -> _]. done.
  - simpl. by rewrite Hs, Hr.
Qed.

Lemma no_slash_str n : Py.all_chars (fun a => negb (Ascii.eqb a "/")) (Py.str n) = true.
Proof.
  apply str_all. intros c [H| ->]%sign_or_digit_cases; [|done].
  apply negb_true_iff, Ascii.eqb_neq. intros ->. simpl in H. lia.
Qed.

Lemma no_slash_hex u : Py.all_chars (fun a => negb (Ascii.eqb a "/")) (Py.hex u) = true.
Proof.
  eapply all_chars_impl; [|apply hex_chars].
  intros c H. apply negb_true_iff, Ascii.eqb_neq. intros ->. done.
Qed.

Lemma is_name_hex u : is_name (Py.hex u) = true.
Proof.
  apply is_name_spec. pose proof (hex_length u) as HL.
  repeat split; try (intros E; by rewrite E in HL). apply no_slash_hex.
Qed.

Lemma is_name_hex_app u s :
  Py.all_chars (fun a => negb (Ascii.eqb a "/")) s = true -> is_name (Py.hex u +:+ s) = true.
Proof.
  intros Hs. apply is_name_spec.
  assert (32 <= String.length (Py.hex u +:+ s))%nat as HL
    by (rewrite string_app_length, hex_length; lia).
  repeat split; try (intros E; rewrite E in HL; simpl in HL; lia).
  by rewrite all_chars_app, no_slash_hex, Hs.
Qed.

End PathFacts.

Module FSOps.
Import FS FSFacts.

Lemma kind_at_file fs P d : kind_at fs P = IsFile d <-> lookup_path fs P = Some (File d).
Proof.
  unfold kind_at. destruct (lookup_path fs P) as [[d'|m]|]; simpl; naive_solver.
Qed.

Lemma kind_at_dir fs P : kind_at fs P = IsDir <-> exists m, lookup_path fs P = Some (Dir m).
Proof.
  unfold kind_at. destruct (lookup_path fs P) as [[d'|m]|]; simpl; naive_solver.
Qed.

Lemma kind_at_missing fs P : kind_at fs P = Missing <-> lookup_path fs P = None.
Proof.
  unfold kind_at. destruct (lookup_path fs P) as [[d'|m]|]; simpl; naive_solver.
Qed.

(** [open(p, "w")] *)
Lemma write_file_inr fs p d fs' :
  write_file fs p d = inr fs' -> p <> [] ->
  exists q, walk fs [] p = inr q /\ q <> [] /\ kind_at fs (removelast q) = IsDir /\
            kind_at fs q <> IsDir /\ fs' = update q (Some (File d)) fs.
Proof.
  unfold write_file. destruct (walk fs [] p) as [e|q] eqn:Hw; [done|].
  intros H Hp. exists q.
  assert (kind_at fs q <> IsDir /\ fs' = update q (Some (File d)) fs) as [Hk ->].
  { unfold kind_at. destruct (lookup_path fs q) as [[d'|m]|]; by simplify_eq. }
  destruct (walk_end fs p q Hw Hk) as [(?&?&?&?)|?]; done.
Qed.

Lemma write_file_kinds fs p d fs' :
  write_file fs p d = inr fs' -> p <> [] ->
  kind_at fs' (PurePath.normalize p) = IsFile d /\
  forall P, P <> PurePath.normalize p -> kind_at fs' P = kind_at fs P.
Proof.
  intros H Hp. apply write_file_inr in H as (q & Hw & Hne & Hpar & Hk & ->); [|done].
  apply walk_normalize in Hw as Hq. fold (PurePath.normalize p) in Hq. subst q. split.
  - apply kind_at_file. by apply lookup_update_eq.
  - intros P HP. by apply update_fresh_kinds.
Qed.

Lemma write_file_keeps_dirs fs p d fs' :
  write_file fs p d = inr fs' -> p <> [] -> keeps_dirs fs fs'.
Proof.
  intros H Hp. pose proof (write_file_inr _ _ _ _ H Hp) as (q & Hw & _ & _ & Hk & _).
  apply walk_normalize in Hw. fold (PurePath.normalize p) in Hw. subst q.
  destruct (write_file_kinds _ _ _ _ H Hp) as [_ Ho].
  intros P HP. rewrite Ho; [done|]. intros ->. by rewrite HP in Hk.
Qed.

(** [os.unlink] *)
Lemma unlink_inr fs p fs' :
  unlink fs p = inr fs' -> p <> [] ->
  exists d, kind_at fs (PurePath.normalize p) = IsFile d /\
            kind_at fs' (PurePath.normalize p) = Missing /\
            forall P, P <> PurePath.normalize p -> kind_at fs' P = kind_at fs P.
Proof.
  unfold unlink. destruct (stat fs p) as [e|[q [d|m]]] eqn:Hs; [done| |done].
  intros [= <-] Hp0. apply stat_inr in Hs as [Hw Hl].
  assert (kind_at fs q = IsFile d) as Hk by by apply kind_at_file.
  destruct (walk_end fs p q Hw) as [(Hp & Hne & Hpar & _)| ->]; [by rewrite Hk| |done].
  apply walk_normalize in Hw. fold (PurePath.normalize p) in Hw. subst q.
  exists d. split; [done|]. split.
  - apply kind_at_missing. by apply lookup_update_eq.
  - intros P HP.
    destruct (decide (PurePath.normalize p `prefix_of` P)) as [[r ->]|Hn];
      [|by apply kind_update_other].
    assert (r <> []) as Hr by (intros ->; by rewrite app_nil_r in HP).
    unfold kind_at at 1. rewrite lookup_update_below by done. simpl.
    symmetry. by eapply kind_file_below.
Qed.

Lemma walk_last_name fs p q :
  walk fs [] p = inr q -> ends_with_dotdot p = false ->
  q <> [] /\ kind_at fs (removelast q) = IsDir /\
  List.last q EmptyString = List.last p EmptyString.
Proof.
  intros Hw Hd. assert (p <> []) as Hne by (by intros ->).
  rewrite (app_removelast_last EmptyString Hne) in Hw.
  apply walk_snoc in Hw as (st' & _ & Hdir & ->).
  unfold ends_with_dotdot in Hd. destruct p as [|c0 p0]; [done|].
  rewrite Hd, removelast_snoc, last_last. split; [by destruct st'|done].
Qed.

Lemma size_zero_lookup (m : gmap string node) c : size m = 0%nat -> m !! c = None.
Proof. intros ->%map_size_empty_inv. apply lookup_empty. Qed.

(** What a successful [os.rename] did: nothing (both names are the same
    entry), or it moved the source node to a place that was missing, a
    file, or an empty directory, neither inside the other. *)
Lemma rename_inr fs src dst fs' :
  rename fs src dst = inr fs' ->
  exists sq sn dq,
    stat fs src = inr (sq, sn) /\ walk fs [] dst = inr dq /\
    ends_with_dotdot src = false /\ ends_with_dotdot dst = false /\
    (sq = dq /\ fs' = fs \/
     sq <> [] /\ dq <> [] /\
     kind_at fs (removelast sq) = IsDir /\ kind_at fs (removelast dq) = IsDir /\
     ¬ sq `prefix_of` dq /\ ¬ dq `prefix_of` sq /\
     (forall c, kind_at fs (dq ++ [c]) = Missing) /\
     fs' = update dq (Some sn) (update sq None fs)).
Proof.
  unfold rename. destruct (stat fs src) as [e|[sq sn]] eqn:Hs; [done|].
  destruct (ends_with_dotdot src) eqn:Hds; [done|].
  destruct (walk fs [] dst) as [e|dq] eqn:Hw; [done|].
  destruct (ends_with_dotdot dst) eqn:Hdd; [done|].
  intros H. exists sq, sn, dq. do 4 (split; [done|]).
  case_bool_decide as Heq; [left; by simplify_eq|right].
  apply stat_inr in Hs as [Hws Hls].
  destruct (walk_last_name _ _ _ Hws Hds) as (Hsne & Hspar & _).
  destruct (walk_last_name _ _ _ Hw Hdd) as (Hdne & Hdpar & _).
  do 4 (split; [done|]).
  assert (¬ sq `prefix_of` dq) as Hsd.
  { intros [r ->]. assert (r <> []) as Hr by (intros ->; by rewrite app_nil_r in Heq).
    destruct sn as [d|m].
    - rewrite (app_removelast_last EmptyString Hr), app_assoc, removelast_snoc in Hdpar.
      apply kind_at_dir in Hdpar as [m Hm].
      destruct (decide (removelast r = [])) as [E|E].
      + rewrite E, app_nil_r in Hm. congruence.
      + apply lookup_prefix_dir in Hm; [|done]. apply kind_at_dir in Hm as [m' Hm']. congruence.
    - simpl in H. unfold strictly_below in H.
      rewrite bool_decide_eq_true_2 in H by (by eexists).
      rewrite bool_decide_eq_false_2 in H by done. done. }
  assert (¬ dq `prefix_of` sq) as Hds'.
  { intros [r ->]. assert (r <> []) as Hr by (intros ->; by rewrite app_nil_r in Heq).
    pose proof (lookup_prefix_dir _ _ _ _ Hls Hr) as [m Hm]%kind_at_dir.
    rewrite lookup_path_app, Hm in Hls. simpl in Hls. destruct r as [|c r]; [done|].
    simpl in Hls. destruct (m !! c) as [n'|] eqn:Hc; [|done].
    rewrite Hm in H.
    destruct (is_dir_node sn && strictly_below (dq ++ c :: r) dq); [done|].
    destruct sn; [done|]. destruct (Nat.eqb (size m) 0) eqn:Hz; [|done].
    apply Nat.eqb_eq in Hz. by rewrite (size_zero_lookup m c Hz) in Hc. }
  do 2 (split; [done|]).
  destruct (is_dir_node sn && strictly_below sq dq); [done|]. split.
  - intros c. destruct (lookup_path fs dq) as [[d|m]|] eqn:Hl.
    + eapply kind_file_below; [by apply kind_at_file|done].
    + destruct sn; [done|]. destruct (Nat.eqb (size m) 0) eqn:Hz; [|done].
      apply Nat.eqb_eq in Hz. apply kind_at_missing.
      rewrite lookup_path_snoc, Hl. by apply size_zero_lookup.
    + apply kind_missing_below. by apply kind_at_missing.
  - destruct (lookup_path fs dq) as [[d|m]|]; destruct sn; try done; try by simplify_eq.
    destruct (Nat.eqb (size m) 0); by simplify_eq.
Qed.

Section Moved.
Variables (fs : node) (sq dq : list string) (sn : node).
Hypothesis Hls : lookup_path fs sq = Some sn.
Hypothesis Hsne : sq <> [].
Hypothesis Hdne : dq <> [].
Hypothesis Hspar : kind_at fs (removelast sq) = IsDir.
Hypothesis Hdpar : kind_at fs (removelast dq) = IsDir.
Hypothesis Hsd : ¬ sq `prefix_of` dq.
Hypothesis Hds : ¬ dq `prefix_of` sq.
Hypothesis Hfree : forall c, kind_at fs (dq ++ [c]) = Missing.

Local Abbreviation fs' := (update dq (Some sn) (update sq None fs)).

Lemma moved_source_gone : lookup_path fs' sq = None.
Proof.
  rewrite lookup_update_other by done. by apply lookup_update_eq.
Qed.

Lemma moved_parent_kept : kind_at (update sq None fs) (removelast dq) = IsDir.
Proof.
  rewrite kind_update_other; [done|]. intros [r Hr]. apply Hsd.
  exists (r ++ [List.last dq EmptyString]).
  rewrite app_assoc, <- Hr. by apply app_removelast_last.
Qed.

Lemma moved_target r : lookup_path fs' (dq ++ r) = lookup_path fs (sq ++ r).
Proof.
  rewrite lookup_update_below by (done || apply moved_parent_kept).
  simpl. by rewrite lookup_path_app, Hls.
Qed.

Lemma moved_elsewhere P :
  ¬ sq `prefix_of` P -> ¬ dq `prefix_of` P -> kind_at fs' P = kind_at fs P.
Proof. intros H1 H2. by rewrite !kind_update_other. Qed.

Lemma moved_keeps P :
  ¬ sq `prefix_of` P -> P <> dq -> kind_at fs P <> Missing -> kind_at fs' P = kind_at fs P.
Proof.
  intros H1 H2 H3. apply moved_elsewhere; [done|]. intros [r ->]. destruct H3.
  destruct r as [|c r]; [by rewrite app_nil_r in H2|].
  change (c :: r) with ([c] ++ r). rewrite app_assoc. by apply kind_missing_below.
Qed.
End Moved.

(** [shutil.move]: a successful move is one [os.rename], onto [dst] or,
    when [dst] is a directory, into it. *)
Lemma shutil_move_moved fs src dst fs' :
  shutil_move fs src dst = Moved fs' ->
  rename fs src dst = inr fs' \/
  is_dir fs dst = true /\ rename fs src (dst ++ [PurePath.name src]) = inr fs'.
Proof.
  unfold shutil_move. destruct (is_dir fs dst) eqn:Hd.
  - destruct (samefile fs src dst).
    + destruct (rename fs src dst); [done|]. intros [= <-]. by left.
    + destruct (exists_ fs (dst ++ [PurePath.name src])); [done|].
      destruct (rename fs src (dst ++ [PurePath.name src])) as [e|t] eqn:Hr.
      * by repeat case_match.
      * intros [= <-]. by right.
  - destruct (rename fs src dst) as [e|t] eqn:Hr.
    + by repeat case_match.
    + intros [= <-]. by left.
Qed.

(** [shutil.rmtree(p, ignore_errors=True)] on a directory removes it. *)
Lemma rmtree_ignore_dir fs p :
  is_dir fs p = true -> ends_with_dotdot p = false ->
  exists fs', rmtree_ignore fs p = Some fs' /\ exists_ fs' p = false.
Proof.
  intros (q & m & Hs)%is_dir_true Hd. unfold rmtree_ignore. rewrite Hd, Hs.
  eexists. split; [done|].
  apply stat_inr in Hs as [Hw Hl].
  destruct (walk_last_name _ _ _ Hw Hd) as (Hne & Hpar & _).
  apply walk_normalize in Hw as Hq. fold (PurePath.normalize p) in Hq. subst q.
  apply exists_false_of_missing. by apply lookup_update_eq.
Qed.

End FSOps.

Import FSFacts PyFacts PathFacts FSOps.

Lemma truthy_some s : s <> EmptyString -> truthy_opt (Some s) = true.
Proof. by destruct s. Qed.

Lemma truthy_true o : truthy_opt o = true -> exists s, o = Some s /\ s <> EmptyString.
Proof. destruct o as [[|a s]|]; try done. intros _. by eexists. Qed.

Lemma the_some s : the (Some s) = s.
Proof. done. Qed.

Ltac payload_fields :=
  repeat match goal with
         | H : @lookup _ _ (gmap string string) _ _ _ = _ |- _ => rewrite H
         end;
  rewrite ?the_some, ?truthy_some by done;
  cbn [negb orb andb truthy_opt].

Ltac step_exists :=
  unfold bind at 1, Sys.exists_ at 1, Sys.observe at 1; cbn [tree].

(** A move-image request that passes the checks on its fields and for
    which the path the handler builds (from the fields 2, 3 and last of
    the source) does not exist fails with 404 and leaves the store as it
    was. *)
Lemma move_image_source_not_found B r (payload : gmap string string) w src dest_person :
  payload !! "src" = Some src ->
  payload !! "dest_person" = Some dest_person ->
  dest_person <> EmptyString ->
  well_formed_web src ->
  FS.exists_ (tree w) (image_file B src) = false ->
  move_image B r payload w = Raises (HTTPException 404 "Source file not found") w.
Proof.
  intros Hsrc Hdest Hd (Hs & Hstart & Hlen) Hmiss. unfold move_image.
  payload_fields. rewrite Hstart. cbn [negb].
  apply Nat.ltb_ge in Hlen. rewrite Hlen.
  step_exists. unfold image_file in Hmiss. by rewrite Hmiss.
Qed.

(** *** Index allocation *)

Lemma next_index_ge_start start l : start <= next_index start l.
Proof.
  revert start. induction l as [|e l IH]; intros start; [done|].
  unfold next_index in *. simpl. destruct (index_of_name e); [|apply IH].
  etrans; [|apply IH]. lia.
Qed.

Lemma next_index_ge start l e n :
  e ∈ l -> index_of_name e = Some n -> n + 1 <= next_index start l.
Proof.
  revert start. induction l as [|e' l IH]; intros start Hin He; [by apply elem_of_nil in Hin|].
  apply elem_of_cons in Hin as [<-|Hin].
  - unfold next_index. simpl. rewrite He.
    etrans; [|apply next_index_ge_start]. lia.
  - unfold next_index in *. simpl. by apply IH.
Qed.

Lemma next_index_attained start l :
  next_index start l = start \/
  exists e n, e ∈ l /\ index_of_name e = Some n /\ next_index start l = n + 1.
Proof.
  revert start. induction l as [|e l IH]; intros start; [by left|].
  unfold next_index in *. simpl. destruct (index_of_name e) as [n|] eqn:He.
  - destruct (IH (Z.max start (n + 1))) as [->|(e' & n' & Hin & He' & ->)].
    + destruct (Z.max_spec start (n + 1)) as [[_ ->]|[_ ->]]; [|by left].
      right. exists e, n. split; [apply list_elem_of_here|done].
    + right. exists e', n'. split; [by apply list_elem_of_further|done].
  - destruct (IH start) as [->|(e' & n' & Hin & He' & ->)]; [by left|].
    right. exists e', n'. split; [by apply list_elem_of_further|done].
Qed.

Lemma split_app_sep sep a b :
  Py.all_chars (fun c => negb (Ascii.eqb c sep)) a = true ->
  Py.split sep (a +:+ String sep b) = a :: Py.split sep b.
Proof.
  induction a as [|c a IH]; intros H.
  - apply split_cons_sep.
  - simpl in H. apply andb_prop in H as [Hc Ha]. apply negb_true_iff in Hc.
    change (String c a +:+ String sep b) with (String c (a +:+ String sep b)).
    cbn [Py.split]. by rewrite Hc, (IH Ha).
Qed.

Lemma no_underscore_str n : Py.all_chars (fun a => negb (Ascii.eqb a "_")) (Py.str n) = true.
Proof.
  apply str_all. intros c [H| ->]%sign_or_digit_cases; [|done].
  apply negb_true_iff, Ascii.eqb_neq. intros ->. simpl in H. lia.
Qed.

(** The index of a name [<word>_<n>] is [n]. *)
Lemma index_of_name_numbered word n :
  Py.all_chars (fun c => negb (Ascii.eqb c "_")) word = true ->
  index_of_name (word +:+ String "_" (Py.str n)) = Some n.
Proof.
  intros H. unfold index_of_name. rewrite split_app_sep by done.
  rewrite split_whole by apply no_underscore_str. simpl. apply int_str.
Qed.

(** *** Layout *)

Section Layout.
Variable B : path.

Lemma TEMP_ROOT_eq : TEMP_ROOT B = removelast B ++ ["annotation-frontend"; "temp"].
Proof. unfold TEMP_ROOT, FRONTEND_DIR, parent. by rewrite !joinpath_name, <- app_assoc. Qed.

Lemma PERSONS_DB_eq : PERSONS_DB B = B ++ ["persons"].
Proof. unfold PERSONS_DB. by rewrite joinpath_name. Qed.

Lemma UPLOADS_DIR_eq : UPLOADS_DIR B = B ++ ["uploads"].
Proof. unfold UPLOADS_DIR. by rewrite joinpath_name. Qed.

Lemma ANNOTATIONS_DIR_eq : ANNOTATIONS_DIR B = B ++ ["annotations"].
Proof. unfold ANNOTATIONS_DIR. by rewrite joinpath_name. Qed.

Lemma TEMP_ROOT_not_PERSONS_DB : TEMP_ROOT B <> PERSONS_DB B.
Proof.
  rewrite TEMP_ROOT_eq, PERSONS_DB_eq.
  change ["annotation-frontend"; "temp"] with (["annotation-frontend"] ++ ["temp"]).
  rewrite app_assoc. by intros [_ ?]%app_inj_tail.
Qed.

Hypothesis HB : Forall (fun c => is_name c = true) B.

Lemma names_removelast (l : list string) :
  Forall (fun c => is_name c = true) l -> Forall (fun c => is_name c = true) (removelast l).
Proof.
  induction 1 as [|c l Hc Hl IH]; [done|]. simpl. destruct l; [done|]. by constructor.
Qed.

Lemma TEMP_ROOT_names : Forall (fun c => is_name c = true) (TEMP_ROOT B).
Proof.
  rewrite TEMP_ROOT_eq. apply Forall_app. split; [by apply names_removelast|].
  by repeat constructor.
Qed.

Lemma PERSONS_DB_names : Forall (fun c => is_name c = true) (PERSONS_DB B).
Proof. rewrite PERSONS_DB_eq. apply Forall_app. split; [done|]. by repeat constructor. Qed.
End Layout.

Lemma names_snoc l c :
  Forall (fun c => is_name c = true) l -> is_name c = true ->
  Forall (fun c => is_name c = true) (l ++ [c]).
Proof. intros. apply Forall_app. split; [done|]. by constructor. Qed.

(** On a path of names resolution is the identity. *)
Lemma stat_names fs p q n :
  Forall (fun c => is_name c = true) p -> stat fs p = inr (q, n) ->
  q = p /\ lookup_path fs p = Some n.
Proof.
  intros Hp [-> H]%stat_normalize. by rewrite normalize_names in *.
Qed.

Lemma walk_names fs p q :
  Forall (fun c => is_name c = true) p -> walk fs [] p = inr q -> q = p.
Proof.
  intros Hp ->%walk_normalize. fold (normalize p). by apply normalize_names.
Qed.

Lemma is_name_database n : is_name ("database_" +:+ Py.str n) = true.
Proof. apply (is_name_intro "d"); [done..|]. cbn. apply no_slash_str. Qed.


Lemma startswith_app p s : Py.startswith p (p +:+ s) = true.
Proof.
  unfold Py.startswith. induction p as [|c p IH]; [by destruct s|].
  change (String c p +:+ s) with (String c (p +:+ s)).
  change (String.prefix (String c p) (String c (p +:+ s)))
    with (if ascii_dec c c then String.prefix p (p +:+ s) else false).
  by destruct (ascii_dec c c).
Qed.

(** Entries of a directory that [iterdir] lists. *)
Lemma iterdir_names fs p entries :
  Forall (fun c => is_name c = true) p -> iterdir fs p = inr entries ->
  exists m, lookup_path fs p = Some (Dir m) /\ entries = map_to_list m.
Proof.
  intros Hp. unfold iterdir. destruct (stat fs p) as [e|[q [d|m]]] eqn:Hs; try done.
  intros [= <-]. apply stat_names in Hs as [-> Hl]; [|done]. by exists m.
Qed.

Section Promotion.
Variable B : path.
Hypothesis HB : Forall (fun c => is_name c = true) B.

(** No directory of the permanent store carries the allocated name. *)
Lemma allocated_name_free t1 entries :
  iterdir t1 (PERSONS_DB B) = inr entries ->
  let existing := map fst (filter (fun d => is_dir_node d.2) entries) in
  let n := next_index 1 (filter (fun d => Py.startswith "database_" d) existing) in
  kind_at t1 (PERSONS_DB B ++ ["database_" +:+ Py.str n]) <> IsDir.
Proof.
  intros Hit existing n [m' Hd]%kind_at_dir.
  apply iterdir_names in Hit as (m & Hm & ->); [|by apply PERSONS_DB_names].
  rewrite lookup_path_snoc, Hm in Hd.
  assert ("database_" +:+ Py.str n ∈
          filter (fun d => Py.startswith "database_" d) existing) as Hin.
  { apply list_elem_of_filter. split; [by rewrite startswith_app|].
    apply list_elem_of_fmap. exists ("database_" +:+ Py.str n, Dir m'). split; [done|].
    apply list_elem_of_filter. split; [done|]. by apply elem_of_map_to_list. }
  pose proof (next_index_ge 1 _ _ n Hin (index_of_name_numbered "database" n eq_refl)).
  fold n in H. lia.
Qed.
End Promotion.

Ltac unfold_sys :=
  unfold bind, ret, raise, Sys.exists_, Sys.observe, Sys.mkdir, Sys.unlink, Sys.rename,
    Sys.os_call, Sys.iterdir, Sys.shutil_move, Sys.rmtree_ignore; cbn [tree written].

Lemma is_name_nonempty c : is_name c = true -> c <> EmptyString.
Proof. by intros (? & _)%is_name_spec. Qed.

Section Promotion2.
Variable B : path.
Hypothesis HB : Forall (fun c => is_name c = true) B.

Lemma confirm_session_returns w (payload : gmap string string) sid j w' :
  payload !! "session_id" = Some sid -> sid <> EmptyString ->
  confirm_session B payload w = Returns j w' ->
  exists t1 entries,
    exists_ (tree w) (TEMP_ROOT B // sid) = true /\
    FS.mkdir true true (tree w) (PERSONS_DB B) = (t1, None) /\
    iterdir t1 (PERSONS_DB B) = inr entries /\
    let existing := map fst (filter (fun d => is_dir_node d.2) entries) in
    let n := next_index 1 (filter (fun d => Py.startswith "database_" d) existing) in
    let dest := PERSONS_DB B // ("database_" +:+ Py.str n) in
    shutil_move t1 (TEMP_ROOT B // sid) dest = Moved (tree w') /\
    written w' = written w /\
    j = JObj [("moved_to", JStr ("/persons/" +:+ name dest))].
Proof.
  intros Hp Hs. unfold confirm_session. payload_fields. unfold_sys.
  destruct (exists_ (tree w) (TEMP_ROOT B // sid)) eqn:Hex; [|done]. cbn [negb].
  destruct (FS.mkdir true true (tree w) (PERSONS_DB B)) as [t1 [e|]] eqn:Hmk;
    cbn [tree written]; [done|].
  destruct (iterdir t1 (PERSONS_DB B)) as [e|entries] eqn:Hit; cbn [tree written]; [done|].
  destruct (shutil_move t1 _ _) as [t'| | |] eqn:Hmv; cbn [tree written]; try done.
  intros [= <- <-]. by exists t1, entries.
Qed.

End Promotion2.

Lemma is_name_person n : is_name ("person_" +:+ Py.str n) = true.
Proof. apply (is_name_intro "p"); [done..|]. cbn. apply no_slash_str. Qed.

(** Making a new entry in an existing directory succeeds. *)
Lemma mkdir_child fs p q m c ok :
  stat fs p = inr (q, Dir m) -> is_name c = true -> exists_ fs (p ++ [c]) = false ->
  exists fs', FS.mkdir true ok fs (p ++ [c]) = (fs', None).
Proof.
  intros [Hw Hl]%stat_inr Hc Hex. unfold FS.mkdir.
  rewrite mkdir_parents_unfold, rev_involutive.
  assert (walk fs [] (p ++ [c]) = inr (q ++ [c])) as Hw'.
  { rewrite walk_app, Hw. simpl. by rewrite Hl, (is_name_not_dotdot c Hc). }
  unfold os_mkdir. rewrite Hw'.
  unfold exists_, stat in Hex. rewrite Hw' in Hex.
  destruct (lookup_path fs (q ++ [c])); [done|]. by eexists.
Qed.

Lemma add_person_new_folder B w (payload : gmap string string) sid new_name :
  payload !! "session_id" = Some sid -> sid <> EmptyString ->
  exists_ (tree w) (TEMP_ROOT B // sid) = true ->
  forall (choose : M world string),
    choose w = Returns new_name w ->
    (do new_name <- choose;
     let new_folder := TEMP_ROOT B // sid // new_name in
     do taken <- Sys.exists_ new_folder;
     if taken then raise (HTTPException 400 "Person folder exists") else
     Sys.mkdir true false new_folder ;;
     ret (JObj [("person", JStr new_name)])) w =
    if exists_ (tree w) (TEMP_ROOT B // sid // new_name)
    then Raises (HTTPException 400 "Person folder exists") w
    else match FS.mkdir true false (tree w) (TEMP_ROOT B // sid // new_name) with
         | (t, None) => Returns (JObj [("person", JStr new_name)]) (World t (written w))
         | (t, Some e) => Raises (OSError e) (World t (written w))
         end.
Proof.
  intros _ _ _ choose Hc. unfold bind at 1. rewrite Hc. unfold_sys.
  destruct (exists_ (tree w) _); [done|]. by destruct (FS.mkdir _ _ _ _) as [t [e|]].
Qed.

(** C9, as amended. With an explicit name the group directory is named
    by the supplied name with leading and trailing blanks stripped and
    every remaining space replaced by an underscore. A request that
    returns has made that directory; the request fails with 400 when the
    path exists already, and it succeeds when the name is a single
    component that is free in an existing session directory. *)
Theorem add_person_explicit_name B w (payload : gmap string string) sid name :
  payload !! "session_id" = Some sid -> sid <> EmptyString ->
  payload !! "name" = Some name -> name <> EmptyString ->
  let new_name := Py.replace " " "_" (Py.strip name) in
  let session_dir := TEMP_ROOT B // sid in
  let new_folder := session_dir // new_name in
  (forall j w',
     add_person B payload w = Returns j w' ->
     j = JObj [("person", JStr new_name)] /\
     is_dir (tree w') new_folder = true /\
     exists_ (tree w) new_folder = false /\
     grows (tree w) (tree w') /\ written w' = written w) /\
  (exists_ (tree w) session_dir = true -> exists_ (tree w) new_folder = true ->
   add_person B payload w = Raises (HTTPException 400 "Person folder exists") w) /\
  (is_name new_name = true -> is_dir (tree w) session_dir = true ->
   exists_ (tree w) new_folder = false ->
   exists w', add_person B payload w = Returns (JObj [("person", JStr new_name)]) w').
Proof.
  intros Hs Hsne Hn Hnne new_name session_dir new_folder.
  assert (exists_ (tree w) session_dir = true ->
          add_person B payload w =
          if exists_ (tree w) new_folder
          then Raises (HTTPException 400 "Person folder exists") w
          else match FS.mkdir true false (tree w) new_folder with
               | (t, None) =>
                   Returns (JObj [("person", JStr new_name)]) (World t (written w))
               | (t, Some e) => Raises (OSError e) (World t (written w))
               end) as Heq.
  { intros Hex. unfold add_person. payload_fields.
    unfold bind at 1, Sys.exists_ at 1, Sys.observe at 1. cbn [tree].
    fold session_dir. rewrite Hex. cbn [negb].
    by apply (add_person_new_folder B w payload sid new_name). }
  split; [|split].
  - intros j w' Hret.
    destruct (exists_ (tree w) session_dir) eqn:Hex.
    + rewrite (Heq eq_refl) in Hret.
      destruct (exists_ (tree w) new_folder); [done|].
      pose proof (mkdir_grows true false (tree w) new_folder) as Hg.
      destruct (FS.mkdir true false (tree w) new_folder) as [t [e|]] eqn:Hmk; [done|].
      injection Hret as <- <-. cbn [tree written]. repeat split; [|done].
      by eapply mkdir_is_dir.
    + revert Hret. unfold add_person. payload_fields.
      unfold bind at 1, Sys.exists_ at 1, Sys.observe at 1. cbn [tree].
      fold session_dir. by rewrite Hex.
  - intros Hex Ht. by rewrite (Heq Hex), Ht.
  - intros Hname (q & m & Hst)%is_dir_true Hfree.
    assert (exists_ (tree w) session_dir = true) as Hex by (apply exists_true; eauto).
    rewrite (Heq Hex), Hfree. unfold new_folder in *.
    rewrite (joinpath_name _ _ Hname) in *.
    destruct (mkdir_child _ _ _ _ _ false Hst Hname Hfree) as [t ->]. by eexists.
Qed.

(** C6, as amended. Without a name, on a session that is a directory, the
    new group is [person_<k>] where [k] is the least integer that is
    non-negative and greater than every index read off an existing group
    directory whose name starts with [person_] (the field between the
    first and the second underscore, read as an integer); so [k] exceeds
    [n] for every group named [person_<n>], and with [person_0] as the
    only such group the new group is [person_1]. The request fails with
    400 if that path exists, and makes the directory otherwise. *)
Theorem add_person_auto_name B w (payload : gmap string string) sid q m :
  payload !! "session_id" = Some sid -> sid <> EmptyString ->
  truthy_opt (payload !! "name") = false ->
  stat (tree w) (TEMP_ROOT B // sid) = inr (q, Dir m) ->
  let group := fun e => exists files,
                 m !! e = Some (Dir files) /\ Py.startswith "person_" e = true in
  exists k,
    (0 <= k /\
     (forall e n, group e -> index_of_name e = Some n -> n < k) /\
     (forall n files, m !! ("person_" +:+ Py.str n) = Some (Dir files) -> n < k) /\
     (k = 0 \/ exists e, group e /\ index_of_name e = Some (k - 1))) /\
    ((forall e, group e <-> e = "person_0") -> k = 1) /\
    let new_folder := TEMP_ROOT B // sid // ("person_" +:+ Py.str k) in
    (exists_ (tree w) new_folder = true ->
     add_person B payload w = Raises (HTTPException 400 "Person folder exists") w) /\
    (exists_ (tree w) new_folder = false ->
     exists w',
       add_person B payload w =
       Returns (JObj [("person", JStr ("person_" +:+ Py.str k))]) w' /\
       is_dir (tree w') new_folder = true /\
       grows (tree w) (tree w') /\ written w' = written w).
Proof.
  intros Hs Hsne Hn Hst group.
  set (existing := map fst (filter (fun p : string * node =>
                     is_dir_node p.2 && Py.startswith "person_" p.1) (map_to_list m))).
  assert (forall e, e ∈ existing <-> group e) as Hin.
  { intros e. unfold existing, group. rewrite list_elem_of_fmap. split.
    - intros ([e' n'] & -> & [Hp Hm]%list_elem_of_filter). simpl in *.
      apply elem_of_map_to_list in Hm. apply andb_prop_elim in Hp as [Hd Hp].
      destruct n' as [d|files]; [done|]. exists files. split; [done|].
      by apply Is_true_true.
    - intros (files & Hm & Hp). exists (e, Dir files). split; [done|].
      apply list_elem_of_filter. split; [|by apply elem_of_map_to_list].
      simpl. by rewrite Hp. }
  set (k := next_index 0 existing).
  assert (exists_ (tree w) (TEMP_ROOT B // sid) = true) as Hex by (apply exists_true; eauto).
  assert (add_person B payload w =
          if exists_ (tree w) (TEMP_ROOT B // sid // ("person_" +:+ Py.str k))
          then Raises (HTTPException 400 "Person folder exists") w
          else match FS.mkdir true false (tree w)
                       (TEMP_ROOT B // sid // ("person_" +:+ Py.str k)) with
               | (t, None) => Returns (JObj [("person", JStr ("person_" +:+ Py.str k))])
                                      (World t (written w))
               | (t, Some e) => Raises (OSError e) (World t (written w))
               end) as Heq.
  { unfold add_person. payload_fields.
    unfold bind at 1, Sys.exists_ at 1, Sys.observe at 1. cbn [tree].
    rewrite Hex, Hn. cbn [negb].
    apply (add_person_new_folder B w payload sid); [done..|].
    unfold bind, Sys.iterdir, FS.iterdir, ret. by rewrite Hst. }
  exists k. split; [|split].
  - split; [apply next_index_ge_start|]. split; [|split].
    + intros e n He%Hin Hi. pose proof (next_index_ge 0 existing e n He Hi). fold k in H. lia.
    + intros n files Hm.
      assert (("person_" +:+ Py.str n) ∈ existing) as He.
      { apply Hin. exists files. split; [done|]. apply startswith_app. }
      pose proof (next_index_ge 0 existing _ n He (index_of_name_numbered "person" n eq_refl)).
      fold k in H. lia.
    + destruct (next_index_attained 0 existing) as [?|(e & n & He & Hi & Hk)]; [by left|].
      right. exists e. split; [by apply Hin|]. fold k in Hk. rewrite Hk.
      by replace (n + 1 - 1) with n by lia.
  - intros Honly.
    assert ("person_0" ∈ existing) as H0 by (by apply Hin, Honly).
    pose proof (next_index_ge 0 existing _ 0 H0 eq_refl) as Hge. fold k in Hge.
    destruct (next_index_attained 0 existing) as [Hk|(e & n & He & Hi & Hk)];
      fold k in Hk; [lia|].
    apply Hin, Honly in He as ->. injection Hi as <-. done.
  - cbv zeta. rewrite Heq. split; [by intros ->|]. intros Hfree. rewrite Hfree.
    rewrite (joinpath_name _ _ (is_name_person k)) in *.
    destruct (mkdir_child _ _ _ _ _ false Hst (is_name_person k) Hfree) as [t Hmk].
    pose proof (mkdir_grows true false (tree w) (TEMP_ROOT B // sid ++ ["person_" +:+ Py.str k]))
      as Hg.
    rewrite Hmk in *. eexists. split; [done|]. cbn [tree written].
    split; [by eapply mkdir_is_dir|]. by split.
Qed.

Lemma sorted_entries_elem (x : string * node) l : x ∈ sorted_entries l <-> x ∈ l.
Proof. unfold sorted_entries. by rewrite merge_sort_Permutation. Qed.

Lemma web_path_inj sid g f f' : web_path sid g f = web_path sid g f' -> f = f'.
Proof.
  unfold web_path. intros H. by repeat apply String.app_inj in H.
Qed.

Lemma list_images_elem sid g (files : gmap string node) u :
  u ∈ list_images sid g (map_to_list files) <->
  exists f d, files !! f = Some (File d) /\ u = web_path sid g f.
Proof.
  unfold list_images. rewrite list_elem_of_fmap. split.
  - intros ([f n] & -> & [Hf Hin]%list_elem_of_filter). simpl in *.
    apply sorted_entries_elem, elem_of_map_to_list in Hin.
    destruct n as [d|?]; [|done]. by exists f, d.
  - intros (f & d & Hf & ->). exists (f, File d). split; [done|].
    apply list_elem_of_filter. split; [done|].
    by apply sorted_entries_elem, elem_of_map_to_list.
Qed.

Lemma all_chars_app_sep (P : ascii -> bool) a c b :
  Py.all_chars P (a +:+ String c b) = true -> P c = true.
Proof.
  rewrite all_chars_app. simpl. intros [_ [H _]%andb_prop]%andb_prop. done.
Qed.

(** What the listing of a session is made of. *)
Lemma list_session_persons_returns B sid w out w' :
  list_session_persons B sid w = Returns out w' ->
  w' = w /\
  exists q m,
    stat (tree w) (TEMP_ROOT B // sid) = inr (q, Dir m) /\
    forall g imgs,
      (g, imgs) ∈ out <->
      exists files, m !! g = Some (Dir files) /\
                    imgs = list_images sid g (map_to_list files).
Proof.
  unfold list_session_persons. unfold_sys.
  destruct (exists_ (tree w) (TEMP_ROOT B // sid)) eqn:Hex; [|done]. cbn [negb].
  unfold iterdir.
  destruct (stat (tree w) (TEMP_ROOT B // sid)) as [e|[q [d|m]]] eqn:Hst; try done.
  intros [= <- <-]. split; [done|]. exists q, m. split; [done|].
  intros g imgs. rewrite list_elem_of_omap. split.
  - intros ([g' n] & Hin & Hf). simpl in Hf.
    apply sorted_entries_elem, elem_of_map_to_list in Hin.
    destruct n as [d|files]; [done|]. injection Hf as <- <-. by exists files.
  - intros (files & Hm & ->). exists (g, Dir files). split; [|done].
    by apply sorted_entries_elem, elem_of_map_to_list.
Qed.

(** C10. The listing of a session leaves the store alone and is made of
    the directories found directly in the session directory; each image
    is the web path [/temp/<session>/<group>/<file>] of a regular file
    found directly in that group. A regular file directly in the session
    directory (the snapshot, a frame dump) is no key of the listing and
    its web path is no image; a subdirectory of a group is no image. *)
Theorem list_session_persons_group_files B sid w out w' :
  list_session_persons B sid w = Returns out w' ->
  w' = w /\
  exists q m,
    stat (tree w) (TEMP_ROOT B // sid) = inr (q, Dir m) /\
    (forall g imgs,
       ((g, imgs) ∈ out) ->
       exists files,
         lookup_path (tree w) (q ++ [g]) = Some (Dir files) /\
         forall u, u ∈ imgs ->
           exists f d, lookup_path (tree w) (q ++ [g; f]) = Some (File d) /\
                       u = web_path sid g f) /\
    (forall n d,
       lookup_path (tree w) (q ++ [n]) = Some (File d) ->
       (n ∉ map fst out) /\
       (Py.all_chars (fun a => negb (Ascii.eqb a "/")) n = true ->
        forall g imgs, (g, imgs) ∈ out -> "/temp/" +:+ sid +:+ "/" +:+ n ∉ imgs)) /\
    (forall g imgs d sub,
       ((g, imgs) ∈ out) ->
       lookup_path (tree w) (q ++ [g; d]) = Some (Dir sub) ->
       web_path sid g d ∉ imgs).
Proof.
  intros (-> & q & m & Hst & Hout)%list_session_persons_returns. split; [done|].
  exists q, m. split; [done|]. apply stat_inr in Hst as [_ Hq].
  assert (forall g, lookup_path (tree w) (q ++ [g]) = m !! g) as Hg
    by (intros g; by rewrite lookup_path_snoc, Hq).
  assert (forall g files f, m !! g = Some (Dir files) ->
            lookup_path (tree w) (q ++ [g; f]) = files !! f) as Hgf.
  { intros g files f Hm. change [g; f] with ([g] ++ [f]).
    by rewrite app_assoc, lookup_path_snoc, Hg, Hm. }
  split; [|split].
  - intros g imgs (files & Hm & ->)%Hout. exists files. split; [by rewrite Hg|].
    intros u (f & d & Hf & ->)%list_images_elem. exists f, d. by rewrite (Hgf _ _ _ Hm).
  - intros n d Hn. rewrite Hg in Hn. split.
    + intros ([g imgs] & -> & (files & Hm & _)%Hout)%list_elem_of_fmap. simpl in *.
      congruence.
    + intros Hns g imgs (files & Hm & ->)%Hout (f & d' & _ & Hu)%list_images_elem.
      unfold web_path in Hu. do 3 apply String.app_inj in Hu. subst n.
      by apply all_chars_app_sep in Hns.
  - intros g imgs d sub (files & Hm & ->)%Hout Hd (f & d' & Hf & ->%web_path_inj)%list_images_elem.
    rewrite (Hgf _ _ _ Hm) in Hd. congruence.
Qed.

Lemma keeps_file_refl P w : keeps_file P w w.
Proof. by split. Qed.

Lemma keeps_file_trans P w1 w2 w3 :
  keeps_file P w1 w2 -> keeps_file P w2 w3 -> keeps_file P w1 w3.
Proof. intros [E1 H1] [E2 H2]. split; [congruence|]. intros d Hd. by apply H2, H1. Qed.

Lemma grows_keeps_file P t t' l :
  grows t t' -> keeps_file P (World t l) (World t' l).
Proof. intros Hg. split; [done|]. simpl. intros d Hd. rewrite Hg; [done|]. by rewrite Hd. Qed.

Lemma matches_pattern_split web :
  matches_pattern web = true ->
  exists s g f, Py.split "/" web = [EmptyString; "temp"; s; g; f] /\
                is_name s = true /\ is_name g = true /\ is_name f = true.
Proof.
  unfold matches_pattern.
  destruct (Py.split "/" web) as [|e [|t [|s [|g [|f [|]]]]]]; try done.
  intros ((((->%String.eqb_eq & ->%String.eqb_eq)%andb_prop & Hs)%andb_prop
           & Hg)%andb_prop & Hf)%andb_prop.
  by exists s, g, f.
Qed.

(** *** create group *)
Lemma add_person_grows B payload w :
  match add_person B payload w with
  | Returns _ w' | Raises _ w' => grows (tree w) (tree w') /\ written w' = written w
  | Beyond => False
  end.
Proof.
  unfold add_person.
  destruct (truthy_opt (payload !! "session_id")); cbn [negb]; [|split; [apply grows_refl|done]].
  unfold bind at 1, Sys.exists_ at 1, Sys.observe at 1. cbn [tree].
  destruct (exists_ (tree w) _); cbn [negb]; [|split; [apply grows_refl|done]].
  assert (forall new_name,
    match (let new_folder := TEMP_ROOT B // the (payload !! "session_id") // new_name in
           do taken <- Sys.exists_ new_folder;
           if taken then raise (HTTPException 400 "Person folder exists") else
           Sys.mkdir true false new_folder ;; ret (JObj [("person", JStr new_name)])) w with
    | Returns _ w' | Raises _ w' => grows (tree w) (tree w') /\ written w' = written w
    | Beyond => False
    end) as Hrest.
  { intros new_name. unfold_sys. destruct (exists_ (tree w) _); [split; [apply grows_refl|done]|].
    unfold Sys.mkdir.
    match goal with |- context [FS.mkdir true false (tree w) ?p] =>
      pose proof (mkdir_grows true false (tree w) p) as Hg;
      destruct (FS.mkdir true false (tree w) p) as [t [e|]] end; by cbn [tree written]. }
  destruct (truthy_opt (payload !! "name")).
  - unfold bind at 1, ret at 1. apply Hrest.
  - unfold bind at 1. unfold bind at 1, Sys.iterdir.
    destruct (iterdir (tree w) _); [split; [apply grows_refl|done]|].
    unfold ret at 1. apply Hrest.
Qed.

(** *** Names made by [move_image] *)

Lemma all_chars_substring P n m s :
  Py.all_chars P s = true -> Py.all_chars P (substring n m s) = true.
Proof.
  revert n m. induction s as [|c s IH]; intros n m H.
  - by destruct n, m.
  - simpl in H. apply andb_prop in H as [Hc Hs].
    destruct n as [|n]; [destruct m as [|m]|]; simpl; [done| |by apply IH].
    by rewrite Hc, IH.
Qed.

Lemma substring_take_length n s :
  (n <= String.length s)%nat -> String.length (substring 0 n s) = n.
Proof.
  revert n. induction s as [|c s IH]; intros [|n] H; simpl in *; try done; try lia.
  rewrite IH; lia.
Qed.

Lemma splitext_chars P f :
  Py.all_chars P f = true ->
  Py.all_chars P (Py.splitext f).1 = true /\ Py.all_chars P (Py.splitext f).2 = true.
Proof.
  intros H. unfold Py.splitext. destruct (Py.rfind "." f) as [dot|]; [|done].
  destruct (_ && _); [|done]. simpl. split; by apply all_chars_substring.
Qed.

Lemma is_name_suffixed f r :
  is_name f = true ->
  is_name ((Py.splitext f).1 +:+ "_" +:+ Py.take 6 (Py.hex (Py.uuid4 r)) +:+ (Py.splitext f).2)
  = true.
Proof.
  intros (_ & _ & _ & Hf)%is_name_spec.
  destruct (splitext_chars _ f Hf) as [Hb He].
  set (h := Py.take 6 (Py.hex (Py.uuid4 r))).
  assert (String.length h = 6%nat) as Hh
    by (apply substring_take_length; rewrite hex_length; lia).
  assert (Py.all_chars (fun a => negb (Ascii.eqb a "/")) h = true) as Hhs
    by apply all_chars_substring, no_slash_hex.
  apply is_name_spec.
  assert (7 <= String.length ((Py.splitext f).1 +:+ "_" +:+ h +:+ (Py.splitext f).2))%nat
    as HL by (rewrite !string_app_length, Hh; simpl; lia).
  repeat split; try (intros E; rewrite E in HL; simpl in HL; lia).
  by rewrite !all_chars_app, Hb, Hhs, He.
Qed.

Lemma names_app l1 l2 :
  Forall (fun c => is_name c = true) l1 -> Forall (fun c => is_name c = true) l2 ->
  Forall (fun c => is_name c = true) (l1 ++ l2).
Proof. intros. by apply Forall_app. Qed.

Section Frame.
Variable B : path.
Hypothesis HB : Forall (fun c => is_name c = true) B.

(** A file directly in a session directory. *)
Variables (sid0 n0 : string).
Local Abbreviation P := (TEMP_ROOT B ++ [sid0; n0]).

Lemma temp_names l :
  Forall (fun c => is_name c = true) l ->
  Forall (fun c => is_name c = true) (TEMP_ROOT B ++ l).
Proof. apply names_app. by apply TEMP_ROOT_names. Qed.

Lemma delete_image_keeps (payload : gmap string string) w :
  matches_pattern (the (payload !! "path")) = true ->
  match delete_image B payload w with
  | Returns _ w' | Raises _ w' => keeps_file P w w'
  | Beyond => True
  end.
Proof.
  intros (s & g & f & Hsp & Hs & Hg & Hf)%matches_pattern_split.
  unfold delete_image. destruct (_ || _); [apply keeps_file_refl|].
  rewrite Hsp. cbn [List.length Nat.ltb Nat.leb nth List.last].
  rewrite !joinpath_name, <- !app_assoc by done. cbn [app].
  unfold_sys. destruct (exists_ (tree w) _); cbn [negb]; [|apply keeps_file_refl].
  destruct (unlink (tree w) _) as [e|t] eqn:Hu; [apply keeps_file_refl|].
  apply unlink_inr in Hu as (d & _ & _ & Ho); [|by destruct (TEMP_ROOT B)].
  rewrite normalize_names in Ho by (apply temp_names; by repeat constructor).
  split; [done|]. cbn [tree]. intros d' Hd'. rewrite Ho; [done|].
  by intros ?%app_inv_head.
Qed.

Lemma rename_person_keeps (payload : gmap string string) w :
  well_addressed B w (RenamePerson payload) = true ->
  match rename_person B payload w with
  | Returns _ w' | Raises _ w' => keeps_file P w w'
  | Beyond => True
  end.
Proof.
  cbn [well_addressed].
  intros (((Hs & Ho)%andb_prop & Hn)%andb_prop & Hd)%andb_prop.
  unfold rename_person. destruct (negb _); [apply keeps_file_refl|].
  rewrite !joinpath_name, <- !app_assoc in * by done. cbn [app] in *.
  set (s := the (payload !! "session_id")) in *.
  set (o := the (payload !! "old_name")) in *.
  set (n := the (payload !! "new_name")) in *.
  unfold_sys. destruct (exists_ (tree w) (TEMP_ROOT B ++ [s; o])); cbn [negb];
    [|apply keeps_file_refl].
  destruct (exists_ (tree w) (TEMP_ROOT B ++ [s; n])) eqn:Hnew; [apply keeps_file_refl|].
  destruct (rename (tree w) _ _) as [e|t] eqn:Hr; [apply keeps_file_refl|].
  apply rename_inr in Hr as (sq & sn & dq & Hst & Hw & _ & _ & Hcase).
  apply stat_names in Hst as [-> Hl]; [|apply temp_names; by repeat constructor].
  apply walk_names in Hw as Hdq; [|apply temp_names; by repeat constructor]. subst dq.
  split; [done|]. cbn [tree]. intros d HP.
  destruct Hcase as [[_ ->]|(Hsne & Hdne & Hspar & Hdpar & Hsd & Hds & Hfr & ->)]; [done|].
  erewrite moved_keeps; try done.
  - intros Hpre%prefix_app_inv. destruct Hpre as [k Hk].
    injection Hk as -> -> _.
    apply is_dir_true in Hd as (q & m & Hq).
    apply stat_names in Hq as [_ Hq]; [|apply temp_names; by repeat constructor].
    apply kind_at_file in HP. congruence.
  - intros HPd. unfold exists_, stat in Hnew. rewrite Hw in Hnew.
    apply kind_at_file in HP. rewrite HPd in HP. by rewrite HP in Hnew.
  - by rewrite HP.
Qed.

Lemma move_image_keeps r (payload : gmap string string) w :
  well_addressed B w (MoveImage r payload) = true ->
  match move_image B r payload w with
  | Returns _ w' | Raises _ w' => keeps_file P w w'
  | Beyond => True
  end.
Proof.
  cbn [well_addressed].
  intros [(s & g & f & Hsp & Hs & Hg & Hf)%matches_pattern_split Hd]%andb_prop.
  unfold move_image. destruct (_ || _); [apply keeps_file_refl|].
  destruct (negb _); [apply keeps_file_refl|].
  rewrite Hsp. cbn [List.length Nat.ltb Nat.leb nth List.last].
  set (d := the (payload !! "dest_person")) in *.
  pose proof (is_name_suffixed f r Hf) as Hf'.
  destruct (Py.splitext f) as [base ext] eqn:Hsplit. cbn [fst snd] in Hf'.
  rewrite !joinpath_name, <- !app_assoc by done. cbn [app].
  unfold bind at 1, Sys.exists_ at 1, Sys.observe at 1. cbn [tree].
  destruct (exists_ (tree w) _); cbn [negb]; [|apply keeps_file_refl].
  unfold bind at 1, Sys.mkdir at 1.
  pose proof (mkdir_grows true true (tree w) (TEMP_ROOT B ++ [s; d])) as Hgrow.
  destruct (FS.mkdir true true (tree w) _) as [t1 [e|]] eqn:Hmk; cbn [fst] in Hgrow;
    [destruct w; by apply grows_keeps_file|].
  set (w1 := World t1 (written w)).
  assert (keeps_file P w w1) as H01 by (destruct w; by apply grows_keeps_file).
  cbn beta iota.
  match goal with
  | |- match ?m with _ => _ end =>
      assert (match m with
              | Returns _ w' | Raises _ w' => keeps_file P w1 w'
              | Beyond => True
              end) as Hrest;
        [|destruct m; eauto using keeps_file_trans]
  end.
  unfold bind at 1, Sys.exists_ at 1, Sys.observe at 1. cbn [tree w1].
  assert (forall f' (j : json), is_name f' = true ->
            match (Sys.shutil_move (TEMP_ROOT B ++ [s; g; f]) (TEMP_ROOT B ++ [s; d; f']) ;;
                   ret j) w1 with
            | Returns _ w' | Raises _ w' => keeps_file P w1 w'
            | Beyond => True
            end) as Hgen; [|destruct (exists_ t1 _); by apply Hgen].
  intros f' j Hfn.
  unfold bind at 1, Sys.shutil_move at 1. cbn [tree written w1].
  destruct (shutil_move t1 _ _) as [t'| | |] eqn:Hmv; try apply keeps_file_refl; [|done].
  unfold ret. split; [done|]. cbn [tree]. intros d0 HP.
  unfold w1 in HP. cbn [tree] in HP.
  assert (forall dst, Forall (fun c => is_name c = true) dst ->
            List.length dst <> List.length P ->
            rename t1 (TEMP_ROOT B ++ [s; g; f]) dst = inr t' ->
            kind_at t' P = IsFile d0) as Hren.
  { intros dst Hdst Hlen Hr.
    apply rename_inr in Hr as (sq & sn & dq & Hst & Hw & _ & _ & Hcase).
    apply stat_names in Hst as [-> Hl]; [|apply temp_names; by repeat constructor].
    apply walk_names in Hw as Hdq; [|done]. subst dq.
    destruct Hcase as [[_ ->]|(Hsne & Hdne & Hspar & Hdpar & Hsd & Hds & Hfr & ->)]; [done|].
    erewrite moved_keeps; try done.
    - intros Hpre%prefix_app_inv. by destruct Hpre as [k Hk].
    - intros HPd. by rewrite HPd in Hlen.
    - by rewrite HP. }
  apply shutil_move_moved in Hmv as [Hr|[_ Hr]]; eapply Hren; try exact Hr.
  - apply temp_names. by repeat constructor.
  - rewrite !length_app. simpl. lia.
  - rewrite <- app_assoc. apply temp_names. repeat constructor; try done.
    unfold name. rewrite <- (app_nil_l [s; g; f]), app_assoc.
    change [s; g; f] with ([s; g] ++ [f]). by rewrite app_assoc, last_last.
  - rewrite !length_app. simpl. lia.
Qed.

(** Well-addressed corrections leave the files at session roots alone
    and write no file. *)
Lemma correction_keeps c w w' :
  well_addressed B w c = true -> leaves (apply_correction B c w) w' -> keeps_file P w w'.
Proof.
  intros Hwa Hl. destruct c as [payload|r payload|payload|payload]; cbn [apply_correction] in Hl.
  - pose proof (add_person_grows B payload w) as H.
    destruct Hl; destruct H as [Hg He]; (split; [done|]);
      intros d Hd; rewrite Hg; try done; by rewrite Hd.
  - pose proof (move_image_keeps r payload w Hwa) as H. by destruct Hl.
  - pose proof (delete_image_keeps payload w Hwa) as H. by destruct Hl.
  - pose proof (rename_person_keeps payload w Hwa) as H. by destruct Hl.
Qed.

Lemma corrections_keep w cs w' : corrections B w cs w' -> keeps_file P w w'.
Proof.
  induction 1 as [w|w c cs w1 w2 Hwa Hl _ IH]; [apply keeps_file_refl|].
  eapply keeps_file_trans; [|exact IH]. by eapply correction_keeps.
Qed.
End Frame.

(** *** Where [mkdir] makes directories *)

Lemma os_mkdir_only fs p fs' :
  os_mkdir fs p = inr fs' ->
  forall P, P <> normalize p -> kind_at fs' P = kind_at fs P.
Proof.
  intros (q & Hw & Hk & Hne & Hpar & ->)%os_mkdir_inr P HP.
  apply walk_normalize in Hw. fold (normalize p) in Hw. subst q.
  apply update_fresh_kinds; try done. by rewrite Hk.
Qed.

Lemma mkdir_flat_only ok fs p :
  forall P, P <> normalize p -> kind_at (mkdir_flat ok fs p).1 P = kind_at fs P.
Proof.
  intros P HP. unfold mkdir_flat. destruct (os_mkdir fs p) as [e|t] eqn:E.
  - by destruct e; try destruct (ok && is_dir fs p).
  - by eapply os_mkdir_only.
Qed.

Lemma mkdir_parents_only ok fs rp :
  forall P, (forall k, P <> normalize (rev (drop k rp))) ->
            kind_at (mkdir_parents ok fs rp).1 P = kind_at fs P.
Proof.
  revert ok. induction rp as [|c rp IH]; intros ok P HP; rewrite mkdir_parents_unfold;
    (destruct (os_mkdir fs _) as [e|t] eqn:E;
     [|eapply os_mkdir_only; [done|apply (HP 0%nat)]]);
    destruct e; try destruct (ok && is_dir fs _); try done.
  pose proof (IH true P (fun k => HP (S k))) as H1.
  destruct (mkdir_parents true fs rp) as [t [e|]]; [done|]. cbn [fst] in H1.
  rewrite <- H1. apply mkdir_flat_only, (HP 0%nat).
Qed.

Lemma rev_drop_rev_prefix {A} k (l : list A) : rev (drop k (rev l)) `prefix_of` l.
Proof.
  exists (rev (take k (rev l))).
  by rewrite <- rev_app_distr, take_drop, rev_involutive.
Qed.

(** On a path of names, [mkdir] only makes prefixes of the path. *)
Lemma mkdir_names_only ok fs p :
  Forall (fun c => is_name c = true) p ->
  forall P, ¬ P `prefix_of` p -> kind_at (FS.mkdir true ok fs p).1 P = kind_at fs P.
Proof.
  intros Hp P HP. unfold FS.mkdir.
  apply mkdir_parents_only. intros k ->. apply HP.
  rewrite normalize_names by (by apply Forall_rev, Forall_drop, Forall_rev).
  apply rev_drop_rev_prefix.
Qed.

(** A path of names whose proper prefixes are directories resolves to
    itself. *)
Lemma walk_names_ok fs p :
  Forall (fun c => is_name c = true) p ->
  (forall p1 p2, p = p1 ++ p2 -> p2 <> [] -> kind_at fs p1 = IsDir) ->
  walk fs [] p = inr p.
Proof.
  induction p as [|c p IH] using rev_ind; intros Hp Hd; [done|].
  apply Forall_app in Hp as [Hp Hc%Forall_inv].
  rewrite walk_app, IH; [|done|].
  - simpl. pose proof (Hd p [c] eq_refl) as H. unfold kind_at in H.
    destruct (lookup_path fs p) as [[d|m]|]; try (by specialize (H ltac:(done))).
    by rewrite (is_name_not_dotdot c Hc).
  - intros p1 p2 -> Hp2. apply (Hd p1 (p2 ++ [c])); [by rewrite app_assoc|].
    by destruct p2.
Qed.

Lemma walk_names_to_entry fs p x :
  Forall (fun c => is_name c = true) p -> lookup_path fs p = Some x ->
  walk fs [] p = inr p.
Proof.
  intros Hp Hl. apply walk_names_ok; [done|]. intros p1 p2 -> Hp2.
  by eapply lookup_prefix_dir.
Qed.

Lemma stat_names_entry fs p x :
  Forall (fun c => is_name c = true) p -> lookup_path fs p = Some x ->
  stat fs p = inr (p, x).
Proof. intros Hp Hl. apply stat_inr. split; [by eapply walk_names_to_entry|done]. Qed.

Lemma name_no_slash c :
  is_name c = true -> Py.all_chars (fun a => negb (Ascii.eqb a "/")) c = true.
Proof. by intros (_ & _ & _ & ?)%is_name_spec. Qed.

Lemma split_web_path s g f :
  is_name s = true -> is_name g = true -> is_name f = true ->
  Py.split "/" (web_path s g f) = [EmptyString; "temp"; s; g; f].
Proof.
  intros Hs Hg Hf.
  change (web_path s g f)
    with (EmptyString +:+ String "/" ("temp" +:+ String "/"
            (s +:+ String "/" (g +:+ String "/" f)))).
  rewrite !split_app_sep by (done || by apply name_no_slash).
  by rewrite split_whole by (by apply name_no_slash).
Qed.

Lemma matches_pattern_web_path s g f :
  is_name s = true -> is_name g = true -> is_name f = true ->
  matches_pattern (web_path s g f) = true.
Proof.
  intros Hs Hg Hf. unfold matches_pattern. rewrite split_web_path by done.
  by rewrite Hs, Hg, Hf.
Qed.

Lemma mkdir_existing fs p :
  is_dir fs p = true -> FS.mkdir true true fs p = (fs, None).
Proof.
  intros Hd. unfold FS.mkdir. rewrite mkdir_parents_unfold, rev_involutive.
  apply is_dir_true in Hd as Hd'. destruct Hd' as (q & m & [Hw Hl]%stat_inr).
  unfold os_mkdir. rewrite Hw, Hl. by rewrite Hd.
Qed.

Section Listing.
Variable B : path.
Hypothesis HB : Forall (fun c => is_name c = true) B.

(** A file moved to another group is listed there and no longer in the
    group it came from. *)
Lemma move_image_listed r (payload : gmap string string) w s g f d data j w1 :
  is_name s = true -> is_name g = true -> is_name f = true -> is_name d = true ->
  g <> d ->
  payload !! "src" = Some (web_path s g f) ->
  payload !! "dest_person" = Some d ->
  kind_at (tree w) (TEMP_ROOT B ++ [s; g; f]) = IsFile data ->
  kind_at (tree w) (TEMP_ROOT B ++ [s; d; f]) = Missing ->
  move_image B r payload w = Returns j w1 ->
  j = JObj [("moved_to", JStr (web_path s d f))] /\
  exists out,
    list_session_persons B s w1 = Returns out w1 /\
    (exists imgs, (d, imgs) ∈ out /\ web_path s d f ∈ imgs) /\
    (forall imgs, (g, imgs) ∈ out -> web_path s g f ∉ imgs).
Proof.
  intros Hs Hg Hf Hd Hgd Hsrc Hdest Hfile Hfree.
  pose proof (is_name_nonempty _ Hd) as Hdne.
  assert (web_path s g f <> EmptyString) as Hwne by done.
  unfold move_image. payload_fields.
  unfold web_path at 1. rewrite startswith_app. cbn [negb].
  rewrite split_web_path by done. cbn [List.length Nat.ltb Nat.leb nth List.last].
  rewrite !joinpath_name, <- !app_assoc by done. cbn [app].
  assert (Forall (fun c => is_name c = true) (TEMP_ROOT B ++ [s; g; f])) as Nsrc
    by (apply temp_names; by repeat constructor).
  assert (Forall (fun c => is_name c = true) (TEMP_ROOT B ++ [s; d; f])) as Ndst
    by (apply temp_names; by repeat constructor).
  assert (Forall (fun c => is_name c = true) (TEMP_ROOT B ++ [s; d])) as Ndir
    by (apply temp_names; by repeat constructor).
  apply kind_at_file in Hfile as Hlsrc.
  unfold bind at 1, Sys.exists_ at 1, Sys.observe at 1. cbn [tree].
  assert (exists_ (tree w) (TEMP_ROOT B ++ [s; g; f]) = true) as ->
    by (apply exists_true; eexists _, _; by apply stat_names_entry).
  cbn [negb].
  unfold bind at 1, Sys.mkdir at 1.
  pose proof (mkdir_grows true true (tree w) (TEMP_ROOT B ++ [s; d])) as Hgrow.
  pose proof (mkdir_names_only true (tree w) _ Ndir) as Honly.
  destruct (FS.mkdir true true (tree w) _) as [t1 [e|]] eqn:Hmk; [done|].
  cbn [tree written fst] in *.
  assert (kind_at t1 (TEMP_ROOT B ++ [s; g; f]) = IsFile data) as Hfile1
    by (rewrite Hgrow; [done|by rewrite Hfile]).
  assert (kind_at t1 (TEMP_ROOT B ++ [s; d; f]) = Missing) as Hfree1.
  { rewrite Honly; [done|].
    intros Hpre%prefix_app_inv. by destruct Hpre as [k Hk]. }
  unfold bind at 1, Sys.exists_ at 1, Sys.observe at 1. cbn [tree].
  assert (exists_ t1 (TEMP_ROOT B ++ [s; d; f]) = false) as ->.
  { apply exists_false_of_missing. rewrite normalize_names by done.
    by apply kind_at_missing. }
  unfold bind at 1, Sys.shutil_move at 1. cbn [tree written].
  destruct (shutil_move t1 _ _) as [t'| | |] eqn:Hmv; try done.
  unfold ret. intros [= <- <-].
  split. { unfold name. change [s; d; f] with ([s; d] ++ [f]). by rewrite app_assoc, last_last. }
  (* the move was a rename onto the free name *)
  apply shutil_move_moved in Hmv as [Hr|[Hdir _]]; cycle 1.
  { apply is_dir_true in Hdir as (q & m & Hst).
    apply stat_names in Hst as [_ Hl]; [|done].
    apply kind_at_missing in Hfree1. congruence. }
  apply rename_inr in Hr as (sq & sn & dq & Hst & Hw & _ & _ & Hcase).
  apply stat_names in Hst as [-> Hl1]; [|done].
  apply walk_names in Hw as ->; [|done].
  destruct Hcase as [[Heq _]|(Hsne & Hdne' & Hspar & Hdpar & Hsd & Hds & Hfr & ->)].
  { apply app_inv_head in Heq. congruence. }
  apply kind_at_file in Hfile1. rewrite Hfile1 in Hl1. injection Hl1 as <-.
  set (t' := update _ _ (update _ _ t1)).
  assert (lookup_path t' (TEMP_ROOT B ++ [s; d; f]) = Some (File data)) as Hnew.
  { pose proof (moved_target t1 _ _ _ Hfile1 Hdne' Hdpar Hsd []) as H.
    rewrite !app_nil_r, Hfile1 in H. exact H. }
  assert (lookup_path t' (TEMP_ROOT B ++ [s; g; f]) = None) as Hold
    by (by eapply moved_source_gone).
  (* the session and the destination group are directories of the new tree *)
  change [s; d; f] with ([s] ++ [d; f]) in Hnew. rewrite app_assoc in Hnew.
  pose proof (lookup_prefix_dir _ _ _ _ Hnew ltac:(done)) as [m Hm]%kind_at_dir.
  assert (forall x y, lookup_path t' (TEMP_ROOT B ++ [s; x; y]) =
                      match m !! x with
                      | Some (Dir files) => files !! y
                      | _ => None
                      end) as Hxy.
  { intros x y. change [s; x; y] with ([s] ++ [x] ++ [y]).
    rewrite !app_assoc, lookup_path_snoc, lookup_path_snoc, Hm.
    by destruct (m !! x) as [[?|?]|]. }
  assert (Forall (fun c => is_name c = true) (TEMP_ROOT B ++ [s])) as Nses
    by (apply temp_names; by repeat constructor).
  pose proof (stat_names_entry _ _ _ Nses Hm) as Hstat.
  unfold list_session_persons. rewrite joinpath_name by done.
  unfold bind at 1, Sys.exists_ at 1, Sys.observe at 1. cbn [tree].
  assert (exists_ t' (TEMP_ROOT B ++ [s]) = true) as -> by (apply exists_true; eauto).
  cbn [negb]. unfold bind at 1, Sys.iterdir at 1, iterdir. cbn [tree]. rewrite Hstat.
  unfold ret. eexists. split; [done|].
  rewrite <- app_assoc in Hnew. cbn [app] in Hnew. rewrite Hxy in Hnew.
  rewrite Hxy in Hold. split.
  - destruct (m !! d) as [[?|files]|] eqn:Hmd; try done.
    exists (list_images s d (map_to_list files)). split.
    + apply list_elem_of_omap. exists (d, Dir files). split; [|done].
      by apply sorted_entries_elem, elem_of_map_to_list.
    + apply list_images_elem. by exists f, data.
  - intros imgs ([g' n] & Hin & Hn)%list_elem_of_omap. cbn [fst snd] in Hn.
    apply sorted_entries_elem, elem_of_map_to_list in Hin.
    destruct n as [?|files]; [done|]. injection Hn as -> <-.
    intros (f0 & d0 & Hf0 & <-%web_path_inj)%list_images_elem.
    rewrite Hin in Hold. congruence.
Qed.

End Listing.

Section Safe.
Context {S : Type} (get : S -> world) (okp : path -> Prop).

Lemma step_rel_refl w : step_rel okp w w.
Proof. split; [apply keeps_dirs_refl|]. exists []. by rewrite app_nil_r. Qed.

Lemma step_rel_trans w1 w2 w3 :
  step_rel okp w1 w2 -> step_rel okp w2 w3 -> step_rel okp w1 w3.
Proof.
  intros [K1 (l1 & E1 & F1)] [K2 (l2 & E2 & F2)]. split; [by eapply keeps_dirs_trans|].
  exists (l1 ++ l2). split; [by rewrite E2, E1, app_assoc|by apply Forall_app].
Qed.

Lemma safe_ret {A} (a : A) : safe get okp (ret a).
Proof. intros s. apply step_rel_refl. Qed.

Lemma safe_raise {A} e : safe get okp (raise (A:=A) e).
Proof. intros s. apply step_rel_refl. Qed.

Lemma safe_bind {A C} (m : M S A) (k : A -> M S C) :
  safe get okp m -> (forall a, safe get okp (k a)) -> safe get okp (bind m k).
Proof.
  intros Hm Hk s. unfold bind. specialize (Hm s).
  destruct (m s) as [a s'|e s'|]; [|done..].
  specialize (Hk a s'). destruct (k a s'); [| |done]; by eapply step_rel_trans.
Qed.

Lemma safe_try_except {A} (m : M S A) (h : exc -> M S A) :
  safe get okp m -> (forall e, safe get okp (h e)) -> safe get okp (try_except m h).
Proof.
  intros Hm Hh s. unfold try_except. specialize (Hm s).
  destruct (m s) as [a s'|e s'|]; [done| |done].
  specialize (Hh e s'). destruct (h e s'); [| |done]; by eapply step_rel_trans.
Qed.

Lemma safe_for_each {A} (l : list A) (body : A -> M S unit) :
  (forall x, safe get okp (body x)) -> safe get okp (for_each l body).
Proof.
  intros Hb. induction l as [|x l IH]; [apply safe_ret|].
  apply safe_bind; [apply Hb|by intros _].
Qed.
End Safe.

Lemma safe_mkdir okp parents ok p : safe id okp (Sys.mkdir parents ok p).
Proof.
  intros w. unfold Sys.mkdir. pose proof (mkdir_grows parents ok (tree w) p) as Hg.
  destruct (FS.mkdir parents ok (tree w) p) as [t [e|]]; cbn [fst] in Hg;
    (split; [by apply grows_keeps_dirs|exists []; by rewrite app_nil_r]).
Qed.

Lemma safe_imwrite (okp : path -> Prop) p img :
  p <> [] -> okp p -> safe id okp (Sys.imwrite p img).
Proof.
  intros Hp Hok w. unfold Sys.imwrite.
  destruct (write_file (tree w) p (Jpeg img)) as [e|t] eqn:E; [apply step_rel_refl|].
  split; [by eapply write_file_keeps_dirs|]. exists [p]. split; [done|by constructor].
Qed.

Lemma safe_write_file (okp : path -> Prop) p d :
  p <> [] -> okp p -> safe id okp (Sys.write_file p d).
Proof.
  intros Hp Hok w. unfold Sys.write_file.
  destruct (write_file (tree w) p d) as [e|t] eqn:E; [apply step_rel_refl|].
  split; [by eapply write_file_keeps_dirs|]. exists [p]. split; [done|by constructor].
Qed.

Lemma safe_in_store okp {A} (m : M world A) :
  safe id okp m -> safe store okp (in_store m).
Proof.
  intros Hm s. unfold in_store, lift. specialize (Hm (store s)).
  by destruct (m (store s)).
Qed.

Lemma safe_run_pipe okp (m : M pipe unit) :
  safe store okp m -> safe id okp (run_pipe m).
Proof.
  intros Hm w. unfold run_pipe. specialize (Hm (Pipe w [])). by destruct (m (Pipe w [])).
Qed.

(** *** Names the pipeline makes *)

Lemma is_name_prefixed a pre s :
  Ascii.eqb a "." = false -> Ascii.eqb a "/" = false ->
  Py.all_chars (fun a => negb (Ascii.eqb a "/")) pre = true ->
  Py.all_chars (fun a => negb (Ascii.eqb a "/")) s = true ->
  is_name (String a pre +:+ s) = true.
Proof.
  intros. change (String a pre +:+ s) with (String a (pre +:+ s)).
  apply is_name_intro; [done..|]. rewrite all_chars_app. by apply andb_true_intro.
Qed.

Lemma is_name_track_file i tid :
  is_name ("f" +:+ Py.str i +:+ "_id" +:+ Py.str tid +:+ ".jpg") = true.
Proof.
  apply (is_name_prefixed "f" EmptyString); [done..|].
  by rewrite !all_chars_app, !no_slash_str.
Qed.

Lemma is_name_detect_file i pid :
  is_name ("f" +:+ Py.str i +:+ "_p" +:+ Py.str pid +:+ ".jpg") = true.
Proof.
  apply (is_name_prefixed "f" EmptyString); [done..|].
  by rewrite !all_chars_app, !no_slash_str.
Qed.

Lemma is_name_frame_file i : is_name ("frame_" +:+ Py.str i +:+ ".jpg") = true.
Proof.
  apply (is_name_prefixed "f" "rame_"); [done..|].
  by rewrite !all_chars_app, !no_slash_str.
Qed.

Section Pipeline.
Variables (B : path) (sid : string).
Hypothesis Hsid : is_name sid = true.

Local Abbreviation okp := (fun p : path => p <> session_temp B sid ++ ["annotation.json"]).

Lemma safe_save_crop person_key crop fname :
  is_name person_key = true -> is_name fname = true ->
  safe store okp (save_crop_and_map B sid person_key crop fname).
Proof.
  intros Hk Hf. unfold save_crop_and_map. rewrite !joinpath_name by done.
  apply safe_bind; [apply safe_in_store, safe_mkdir|]. intros _.
  apply safe_bind; [apply safe_in_store, safe_imwrite|].
  - by destruct (session_temp B sid ++ [person_key]).
  - rewrite <- app_assoc. by intros ?%app_inv_head.
  - intros _ s. apply step_rel_refl.
Qed.

Lemma safe_track_frame i result : safe store okp (track_frame B sid i result).
Proof.
  unfold track_frame. destruct (orig_img result) as [frame|]; [|apply safe_ret].
  destruct (tr_boxes result) as [boxes|]; [|apply safe_ret].
  destruct (tb_xyxy boxes) as [xyxy|]; [|apply safe_ret].
  destruct (shape frame) as [h w0]. apply safe_for_each. intros [k tid].
  destruct (xyxy !! k) as [[coords|]|]; try apply safe_ret.
  destruct (clamp_box h w0 coords) as [[[[x1 y1] x2] y2]|]; [|apply safe_ret].
  apply safe_save_crop; [apply is_name_person|apply is_name_track_file].
Qed.

Lemma safe_track_loop i stream : safe store okp (track_loop B sid i stream).
Proof.
  revert i. induction stream as [|result rest IH]; intros i; [apply safe_ret|].
  cbn [track_loop]. apply safe_bind; [|by intros _].
  apply safe_try_except; [apply safe_track_frame|intros _; apply safe_ret].
Qed.

Lemma safe_track_all stream : safe store okp (track_all B sid stream).
Proof.
  unfold track_all. apply safe_bind; [apply safe_track_loop|]. intros _.
  destruct stream.2; [apply safe_raise|apply safe_ret].
Qed.

Lemma safe_detect_boxes frame i pid boxes :
  safe store okp (detect_boxes B sid frame i pid boxes).
Proof.
  revert pid. induction boxes as [|r rest IH]; intros pid; [apply safe_ret|].
  cbn [detect_boxes]. destruct (db_cls r) as [cls|]; [|apply IH].
  destruct (negb (cls =? 0)); [apply IH|].
  destruct (db_xyxy r) as [coords|]; [|apply IH].
  destruct (shape frame) as [h w0].
  destruct (clamp_box h w0 coords) as [[[[x1 y1] x2] y2]|]; [|apply IH].
  apply safe_bind; [|intros _; apply IH].
  apply safe_save_crop; [apply is_name_person|apply is_name_detect_file].
Qed.

Lemma safe_detect_loop i pid frames :
  safe store okp (detect_loop B sid i pid frames).
Proof.
  revert i pid. induction frames as [|[frame answer] rest IH]; intros i pid;
    [apply safe_ret|].
  cbn [detect_loop]. apply safe_bind; [|intros pid'; apply IH].
  destruct (i mod SAMPLE_EVERY_N_FRAMES =? 0); [|apply safe_ret].
  rewrite joinpath_name by apply is_name_frame_file.
  apply safe_bind; [apply safe_in_store, safe_imwrite|].
  - by destruct (session_temp B sid).
  - intros [_ E]%app_inj_tail. done.
  - intros _. apply safe_bind; [destruct answer; [apply safe_raise|apply safe_ret]|].
    intros [|[[|b bs]|] ?]; try apply safe_ret. apply safe_detect_boxes.
Qed.
End Pipeline.

(** *** The ingestion as a whole *)

Lemma safe_weaken {S A} (get : S -> world) (okp okp' : path -> Prop) (m : M S A) :
  (forall p, okp p -> okp' p) -> safe get okp m -> safe get okp' m.
Proof.
  intros Himp Hm s. specialize (Hm s).
  destruct (m s) as [a s'|e s'|]; [| |done];
    destruct Hm as [K (l & E & F)]; (split; [done|]); exists l; (split; [done|]);
    eapply Forall_impl; eauto.
Qed.

Lemma is_dir_keeps_dirs fs fs' p :
  keeps_dirs fs fs' -> is_dir fs p = true -> is_dir fs' p = true.
Proof.
  intros Hk (q & m & [Hw Hl]%stat_inr)%is_dir_true.
  assert (kind_at fs' q = IsDir) as [m' Hm']%kind_at_dir
    by (apply Hk, kind_at_dir; eauto).
  apply is_dir_true. exists q, m'. apply stat_inr. split; [|done].
  by eapply walk_keeps_dirs.
Qed.

Lemma hex_app_not_snapshot u s : Py.hex u +:+ s <> "annotation.json".
Proof.
  intros E. assert (String.length (Py.hex u +:+ s) = 15%nat) as HL by (by rewrite E).
  rewrite string_app_length, hex_length in HL. lia.
Qed.

Lemma times_written_app p l1 l2 :
  times_written p (l1 ++ l2) = (times_written p l1 + times_written p l2)%nat.
Proof. unfold times_written. by rewrite filter_app, length_app. Qed.

Lemma times_written_none p l : Forall (fun q => q <> p) l -> times_written p l = 0%nat.
Proof.
  unfold times_written. induction 1 as [|q l Hq _ IH]; [done|].
  by rewrite filter_cons_False.
Qed.

(** Writing a file into an existing directory succeeds unless the name
    is taken by a directory. *)
Lemma write_file_child fs p c d :
  Forall (fun c => is_name c = true) p -> is_name c = true ->
  kind_at fs p = IsDir -> kind_at fs (p ++ [c]) <> IsDir ->
  exists fs', write_file fs (p ++ [c]) d = inr fs'.
Proof.
  intros Hp Hc [m Hm]%kind_at_dir Hk. unfold write_file.
  rewrite walk_app, (walk_names_to_entry _ _ _ Hp Hm). simpl.
  rewrite Hm, (is_name_not_dotdot c Hc). unfold kind_at in Hk.
  destruct (lookup_path fs (p ++ [c])) as [[?|?]|]; by eauto.
Qed.

Lemma mkdir_in_dir fs p c :
  Forall (fun c => is_name c = true) p -> is_name c = true ->
  kind_at fs p = IsDir -> (forall d, kind_at fs (p ++ [c]) <> IsFile d) ->
  exists fs', FS.mkdir true true fs (p ++ [c]) = (fs', None).
Proof.
  intros Hp Hc [m Hm]%kind_at_dir Hk.
  destruct (lookup_path fs (p ++ [c])) as [[d|m']|] eqn:Hl.
  - destruct (Hk d). by apply kind_at_file.
  - exists fs. apply mkdir_existing, is_dir_true. exists (p ++ [c]), m'.
    apply stat_names_entry; [by apply names_snoc|done].
  - eapply mkdir_child; [by apply stat_names_entry|done|].
    apply exists_false_of_missing. by rewrite normalize_names by (by apply names_snoc).
Qed.

Section Upload.
Variables (B : path) (r : N) (file : string).

Local Abbreviation sid := (new_session_id r).

Lemma is_name_sid : is_name sid = true.
Proof. apply is_name_hex. Qed.

Lemma upload_video_unfold model :
upload_video B r file model =
(Sys.write_file (upload_path B r) (Blob file) ;;
 Sys.mkdir true true (session_dir B r) ;;
 match model with
 | None => ret (JObj [("session_id", JStr sid); ("persons", JObj [])])
 | Some model => try_except (ingest B r model) (cleanup B r)
 end).
Proof.
unfold upload_video, ingest, cleanup, upload_path, ann_file, summary_path, session_dir,
  new_session_id.
by rewrite !joinpath_name
  by (done || apply is_name_hex || (apply is_name_hex_app; done)).
Qed.

Lemma safe_pipeline model :
safe id (fun p => p <> ann_file B r)
  (run_pipe (if has_track model then track_all B sid (track_stream model)
             else detect_loop B sid 0 0 (capture model))).
Proof.
apply safe_run_pipe. unfold ann_file, session_dir.
rewrite <- (joinpath_name _ _ is_name_sid).
destruct (has_track model);
  [apply safe_track_all|apply safe_detect_loop]; apply is_name_sid.
Qed.

Lemma safe_ingest model : safe id (fun _ => True) (ingest B r model).
Proof.
unfold ingest. apply safe_bind.
{ eapply safe_weaken; [|apply safe_pipeline]. done. }
intros pm. apply safe_bind; [apply safe_write_file; [|done]|intros _].
{ unfold ann_file. by destruct (session_dir B r). }
apply safe_bind; [apply safe_write_file; [|done]|intros _; apply safe_ret].
unfold summary_path. by destruct (ANNOTATIONS_DIR B).
Qed.

Lemma session_dir_last : ends_with_dotdot (session_dir B r) = false.
Proof.
unfold ends_with_dotdot, session_dir. rewrite last_last.
destruct (TEMP_ROOT B ++ [sid]) eqn:E; [by destruct (TEMP_ROOT B)|].
apply is_name_not_dotdot, is_name_sid.
Qed.

(** Once the session directory exists, the clean-up removes it. *)
Lemma cleanup_removes e w :
is_dir (tree w) (session_dir B r) = true ->
exists w', cleanup B r e w = Raises (ProcessingFailed e) w' /\
           exists_ (tree w') (session_dir B r) = false /\ written w' = written w.
Proof.
intros Hd. unfold cleanup, bind, try_except, Sys.exists_, Sys.observe, Sys.rmtree_ignore.
assert (exists_ (tree w) (session_dir B r) = true) as ->.
{ apply is_dir_true in Hd as (q & m & Hs). apply exists_true. eauto. }
destruct (rmtree_ignore_dir _ _ Hd session_dir_last) as (t & -> & Hgone).
unfold raise. by eexists.
Qed.

Lemma cleanup_never_returns e w j w' : cleanup B r e w <> Returns j w'.
Proof. unfold cleanup, bind. by destruct (try_except _ _ w). Qed.

Lemma upload_not_snapshot : upload_path B r <> ann_file B r.
Proof.
unfold upload_path, ann_file. intros [_ E]%app_inj_tail.
unfold new_session_id in E. by apply hex_app_not_snapshot in E.
Qed.

Lemma summary_not_snapshot : summary_path B r <> ann_file B r.
Proof.
unfold summary_path, ann_file. intros [_ E]%app_inj_tail.
unfold new_session_id in E. by apply hex_app_not_snapshot in E.
Qed.

Lemma normalize_snapshot_not_summary :
normalize (ann_file B r) <> normalize (summary_path B r).
Proof.
unfold ann_file, summary_path, normalize.
rewrite !normalize_from_snoc
  by (done || apply is_name_not_dotdot, is_name_hex_app; done).
intros [_ E]%app_inj_tail. symmetry in E. unfold new_session_id in E.
by apply hex_app_not_snapshot in E.
Qed.

(** What a successful ingestion wrote. *)
Lemma upload_video_returns model w j w' :
upload_video B r file model w = Returns j w' ->
exists pm l,
  j = JObj [("session_id", JStr sid); ("persons", json_of_map pm)] /\
  written w' = written w ++ l /\
  match model with
  | None => pm = [] /\ l = [upload_path B r]
  | Some _ =>
      times_written (ann_file B r) l = 1%nat /\
      kind_at (tree w') (normalize (ann_file B r)) = IsFile (Json (json_of_map pm))
  end.
Proof.
rewrite upload_video_unfold.
unfold bind at 1, Sys.write_file at 1.
destruct (write_file (tree w) (upload_path B r) (Blob file)) as [e0|t0]; [done|].
unfold bind at 1, Sys.mkdir. cbn [tree written].
destruct (FS.mkdir true true t0 (session_dir B r)) as [t1 [e1|]]; [done|].
destruct model as [model|].
2:{ intros [= <- <-]. exists [], [upload_path B r]. by cbn. }
unfold try_except.
destruct (ingest B r model _) as [j' w4|e2 w2|] eqn:Hin;
  [|by intros ?%cleanup_never_returns|done].
intros [= <- <-]. revert Hin. unfold ingest.
unfold bind at 1.
pose proof (safe_pipeline model (World t1 (written w ++ [upload_path B r]))) as Hs.
destruct (run_pipe _ _) as [pm w2|e2 w2|]; [|done..].
destruct Hs as [_ (lp & Hlp & Hok)]. cbn [id written] in Hlp.
unfold bind at 1, Sys.write_file at 1.
destruct (write_file (tree w2) (ann_file B r) _) as [e3|t3] eqn:Hw3; [done|].
unfold bind at 1, Sys.write_file at 1. cbn [tree written].
destruct (write_file t3 (summary_path B r) _) as [e4|t4] eqn:Hw4; [done|].
unfold ret. intros [= <- <-]. cbn [tree written].
exists pm, ([upload_path B r] ++ lp ++ [ann_file B r] ++ [summary_path B r]).
split; [done|]. split; [by rewrite Hlp, <- !app_assoc|]. split.
- rewrite !times_written_app, (times_written_none _ lp Hok).
  unfold times_written.
  rewrite (filter_cons_False _ (upload_path B r)) by apply upload_not_snapshot.
  rewrite (filter_cons_False _ (summary_path B r)) by apply summary_not_snapshot.
  by rewrite filter_cons_True.
- apply write_file_kinds in Hw3 as [Hk _];
    [|unfold ann_file; by destruct (session_dir B r)].
  apply write_file_kinds in Hw4 as [_ Ho];
    [|unfold summary_path; by destruct (ANNOTATIONS_DIR B)].
  rewrite Ho; [done|apply normalize_snapshot_not_summary].
Qed.

(** Without a detector the upload is stored, the session directory is
  made, and the answer is an empty person map. *)
Lemma upload_video_without_detector w :
Forall (fun c => is_name c = true) B ->
kind_at (tree w) (UPLOADS_DIR B) = IsDir ->
kind_at (tree w) (TEMP_ROOT B) = IsDir ->
kind_at (tree w) (upload_path B r) <> IsDir ->
(forall d, kind_at (tree w) (session_dir B r) <> IsFile d) ->
exists w',
  upload_video B r file None w =
  Returns (JObj [("session_id", JStr sid); ("persons", JObj [])]) w'.
Proof.
intros HB Hu Ht Hup Hse. rewrite upload_video_unfold.
assert (Forall (fun c => is_name c = true) (UPLOADS_DIR B)) as Nu
  by (rewrite UPLOADS_DIR_eq; by apply names_snoc).
pose proof (TEMP_ROOT_names B HB) as Nt.
assert (is_name (sid +:+ ".mp4") = true) as Nf by (by apply is_name_hex_app).
destruct (write_file_child (tree w) _ _ (Blob file) Nu Nf Hu Hup) as [t0 Hw0].
unfold bind at 1, Sys.write_file at 1. fold (upload_path B r) in Hw0. rewrite Hw0.
assert (upload_path B r <> []) as Hne
  by (unfold upload_path; by destruct (UPLOADS_DIR B)).
destruct (write_file_kinds _ _ _ _ Hw0 Hne) as [_ Hoth].
pose proof (write_file_keeps_dirs _ _ _ _ Hw0 Hne) as Hkd.
assert (session_dir B r <> normalize (upload_path B r)) as Hdiff.
{ unfold upload_path. rewrite normalize_names by (by apply names_snoc).
  unfold session_dir. intros [_ E]%app_inj_tail.
  assert (String.length (sid +:+ ".mp4") = 32%nat) as HL
    by (rewrite <- E; apply hex_length).
  rewrite string_app_length in HL. unfold new_session_id in HL.
  rewrite hex_length in HL. simpl in HL. lia. }
destruct (mkdir_in_dir t0 (TEMP_ROOT B) sid Nt is_name_sid) as [t1 Hmk].
- by apply Hkd.
- intros d. fold (session_dir B r). rewrite Hoth by done. apply Hse.
- unfold bind, Sys.mkdir. cbn [tree written]. fold (session_dir B r) in Hmk.
  rewrite Hmk. by eexists.
Qed.

End Upload.

(** ** Ingestion: failure and snapshot *)

(** C7. When ingestion raises after the session directory was made, that
    is, at pipeline level (the detector, a write inside the pipeline, the
    snapshot or the summary), the error is surfaced as a processing
    failure and the session directory no longer exists in the store the
    caller is left with. The only other errors are those of storing the
    upload and of making the session directory, raised before the
    pipeline starts. *)
Theorem upload_video_failure_removes_session B r file model w e w' :
  upload_video B r file model w = Raises e w' ->
  (exists cause, e = ProcessingFailed cause /\
                 exists_ (tree w') (TEMP_ROOT B // new_session_id r) = false) \/
  (Sys.write_file (UPLOADS_DIR B // (new_session_id r +:+ ".mp4")) (Blob file) ;;
   Sys.mkdir true true (TEMP_ROOT B // new_session_id r)) w = Raises e w'.
Proof.
  rewrite upload_video_unfold.
  rewrite !joinpath_name by (apply is_name_sid || (apply is_name_hex_app; done)).
  fold (session_dir B r) (upload_path B r).
  unfold bind at 1 3.
  destruct (Sys.write_file (upload_path B r) (Blob file) w) as [[] w0|e0 w0|];
    cbn beta iota; [|intros [= <- <-]; by right|done].
  unfold bind at 1, Sys.mkdir.
  destruct (FS.mkdir true true (tree w0) (session_dir B r)) as [t1 [e1|]] eqn:Hmk;
    cbn beta iota; [intros [= <- <-]; by right|].
  pose proof (mkdir_is_dir _ _ _ _ _ Hmk) as Hd.
  destruct model as [model|]; [|done].
  unfold try_except. pose proof (safe_ingest B r model (World t1 (written w0))) as Hs.
  destruct (ingest B r model _) as [j w2|e2 w2|]; [done| |done].
  destruct Hs as [Hk _]. cbn [id tree] in Hk.
  destruct (cleanup_removes B r e2 w2 (is_dir_keeps_dirs _ _ _ Hk Hd))
    as (w3 & -> & Hgone & _).
  intros [= <- <-]. left. by eexists.
Qed.

(** C8, as amended. An ingestion that returns answers with the session id
    and a person map and has opened for writing the files [l]. Without a
    detector the map is empty and [l] is the uploaded video alone: no
    snapshot is written. With a detector the snapshot annotation.json is
    opened for writing exactly once and holds the person map that is
    returned. Without a detector ingestion does return, on a store whose
    upload and temporary directories exist and where the new names are
    free. *)
Theorem upload_video_snapshot_once B r file model w :
  (forall j w',
     upload_video B r file model w = Returns j w' ->
     exists pm l,
       j = JObj [("session_id", JStr (new_session_id r)); ("persons", json_of_map pm)] /\
       written w' = written w ++ l /\
       match model with
       | None => pm = [] /\ l = [upload_path B r]
       | Some _ =>
           times_written (ann_file B r) l = 1%nat /\
           kind_at (tree w') (normalize (ann_file B r)) = IsFile (Json (json_of_map pm))
       end) /\
  (Forall (fun c => is_name c = true) B ->
   kind_at (tree w) (UPLOADS_DIR B) = IsDir ->
   kind_at (tree w) (TEMP_ROOT B) = IsDir ->
   kind_at (tree w) (upload_path B r) <> IsDir ->
   (forall d, kind_at (tree w) (session_dir B r) <> IsFile d) ->
   exists w',
     upload_video B r file None w =
     Returns (JObj [("session_id", JStr (new_session_id r)); ("persons", JObj [])]) w').
Proof.
  split; [intros j w'; apply upload_video_returns|apply upload_video_without_detector].
Qed.

(** ** Corrections and the snapshot *)

(** C4, as amended. Requests that address images by web paths of the
    fixed pattern and groups by the name of a directory open no file for
    writing and leave the snapshot annotation.json of every session with
    the content it had, however many of them are served; and the listing
    follows the store: a file moved to another group, where its name is
    free, is listed in that group and no longer in the one it left. *)
Theorem corrections_leave_snapshot B w cs w' sid d :
  Forall (fun c => is_name c = true) B ->
  corrections B w cs w' ->
  kind_at (tree w) (TEMP_ROOT B ++ [sid; "annotation.json"]) = IsFile d ->
  written w' = written w /\
  kind_at (tree w') (TEMP_ROOT B ++ [sid; "annotation.json"]) = IsFile d /\
  (forall r (payload : gmap string string) s g f dst data j w1,
     is_name s = true -> is_name g = true -> is_name f = true -> is_name dst = true ->
     g <> dst ->
     payload !! "src" = Some (web_path s g f) ->
     payload !! "dest_person" = Some dst ->
     kind_at (tree w') (TEMP_ROOT B ++ [s; g; f]) = IsFile data ->
     kind_at (tree w') (TEMP_ROOT B ++ [s; dst; f]) = Missing ->
     move_image B r payload w' = Returns j w1 ->
     j = JObj [("moved_to", JStr (web_path s dst f))] /\
     kind_at (tree w1) (TEMP_ROOT B ++ [sid; "annotation.json"]) = IsFile d /\
     exists out,
       list_session_persons B s w1 = Returns out w1 /\
       (exists imgs, (dst, imgs) ∈ out /\ web_path s dst f ∈ imgs) /\
       (forall imgs, (g, imgs) ∈ out -> web_path s g f ∉ imgs)).
Proof.
  intros HB Hc Hd.
  destruct (corrections_keep B HB sid "annotation.json" w cs w' Hc) as [Hw Hk].
  split; [done|]. split; [by apply Hk|].
  intros r payload s g f dst data j w1 Hs Hg Hf Hdst Hne Hsrc Hdest Hfile Hfree Hmv.
  destruct (move_image_listed B HB r payload w' s g f dst data j w1) as [Hj Hl]; try done.
  split; [done|]. split; [|done].
  assert (well_addressed B w' (MoveImage r payload) = true) as Hwa.
  { cbn [well_addressed]. rewrite Hsrc, Hdest. cbn [the default from_option id].
    by rewrite matches_pattern_web_path, Hdst. }
  pose proof (move_image_keeps B HB sid "annotation.json" r payload w' Hwa) as Hkeep.
  rewrite Hmv in Hkeep. destruct Hkeep as [_ Hkeep]. by apply Hkeep, Hk.
Qed.

(** ** The example stores *)

Ltac conjuncts := repeat match goal with |- _ /\ _ => split end.

Lemma Ex_B_names : Forall (fun c => is_name c = true) Ex.B.
Proof. by repeat constructor. Qed.

Lemma leaves_run {A} (m : M world A) w : stays (m w) = true -> leaves (m w) (run m w).
Proof. unfold run. destruct (m w); [constructor|constructor|done]. Qed.

Lemma corrections_run_all B cs w :
  admissible B cs w = true -> corrections B w cs (run_all B cs w).
Proof.
  revert w. induction cs as [|c cs IH]; intros w H; cbn in *; [constructor|].
  apply andb_prop in H as [[Hwa Hst]%andb_prop Hrest].
  econstructor; [done|by apply leaves_run|by apply IH].
Qed.

(** The helper that was meant to guard session paths compares strings:
    a sibling of the temporary store whose name extends [temp] passes. *)
Lemma safe_temp_session_path_prefix_only :
  safe_temp_session_path Ex.B "../temp_evil/x" = inr (FRONTEND_DIR Ex.B ++ ["temp_evil"; "x"]).
Proof. by vm_compute. Qed.

(** C1. The correction handlers serve requests whose paths leave the
    temporary store: on the ingested example session, a move with the
    destination group [../../stolen] returns and puts the crop beside the
    temporary store; a delete of [/temp/../templates/index.html] returns
    and removes the page template; a create-group with the name
    [../../static/evil] returns and makes a directory in the static
    files; a rename with the session id [..] returns and moves the
    template directory away. None of them is rejected. *)
Theorem corrections_escape_temp_root :
  let w := Ex.ingested in
  let front := FRONTEND_DIR Ex.B in
  let crop := Jpeg (Crop (Frame 100 200 0) 0 50 0 50) in
  (move_image Ex.B 0 Ex.move_out w =
     Returns (JObj [("moved_to", JStr ("/temp/" +:+ Ex.sid +:+ "/../../stolen/f0_p0.jpg"))])
             (run (move_image Ex.B 0 Ex.move_out) w) /\
   kind_at (tree w) (front ++ ["stolen"; "f0_p0.jpg"]) = Missing /\
   kind_at (tree (run (move_image Ex.B 0 Ex.move_out) w)) (front ++ ["stolen"; "f0_p0.jpg"])
   = IsFile crop) /\
  (delete_image Ex.B Ex.delete_template w =
     Returns (JObj [("deleted", JStr "/temp/../templates/index.html")])
             (run (delete_image Ex.B Ex.delete_template) w) /\
   kind_at (tree w) (front ++ ["templates"; "index.html"]) = IsFile (Blob "<html>") /\
   kind_at (tree (run (delete_image Ex.B Ex.delete_template) w))
           (front ++ ["templates"; "index.html"]) = Missing) /\
  (add_person Ex.B Ex.add_outside w =
     Returns (JObj [("person", JStr "../../static/evil")])
             (run (add_person Ex.B Ex.add_outside) w) /\
   kind_at (tree w) (front ++ ["static"; "evil"]) = Missing /\
   kind_at (tree (run (add_person Ex.B Ex.add_outside) w)) (front ++ ["static"; "evil"])
   = IsDir) /\
  (rename_person Ex.B Ex.rename_templates w =
     Returns (JObj [("from", JStr "templates"); ("to", JStr "gone")])
             (run (rename_person Ex.B Ex.rename_templates) w) /\
   kind_at (tree w) (front ++ ["templates"]) = IsDir /\
   kind_at (tree (run (rename_person Ex.B Ex.rename_templates) w)) (front ++ ["templates"])
   = Missing) /\
  Forall (fun p => ~ TEMP_ROOT Ex.B `prefix_of` p)
         [front ++ ["stolen"; "f0_p0.jpg"]; front ++ ["templates"; "index.html"];
          front ++ ["static"; "evil"]; front ++ ["templates"]].
Proof.
  cbv zeta. conjuncts; try (vm_compute; reflexivity).
  repeat constructor; intros [k E]; vm_compute in E; discriminate E.
Qed.

(** C3. A move can overwrite a file of the destination group. In the
    example session [person_1] holds a file named like the crop of
    [person_0] and a file whose name is that name with the suffix drawn
    for the move: the move returns the suffixed name, and the file that
    was stored under it is replaced by the crop. *)
Theorem move_image_overwrites_on_suffix_clash :
  let w := Ex.crowded in
  let w' := run (move_image Ex.B 0 Ex.move_clash) w in
  let taken := TEMP_ROOT Ex.B ++ [Ex.sid; "person_1"; "f0_p0_000000.jpg"] in
  kind_at (tree w) (TEMP_ROOT Ex.B ++ [Ex.sid; "person_1"; "f0_p0.jpg"]) = IsFile (Blob "other") /\
  kind_at (tree w) taken = IsFile (Blob "keep me") /\
  move_image Ex.B 0 Ex.move_clash w =
    Returns (JObj [("moved_to", JStr (web_path Ex.sid "person_1" "f0_p0_000000.jpg"))]) w' /\
  kind_at (tree w') taken = IsFile (Jpeg (Crop (Frame 100 200 0) 0 50 0 50)) /\
  kind_at (tree w') (TEMP_ROOT Ex.B ++ [Ex.sid; "person_1"; "f0_p0.jpg"]) = IsFile (Blob "other") /\
  kind_at (tree w') (TEMP_ROOT Ex.B ++ [Ex.sid; "person_0"; "f0_p0.jpg"]) = Missing.
Proof. cbv zeta. conjuncts; vm_compute; reflexivity. Qed.

(** *** Moving a file that is not there *)

Lemma image_file_web_path B s g f :
  is_name s = true -> is_name g = true -> is_name f = true ->
  image_file B (web_path s g f) = TEMP_ROOT B ++ [s; g; f].
Proof.
  intros Hs Hg Hf. unfold image_file. rewrite split_web_path by done.
  cbn [nth List.last]. by rewrite !joinpath_name, <- !app_assoc by done.
Qed.

Lemma well_formed_web_path s g f :
  is_name s = true -> is_name g = true -> is_name f = true ->
  well_formed_web (web_path s g f).
Proof.
  intros Hs Hg Hf. split; [done|]. split; [apply startswith_app|].
  by rewrite split_web_path.
Qed.

(** C2. A move-image request whose source is a web path of the fixed
    pattern [/temp/<session>/<group>/<file>] (three single path
    components) that names no entry of the temporary store fails and
    leaves the store exactly as it was: no destination directory is
    made, nothing is moved or written. The failure is Not-Found (404)
    when a destination group is given, and the 400 for missing
    parameters when [dest_person] is absent or empty. *)
Theorem move_image_missing_source B r (payload : gmap string string) w s g f :
  payload !! "src" = Some (web_path s g f) ->
  is_name s = true -> is_name g = true -> is_name f = true ->
  FS.exists_ (tree w) (TEMP_ROOT B ++ [s; g; f]) = false ->
  move_image B r payload w =
    Raises (if truthy_opt (payload !! "dest_person")
            then HTTPException 404 "Source file not found"
            else HTTPException 400 "src and dest_person required") w.
Proof.
  intros Hsrc Hs Hg Hf Hmiss.
  destruct (truthy_opt (payload !! "dest_person")) eqn:Hd.
  - destruct (payload !! "dest_person") as [d|] eqn:Hdp; [|done].
    apply (move_image_source_not_found B r payload w (web_path s g f) d); try done.
    + intros ->. done.
    + by apply well_formed_web_path.
    + by rewrite image_file_web_path.
  - unfold move_image. rewrite Hd. cbn [negb]. by rewrite orb_true_r.
Qed.

(** ** The claims on the example stores *)

Lemma move_image_missing_source_witness :
  move_image Ex.B 0 (Ex.move_request (web_path Ex.sid "person_0" "gone.jpg") "person_9")
             Ex.ingested
  = Raises (HTTPException 404 "Source file not found") Ex.ingested.
Proof.
  assert (is_name Ex.sid = true) as Hsid by (vm_compute; reflexivity).
  assert (FS.exists_ (tree Ex.ingested) (TEMP_ROOT Ex.B ++ [Ex.sid; "person_0"; "gone.jpg"])
          = false) as Hmiss by (vm_compute; reflexivity).
  exact (move_image_missing_source Ex.B 0
           (Ex.move_request (web_path Ex.sid "person_0" "gone.jpg") "person_9")
           Ex.ingested Ex.sid "person_0" "gone.jpg" eq_refl Hsid eq_refl eq_refl Hmiss).
Defined.

(** A source with one field more than the pattern: nothing exists at the
    path it names, and the move returns. The handler reads the fields 2,
    3 and last, finds the crop of [person_0], makes the folder
    [person_9] and moves the crop there. *)
Lemma move_image_reads_three_fields :
  let w := Ex.ingested in
  let w' := run (move_image Ex.B 0 Ex.move_longer) w in
  let crop := Jpeg (Crop (Frame 100 200 0) 0 50 0 50) in
  Ex.move_longer !! "src" = Some ("/temp/" +:+ Ex.sid +:+ "/person_0/nosuchdir/f0_p0.jpg") /\
  kind_at (tree w) (TEMP_ROOT Ex.B ++ [Ex.sid; "person_0"; "nosuchdir"]) = Missing /\
  kind_at (tree w) (TEMP_ROOT Ex.B ++ [Ex.sid; "person_0"; "nosuchdir"; "f0_p0.jpg"]) = Missing /\
  kind_at (tree w) (TEMP_ROOT Ex.B ++ [Ex.sid; "person_0"; "f0_p0.jpg"]) = IsFile crop /\
  kind_at (tree w) (TEMP_ROOT Ex.B ++ [Ex.sid; "person_9"]) = Missing /\
  move_image Ex.B 0 Ex.move_longer w =
    Returns (JObj [("moved_to", JStr (web_path Ex.sid "person_9" "f0_p0.jpg"))]) w' /\
  kind_at (tree w') (TEMP_ROOT Ex.B ++ [Ex.sid; "person_9"]) = IsDir /\
  kind_at (tree w') (TEMP_ROOT Ex.B ++ [Ex.sid; "person_9"; "f0_p0.jpg"]) = IsFile crop /\
  kind_at (tree w') (TEMP_ROOT Ex.B ++ [Ex.sid; "person_0"; "f0_p0.jpg"]) = Missing.
Proof. cbv zeta. conjuncts; vm_compute; reflexivity. Qed.

(** A delete request that names the snapshot through an empty group
    name removes it. *)
Lemma delete_image_removes_snapshot :
  let w' := run (delete_image Ex.B Ex.delete_snapshot) Ex.ingested in
  kind_at (tree Ex.ingested) Ex.snapshot = IsFile Ex.first_map /\
  delete_image Ex.B Ex.delete_snapshot Ex.ingested =
    Returns (JObj [("deleted", JStr ("/temp/" +:+ Ex.sid +:+ "//annotation.json"))]) w' /\
  kind_at (tree w') Ex.snapshot = Missing.
Proof. cbv zeta. conjuncts; vm_compute; reflexivity. Qed.

Lemma corrections_leave_snapshot_witness :
  let w' := run_all Ex.B Ex.edits Ex.ingested in
  written w' = written Ex.ingested /\
  kind_at (tree w') Ex.snapshot = IsFile Ex.first_map /\
  list_session_persons Ex.B Ex.sid w' =
    Returns [("bob", [web_path Ex.sid "bob" "f0_p0.jpg"]); ("person_0", []); ("person_1", [])] w'.
Proof.
  cbv zeta.
  destruct (corrections_leave_snapshot Ex.B Ex.ingested Ex.edits
              (run_all Ex.B Ex.edits Ex.ingested) Ex.sid Ex.first_map)
    as (Hw & Hk & _).
  - apply Ex_B_names.
  - apply corrections_run_all. vm_compute; reflexivity.
  - vm_compute; reflexivity.
  - split; [exact Hw|]. split; [exact Hk|]. vm_compute; reflexivity.
Defined.


(** A group whose name only starts like a numbered group is counted:
    with [person_5_x] as the only group the new group is [person_6]. *)
Lemma add_person_counts_other_groups :
  iterdir (tree Ex.odd_group) (TEMP_ROOT Ex.B // "s") = inr [("person_5_x", Dir ∅)] /\
  add_person Ex.B (Ex.session_request "s") Ex.odd_group =
    Returns (JObj [("person", JStr "person_6")])
            (run (add_person Ex.B (Ex.session_request "s")) Ex.odd_group).
Proof. conjuncts; vm_compute; reflexivity. Qed.

Lemma add_person_auto_name_witness :
  exists w', add_person Ex.B (Ex.session_request "s") Ex.one_group =
             Returns (JObj [("person", JStr "person_1")]) w'.
Proof.
  destruct (add_person_auto_name Ex.B Ex.one_group (Ex.session_request "s") "s"
              (TEMP_ROOT Ex.B ++ ["s"]) {[ "person_0" := Dir ∅ ]})
    as (k & _ & Hone & _ & Hnew).
  - vm_compute; reflexivity.
  - discriminate.
  - vm_compute; reflexivity.
  - vm_compute; reflexivity.
  - assert (k = 1) as ->.
    { apply Hone. intros e. split.
      - intros (files & Hl & _). by apply lookup_singleton_Some in Hl as [<- _].
      - intros ->. exists ∅. split; [apply lookup_singleton_eq|vm_compute; reflexivity]. }
    destruct Hnew as (w' & Heq & _); [vm_compute; reflexivity|].
    exists w'. exact Heq.
Defined.

Lemma upload_video_failure_removes_session_witness :
  let w' := run (upload_video Ex.B 5 "video" (Some Ex.failing)) Ex.provisioned in
  upload_video Ex.B 5 "video" (Some Ex.failing) Ex.provisioned =
    Raises (ProcessingFailed (AdapterError "out of memory")) w' /\
  exists_ (tree w') (TEMP_ROOT Ex.B // new_session_id 5) = false.
Proof.
  cbv zeta.
  assert (upload_video Ex.B 5 "video" (Some Ex.failing) Ex.provisioned =
          Raises (ProcessingFailed (AdapterError "out of memory"))
                 (run (upload_video Ex.B 5 "video" (Some Ex.failing)) Ex.provisioned))
    as Heq by (vm_compute; reflexivity).
  split; [exact Heq|].
  destruct (upload_video_failure_removes_session _ _ _ _ _ _ _ Heq)
    as [(c & _ & Hgone)|Hpre]; [exact Hgone|].
  vm_compute in Hpre. discriminate Hpre.
Defined.

(** Without a detector ingestion returns before the snapshot is written. *)
Lemma upload_video_without_detector_no_snapshot :
  let w' := run (upload_video Ex.B 5 "video" None) Ex.provisioned in
  upload_video Ex.B 5 "video" None Ex.provisioned =
    Returns (JObj [("session_id", JStr Ex.sid); ("persons", JObj [])]) w' /\
  written w' = written Ex.provisioned ++ [upload_path Ex.B 5] /\
  times_written (ann_file Ex.B 5) (written w') = 0%nat /\
  is_dir (tree w') (TEMP_ROOT Ex.B // Ex.sid) = true /\
  exists_ (tree w') (ann_file Ex.B 5) = false.
Proof. cbv zeta. conjuncts; vm_compute; reflexivity. Qed.

Lemma upload_video_snapshot_once_witness :
  exists l, written Ex.ingested = written Ex.provisioned ++ l /\
            times_written (ann_file Ex.B 5) l = 1%nat.
Proof.
  destruct (upload_video_snapshot_once Ex.B 5 "video" (Some Ex.per_frame) Ex.provisioned)
    as [H _].
  destruct (H (JObj [("session_id", JStr Ex.sid); ("persons", Ex.first_persons)]) Ex.ingested)
    as (pm & l & _ & Hl & Hn & _); [vm_compute; reflexivity|].
  exists l. split; [exact Hl|exact Hn].
Defined.

(** Leading and trailing blanks of the name are dropped, not replaced. *)
Lemma add_person_strips_blanks :
  let w' := run (add_person Ex.B (Ex.named_request "s" " a")) Ex.one_group in
  add_person Ex.B (Ex.named_request "s" " a") Ex.one_group =
    Returns (JObj [("person", JStr "a")]) w' /\
  is_dir (tree w') (TEMP_ROOT Ex.B ++ ["s"; "a"]) = true /\
  exists_ (tree w') (TEMP_ROOT Ex.B ++ ["s"; "_a"]) = false.
Proof. cbv zeta. conjuncts; vm_compute; reflexivity. Qed.

Lemma add_person_explicit_name_witness :
  exists w', add_person Ex.B (Ex.named_request "s" " new  group ") Ex.one_group =
             Returns (JObj [("person", JStr "new__group")]) w'.
Proof.
  destruct (add_person_explicit_name Ex.B Ex.one_group
              (Ex.named_request "s" " new  group ") "s" " new  group ")
    as (_ & _ & H);
    [vm_compute; reflexivity|discriminate|vm_compute; reflexivity|discriminate|].
  apply H; vm_compute; reflexivity.
Defined.

Lemma list_session_persons_group_files_witness :
  let out := [("person_0", [web_path Ex.sid "person_0" "f0_p0.jpg"]);
              ("person_1", [web_path Ex.sid "person_1" "f1_p1.jpg"])] in
  list_session_persons Ex.B Ex.sid Ex.ingested = Returns out Ex.ingested /\
  ("annotation.json" ∉ map fst out) /\ ("frame_0.jpg" ∉ map fst out).
Proof.
  cbv zeta.
  assert (list_session_persons Ex.B Ex.sid Ex.ingested =
          Returns [("person_0", [web_path Ex.sid "person_0" "f0_p0.jpg"]);
                   ("person_1", [web_path Ex.sid "person_1" "f1_p1.jpg"])] Ex.ingested)
    as Heq by (vm_compute; reflexivity).
  split; [exact Heq|].
  destruct (list_session_persons_group_files _ _ _ _ _ Heq)
    as (_ & q & m & Hs & _ & Hfiles & _).
  vm_compute in Hs. injection Hs as Hq Hm. subst q.
  split.
  - destruct (Hfiles "annotation.json" Ex.first_map) as [Hn _]; [vm_compute; reflexivity|].
    exact Hn.
  - destruct (Hfiles "frame_0.jpg" (Jpeg (Frame 100 200 0))) as [Hn _];
      [vm_compute; reflexivity|].
    exact Hn.
Defined.

(** * Further properties of the handlers *)

(** ** Boxes *)

Lemma clamp_box_some h w c x1 y1 x2 y2 :
  clamp_box h w c = Some (x1, y1, x2, y2) ->
  0 <= x1 < x2 /\ x2 <= w - 1 /\ 0 <= y1 < y2 /\ y2 <= h - 1 /\
  625 <= (x2 - x1) * (y2 - y1).
Proof.
  destruct c as [[[a1 b1] a2] b2]. unfold clamp_box, MIN_BOX_AREA.
  destruct (_ || _) eqn:E1; [done|]. destruct (_ <? _) eqn:E2; [done|].
  intros [= <- <- <- <-].
  apply orb_false_iff in E1 as [E1 E1']. apply Z.leb_gt in E1, E1'. apply Z.ltb_ge in E2.
  repeat split; lia.
Qed.

Lemma clamp_box_fixed h w x1 y1 x2 y2 :
  0 <= x1 < x2 -> x2 <= w - 1 -> 0 <= y1 < y2 -> y2 <= h - 1 ->
  625 <= (x2 - x1) * (y2 - y1) ->
  clamp_box h w (x1, y1, x2, y2) = Some (x1, y1, x2, y2).
Proof.
  intros Hx Hw Hy Hh Ha. unfold clamp_box, MIN_BOX_AREA.
  rewrite !(Z.min_l _ (w - 1)), !(Z.min_l _ (h - 1)) by lia.
  rewrite !Z.max_r by lia.
  destruct (_ || _) eqn:E3.
  { apply orb_true_iff in E3 as [E3|E3]; apply Z.leb_le in E3; lia. }
  destruct (_ <? _) eqn:E4; [apply Z.ltb_lt in E4; lia|done].
Qed.

(** X1. A box that passes the clamp and the size filter lies inside the
    frame, at most at column [w - 1] and row [h - 1], has positive width
    and height and an area of at least 625 pixels; clamping it again
    gives the same box. *)
Theorem clamp_box_inside h w c x1 y1 x2 y2 :
  clamp_box h w c = Some (x1, y1, x2, y2) ->
  0 <= x1 < x2 /\ x2 <= w - 1 /\ 0 <= y1 < y2 /\ y2 <= h - 1 /\
  MIN_BOX_AREA <= (x2 - x1) * (y2 - y1) /\
  clamp_box h w (x1, y1, x2, y2) = Some (x1, y1, x2, y2).
Proof.
  intros (Hx & Hw & Hy & Hh & Ha)%clamp_box_some.
  repeat split; try lia; [done|]. by apply clamp_box_fixed.
Qed.

Lemma clamp_box_inside_witness :
  clamp_box 100 200 (-5, 10, 90, 300) = Some (0, 10, 90, 99) /\
  clamp_box 100 200 (0, 10, 90, 99) = Some (0, 10, 90, 99).
Proof.
  assert (clamp_box 100 200 (-5, 10, 90, 300) = Some (0, 10, 90, 99)) as H by reflexivity.
  split; [exact H|].
  destruct (clamp_box_inside _ _ _ _ _ _ _ H) as (_ & _ & _ & _ & _ & H'). exact H'.
Defined.

(** X2. Whatever the detector reports, no box is kept on a frame with a
    side of at most one pixel, nor on a frame whose sides less one pixel
    span less than the minimum area of 625 pixels (a frame of 26 x 26
    pixels is the smallest square one that can yield a crop). *)
Theorem clamp_box_small_frame h w c :
  w <= 1 \/ h <= 1 \/ (w - 1) * (h - 1) < MIN_BOX_AREA -> clamp_box h w c = None.
Proof.
  unfold MIN_BOX_AREA.
  intros Hs. destruct (clamp_box h w c) as [[[[x1 y1] x2] y2]|] eqn:E; [|done].
  apply clamp_box_some in E. nia.
Qed.

Lemma clamp_box_small_frame_witness :
  clamp_box 25 25 (0, 0, 25, 25) = None /\ clamp_box 26 26 (0, 0, 26, 26) = Some (0, 0, 25, 25).
Proof.
  split; [|reflexivity]. apply clamp_box_small_frame. right. right. reflexivity.
Defined.

(** ** Allocation of the next index *)

(** X3. The index that the scans of [add_person] and [confirm_session]
    allocate is the least integer that is at least the start value and
    greater than every index read off a name; it depends on the names
    that are listed, not on their order or on repetitions. *)
Theorem next_index_least_bound start l :
  let v := next_index start l in
  (start <= v /\ forall e n, e ∈ l -> index_of_name e = Some n -> n < v) /\
  (forall u, start <= u ->
             (forall e n, e ∈ l -> index_of_name e = Some n -> n < u) -> v <= u) /\
  (forall l', (forall e, e ∈ l <-> e ∈ l') -> next_index start l' = v).
Proof.
  cbv zeta.
  assert (forall l, start <= next_index start l /\
                    forall e n, e ∈ l -> index_of_name e = Some n -> n < next_index start l)
    as Hub.
  { intros l0. split; [apply next_index_ge_start|].
    intros e n He Hn. pose proof (next_index_ge start l0 e n He Hn). lia. }
  assert (forall l u, start <= u ->
                      (forall e n, e ∈ l -> index_of_name e = Some n -> n < u) ->
                      next_index start l <= u) as Hleast.
  { intros l0 u Hu Hall.
    destruct (next_index_attained start l0) as [->|(e & n & He & Hn & ->)]; [done|].
    specialize (Hall e n He Hn). lia. }
  split; [apply Hub|]. split; [apply Hleast|].
  intros l' Hl'. apply Z.le_antisymm.
  - apply Hleast; [apply Hub|]. intros e n He. apply Hub. by apply Hl'.
  - apply Hleast; [apply Hub|]. intros e n He. apply Hub. by apply Hl'.
Qed.

Lemma next_index_least_bound_witness :
  next_index 1 ["database_2"; "database_x"; "database_7"] = 8 /\
  next_index 1 ["database_7"; "database_2"; "database_7"; "database_x"] = 8.
Proof.
  destruct (next_index_least_bound 1 ["database_2"; "database_x"; "database_7"])
    as (_ & _ & H).
  split; [vm_compute; reflexivity|].
  rewrite (H ["database_7"; "database_2"; "database_7"; "database_x"]);
    [vm_compute; reflexivity|].
  intros e. rewrite !elem_of_cons, !elem_of_nil. tauto.
Defined.

(** ** Paths built from request fields *)

Lemma split_no_sep sep s :
  Forall (fun c => Py.all_chars (fun a => negb (Ascii.eqb a sep)) c = true) (Py.split sep s).
Proof.
  induction s as [|c s IH]; [by repeat constructor|].
  simpl. destruct (Ascii.eqb c sep) eqn:E; [by constructor|].
  destruct (Py.split sep s) as [|w ws]; [by repeat constructor; simpl; rewrite E|].
  apply Forall_cons in IH as [Hw Hws]. constructor; [|done]. simpl. by rewrite E, Hw.
Qed.

Lemma no_slash_startswith c :
  Py.all_chars (fun a => negb (Ascii.eqb a "/")) c = true -> Py.startswith "/" c = false.
Proof.
  destruct c as [|a c]; [done|]. cbn [Py.all_chars]. intros [Ha _]%andb_prop.
  unfold Py.startswith. cbn [String.prefix].
  destruct (ascii_dec "/" a) as [<-|]; [done|done].
Qed.

Lemma joinpath_no_slash p c :
  Py.all_chars (fun a => negb (Ascii.eqb a "/")) c = true -> p // c = p ++ parts c.
Proof. intros H. unfold joinpath. by rewrite no_slash_startswith. Qed.

Lemma nth_split_no_slash i s :
  Py.all_chars (fun a => negb (Ascii.eqb a "/")) (nth i (Py.split "/" s) EmptyString) = true.
Proof.
  pose proof (split_no_sep "/" s) as H. rewrite Forall_forall in H.
  destruct (nth_in_or_default i (Py.split "/" s) EmptyString) as [Hin| ->]; [|done].
  apply H. by apply list_elem_of_In.
Qed.

Lemma last_split_no_slash s :
  Py.all_chars (fun a => negb (Ascii.eqb a "/")) (List.last (Py.split "/" s) EmptyString) = true.
Proof.
  pose proof (split_no_sep "/" s) as H. rewrite Forall_forall in H.
  apply H. apply list_elem_of_In.
  destruct (exists_last (split_nonempty "/" s)) as (l' & x & ->).
  rewrite last_last. apply in_app_iff. right. by left.
Qed.

(** ** Delete image *)

Lemma TEMP_ROOT_nonempty B : TEMP_ROOT B <> [].
Proof. rewrite TEMP_ROOT_eq. by destruct (removelast B). Qed.

Lemma image_file_nonempty B web : image_file B web <> [].
Proof.
  unfold image_file.
  rewrite !joinpath_no_slash by (apply nth_split_no_slash || apply last_split_no_slash).
  pose proof (TEMP_ROOT_nonempty B). by destruct (TEMP_ROOT B).
Qed.

(** The checks of [delete_image] on the request. *)
Lemma delete_image_unfold B (payload : gmap string string) w :
  delete_image B payload w =
  let path := the (payload !! "path") in
  if negb (truthy_opt (payload !! "path")) || negb (Py.startswith "/temp/" path)
     || (List.length (Py.split "/" path) <? 5)%nat
  then Raises (HTTPException 400 "Invalid path") w
  else if negb (exists_ (tree w) (image_file B path))
  then Raises (HTTPException 404 "File not found") w
  else match unlink (tree w) (image_file B path) with
       | inr t => Returns (JObj [("deleted", JStr path)]) (World t (written w))
       | inl e => Raises (OSError e) w
       end.
Proof.
  unfold delete_image, image_file. cbv zeta.
  destruct (_ || _); [done|]. cbn [orb].
  destruct (_ <? _)%nat; [done|].
  unfold_sys. destruct (exists_ _ _); [|done]. cbn [negb].
  by destruct (unlink _ _).
Qed.

(** X4. For every request body whose fields are strings, [delete_image]
    either returns the confirmation for the path it was given, having
    opened no file for writing, or fails and leaves the store exactly as
    it was; on such bodies the failures are the 400 for a path that is
    missing or does not pass the checks, the 404 for a file that is not
    found, and an error of the file system that no handler catches.
    (Bodies with a field that is not a string are not covered.) *)
Theorem delete_image_failure_unchanged B (payload : gmap string string) w :
  match delete_image B payload w with
  | Returns j w' =>
      j = JObj [("deleted", JStr (the (payload !! "path")))] /\ written w' = written w
  | Raises e w' =>
      w' = w /\
      (e = HTTPException 400 "Invalid path" \/ e = HTTPException 404 "File not found" \/
       exists err, e = OSError err)
  | Beyond => False
  end.
Proof.
  rewrite delete_image_unfold. cbv zeta.
  destruct (negb (truthy_opt _) || _ || _); [by auto|].
  destruct (negb (exists_ _ _)); [by auto|].
  destruct (unlink _ _); [|done]. split; [done|]. right. right. by eexists.
Qed.

(** X5. A [delete_image] that returns has removed one regular file, the
    one the path is taken to, and nothing else: every other entry is as
    it was. The same request sent again fails with 404. *)
Theorem delete_image_removes_one_file B (payload : gmap string string) w j w' :
  delete_image B payload w = Returns j w' ->
  let P := normalize (image_file B (the (payload !! "path"))) in
  (exists d, kind_at (tree w) P = IsFile d) /\
  kind_at (tree w') P = Missing /\
  (forall Q, Q <> P -> kind_at (tree w') Q = kind_at (tree w) Q) /\
  delete_image B payload w' = Raises (HTTPException 404 "File not found") w'.
Proof.
  intros Hret. cbv zeta. pose proof Hret as Hret'.
  rewrite delete_image_unfold in Hret. cbv zeta in Hret.
  destruct (negb (truthy_opt _) || _ || _) eqn:Hchecks; [done|].
  destruct (negb (exists_ _ _)); [done|].
  destruct (unlink _ _) as [e|t] eqn:Hu; [done|]. injection Hret as <- <-.
  apply unlink_inr in Hu as (d & Hd & Hgone & Hother); [|apply image_file_nonempty].
  cbn [tree]. split; [by eexists|]. split; [done|]. split; [done|].
  rewrite delete_image_unfold. cbv zeta. rewrite Hchecks. cbn [tree].
  rewrite exists_false_of_missing; [done|]. by apply kind_at_missing.
Qed.

Lemma delete_image_removes_one_file_witness :
  let payload : gmap string string := {[ "path" := web_path Ex.sid "person_0" "f0_p0.jpg" ]} in
  let w' := run (delete_image Ex.B payload) Ex.ingested in
  kind_at (tree w') (TEMP_ROOT Ex.B ++ [Ex.sid; "person_0"; "f0_p0.jpg"]) = Missing /\
  kind_at (tree w') Ex.snapshot = IsFile Ex.first_map /\
  delete_image Ex.B payload w' = Raises (HTTPException 404 "File not found") w'.
Proof.
  cbv zeta.
  set (payload := ({[ "path" := web_path Ex.sid "person_0" "f0_p0.jpg" ]} : gmap string string)).
  assert (delete_image Ex.B payload Ex.ingested =
          Returns (JObj [("deleted", JStr (web_path Ex.sid "person_0" "f0_p0.jpg"))])
                  (run (delete_image Ex.B payload) Ex.ingested)) as Heq
    by (vm_compute; reflexivity).
  destruct (delete_image_removes_one_file _ _ _ _ _ Heq) as (_ & Hgone & Hother & Hagain).
  split; [|split; [|exact Hagain]].
  - vm_compute; reflexivity.
  - rewrite Hother; [vm_compute; reflexivity|]. vm_compute. discriminate.
Defined.

(** X6. A path that passes the checks and is taken to a directory (a web
    path that ends in a slash names the group itself) makes [unlink]
    raise: the request fails with an error that no handler catches, a
    500 for the client, and nothing is removed. *)
Theorem delete_image_of_directory B (payload : gmap string string) w path :
  payload !! "path" = Some path ->
  well_formed_web path ->
  is_dir (tree w) (image_file B path) = true ->
  delete_image B payload w = Raises (OSError EISDIR) w /\ status_of (OSError EISDIR) = 500.
Proof.
  intros Hp (Hne & Hstart & Hlen) Hd. split; [|done].
  rewrite delete_image_unfold. cbv zeta. rewrite Hp, the_some, truthy_some by done.
  rewrite Hstart. apply Nat.ltb_ge in Hlen. rewrite Hlen. cbn [negb orb].
  apply is_dir_true in Hd as (q & m & Hs).
  assert (exists_ (tree w) (image_file B path) = true) as -> by (apply exists_true; eauto).
  cbn [negb]. unfold unlink. by rewrite Hs.
Qed.

Lemma delete_image_of_directory_witness :
  let payload : gmap string string := {[ "path" := "/temp/" +:+ Ex.sid +:+ "/person_0/" ]} in
  delete_image Ex.B payload Ex.ingested = Raises (OSError EISDIR) Ex.ingested.
Proof.
  cbv zeta.
  refine (proj1 (delete_image_of_directory Ex.B _ Ex.ingested
                   ("/temp/" +:+ Ex.sid +:+ "/person_0/") _ _ _)).
  - vm_compute; reflexivity.
  - split; [vm_compute; discriminate|split; [vm_compute; reflexivity|vm_compute; lia]].
  - vm_compute; reflexivity.
Defined.

(** ** Renaming an entry to a free name *)

Lemma ends_with_dotdot_names p :
  Forall (fun c => is_name c = true) p -> p <> [] -> ends_with_dotdot p = false.
Proof.
  intros Hp Hne. destruct (exists_last Hne) as (l & c & ->).
  apply Forall_app in Hp as [_ Hc]. apply Forall_cons in Hc as [Hc _].
  unfold ends_with_dotdot. rewrite last_last.
  destruct (l ++ [c]) eqn:E; [by destruct l|]. by apply is_name_not_dotdot.
Qed.

Lemma lookup_some_parent fs p x :
  lookup_path fs p = Some x -> p <> [] -> kind_at fs (removelast p) = IsDir.
Proof.
  intros Hl Hne. destruct (exists_last Hne) as (l & c & ->).
  rewrite removelast_last. by eapply lookup_prefix_dir.
Qed.

Lemma walk_names_child fs p :
  Forall (fun c => is_name c = true) p -> p <> [] ->
  kind_at fs (removelast p) = IsDir -> walk fs [] p = inr p.
Proof.
  intros Hp Hne [m Hm]%kind_at_dir. destruct (exists_last Hne) as (l & c & ->).
  rewrite removelast_last in Hm. apply Forall_app in Hp as [Hl Hc].
  apply Forall_cons in Hc as [Hc _].
  rewrite walk_app, (walk_names_to_entry _ _ _ Hl Hm). simpl.
  by rewrite Hm, (is_name_not_dotdot c Hc).
Qed.

Lemma rename_fresh fs sq dq sn :
  Forall (fun c => is_name c = true) sq -> Forall (fun c => is_name c = true) dq ->
  sq <> [] -> dq <> [] ->
  lookup_path fs sq = Some sn -> lookup_path fs dq = None ->
  kind_at fs (removelast dq) = IsDir ->
  ¬ sq `prefix_of` dq ->
  rename fs sq dq = inr (update dq (Some sn) (update sq None fs)).
Proof.
  intros Hs Hd Hsne Hdne Hls Hld Hpar Hpre. unfold rename.
  rewrite (stat_names_entry _ _ _ Hs Hls), (ends_with_dotdot_names _ Hs Hsne).
  rewrite (walk_names_child _ _ Hd Hdne Hpar), (ends_with_dotdot_names _ Hd Hdne).
  rewrite bool_decide_eq_false_2 by (intros ->; congruence).
  assert (strictly_below sq dq = false) as ->.
  { unfold strictly_below. by rewrite (bool_decide_eq_false_2 _ Hpre). }
  rewrite andb_false_r. by rewrite Hld.
Qed.

Lemma rename_fresh_effect fs sq dq sn :
  sq <> [] -> dq <> [] ->
  lookup_path fs sq = Some sn -> lookup_path fs dq = None ->
  kind_at fs (removelast dq) = IsDir ->
  ¬ sq `prefix_of` dq ->
  let fs' := update dq (Some sn) (update sq None fs) in
  (forall r, lookup_path fs' (dq ++ r) = lookup_path fs (sq ++ r)) /\
  lookup_path fs' sq = None /\
  (forall P, ¬ sq `prefix_of` P -> ¬ dq `prefix_of` P -> kind_at fs' P = kind_at fs P).
Proof.
  intros Hsne Hdne Hls Hld Hpar Hpre. cbv zeta.
  pose proof (lookup_some_parent _ _ _ Hls Hsne) as Hspar.
  assert (¬ dq `prefix_of` sq) as Hds.
  { intros [r ->]. rewrite lookup_path_app, Hld in Hls. done. }
  assert (forall c, kind_at fs (dq ++ [c]) = Missing) as Hfree.
  { intros c. apply kind_missing_below. by apply kind_at_missing. }
  split; [|split].
  - intros r. by apply moved_target.
  - by apply moved_source_gone.
  - intros P H1 H2. by apply moved_elsewhere.
Qed.

(** ** Rename person *)

Lemma rename_person_unfold B (payload : gmap string string) w :
  rename_person B payload w =
  let session_dir := TEMP_ROOT B // the (payload !! "session_id") in
  let old_fs := session_dir // the (payload !! "old_name") in
  let new_fs := session_dir // the (payload !! "new_name") in
  if negb (truthy_opt (payload !! "session_id") && truthy_opt (payload !! "old_name")
           && truthy_opt (payload !! "new_name"))
  then Raises (HTTPException 400 "Missing parameters") w
  else if negb (exists_ (tree w) old_fs)
  then Raises (HTTPException 404 "Old person not found") w
  else if exists_ (tree w) new_fs
  then Raises (HTTPException 400 "Target name exists") w
  else match rename (tree w) old_fs new_fs with
       | inr t => Returns (JObj [("from", JStr (the (payload !! "old_name")));
                                 ("to", JStr (the (payload !! "new_name")))])
                          (World t (written w))
       | inl e => Raises (OSError e) w
       end.
Proof.
  unfold rename_person. cbv zeta. destruct (negb (_ && _ && _)); [done|].
  unfold_sys. destruct (exists_ _ _); [|done]. cbn [negb].
  destruct (exists_ _ _); [done|]. by destruct (rename _ _ _).
Qed.

(** X7. For every request body whose fields are strings, [rename_person]
    either returns the old and the new name it was given, having opened
    no file for writing, or fails and leaves the store exactly as it
    was: with 400 when one of the three fields is missing or empty, with
    404 when the old path does not exist, with 400 when the old path
    exists and the new one does too, or with an error of the file system
    that no handler catches. (Bodies with a field that is not a string
    are not covered.) *)
Theorem rename_person_failure_unchanged B (payload : gmap string string) w :
  let session_dir := TEMP_ROOT B // the (payload !! "session_id") in
  let old_fs := session_dir // the (payload !! "old_name") in
  let new_fs := session_dir // the (payload !! "new_name") in
  match rename_person B payload w with
  | Returns j w' =>
      j = JObj [("from", JStr (the (payload !! "old_name")));
                ("to", JStr (the (payload !! "new_name")))] /\
      written w' = written w /\
      exists_ (tree w) old_fs = true /\ exists_ (tree w) new_fs = false
  | Raises e w' =>
      w' = w /\
      (e = HTTPException 400 "Missing parameters" /\
       (truthy_opt (payload !! "session_id") && truthy_opt (payload !! "old_name")
        && truthy_opt (payload !! "new_name")) = false \/
       e = HTTPException 404 "Old person not found" /\ exists_ (tree w) old_fs = false \/
       e = HTTPException 400 "Target name exists" /\
       exists_ (tree w) old_fs = true /\ exists_ (tree w) new_fs = true \/
       exists err, e = OSError err)
  | Beyond => False
  end.
Proof.
  rewrite rename_person_unfold. cbv zeta.
  destruct (truthy_opt _ && _ && _); cbn [negb]; [|split; [done|]; left; done].
  set (eo := exists_ (tree w) (_ // the (payload !! "old_name"))).
  set (en := exists_ (tree w) (_ // the (payload !! "new_name"))).
  destruct eo; cbn [negb]; [|split; [done|]; right; left; done].
  destruct en; [split; [done|]; right; right; left; done|].
  destruct (rename _ _ _); [|done]. split; [done|]. do 3 right. by eexists.
Qed.

(** X8. Renaming a group of a session to a free name succeeds (session,
    old and new name being single path components): everything that was
    found under the old name is found under the new one, the old name is
    gone, every path outside the two is as it was, and no file was
    opened for writing. *)
Theorem rename_person_moves_group B (payload : gmap string string) w sid old new :
  Forall (fun c => is_name c = true) B ->
  payload !! "session_id" = Some sid -> payload !! "old_name" = Some old ->
  payload !! "new_name" = Some new ->
  is_name sid = true -> is_name old = true -> is_name new = true ->
  kind_at (tree w) (TEMP_ROOT B ++ [sid; old]) <> Missing ->
  kind_at (tree w) (TEMP_ROOT B ++ [sid; new]) = Missing ->
  exists w',
    rename_person B payload w =
      Returns (JObj [("from", JStr old); ("to", JStr new)]) w' /\
    (forall r, kind_at (tree w') (TEMP_ROOT B ++ sid :: new :: r) =
               kind_at (tree w) (TEMP_ROOT B ++ sid :: old :: r)) /\
    kind_at (tree w') (TEMP_ROOT B ++ [sid; old]) = Missing /\
    (forall P, ¬ (TEMP_ROOT B ++ [sid; old]) `prefix_of` P ->
               ¬ (TEMP_ROOT B ++ [sid; new]) `prefix_of` P ->
               kind_at (tree w') P = kind_at (tree w) P) /\
    written w' = written w.
Proof.
  intros HB Hsid Hold Hnew Hs Ho Hn Hex Hfree.
  set (sq := TEMP_ROOT B ++ [sid; old]). set (dq := TEMP_ROOT B ++ [sid; new]).
  assert (Forall (fun c => is_name c = true) sq) as Hsq
    by (apply temp_names; by repeat constructor).
  assert (Forall (fun c => is_name c = true) dq) as Hdq
    by (apply temp_names; by repeat constructor).
  destruct (lookup_path (tree w) sq) as [sn|] eqn:Hls;
    [|by apply kind_at_missing in Hls].
  apply kind_at_missing in Hfree as Hld.
  assert (sq <> []) as Hsne by (unfold sq; by destruct (TEMP_ROOT B)).
  assert (dq <> []) as Hdne by (unfold dq; by destruct (TEMP_ROOT B)).
  assert (removelast dq = removelast sq) as Hrem.
  { assert (forall c, removelast (TEMP_ROOT B ++ [sid; c]) = TEMP_ROOT B ++ [sid]) as Hrl.
    { intros c. change [sid; c] with ([sid] ++ [c]). by rewrite app_assoc, removelast_last. }
    unfold sq, dq. by rewrite !Hrl. }
  assert (kind_at (tree w) (removelast dq) = IsDir) as Hpar.
  { rewrite Hrem. by eapply lookup_some_parent. }
  assert (¬ sq `prefix_of` dq) as Hpre.
  { intros [k Hk]. unfold sq, dq in Hk. rewrite <- app_assoc in Hk.
    apply app_inv_head in Hk. injection Hk as Heq _.
    assert (dq = sq) as Hsame by (unfold dq, sq; by rewrite Heq). congruence. }
  rewrite rename_person_unfold. cbv zeta. rewrite Hsid, Hold, Hnew, !the_some.
  rewrite !truthy_some by (by apply is_name_nonempty). cbn [andb negb].
  rewrite !joinpath_name, <- !app_assoc by done. cbn [app]. fold sq dq.
  assert (exists_ (tree w) sq = true) as ->.
  { apply exists_true. exists sq, sn. by apply stat_names_entry. }
  cbn [negb].
  rewrite (exists_false_of_missing _ dq) by (by rewrite normalize_names).
  rewrite (rename_fresh _ _ _ sn) by done.
  eexists. split; [done|]. cbn [tree written].
  destruct (rename_fresh_effect (tree w) sq dq sn) as (Ht & Hg & He); try done.
  split; [|split; [|split]].
  - intros r. unfold kind_at.
    change (TEMP_ROOT B ++ sid :: new :: r) with (TEMP_ROOT B ++ [sid; new] ++ r).
    change (TEMP_ROOT B ++ sid :: old :: r) with (TEMP_ROOT B ++ [sid; old] ++ r).
    rewrite !app_assoc. fold sq dq. by rewrite Ht.
  - by apply kind_at_missing.
  - done.
  - done.
Qed.

Lemma rename_person_moves_group_witness :
  let payload : gmap string string :=
    {[ "session_id" := Ex.sid; "old_name" := "person_1"; "new_name" := "bob" ]} in
  exists w',
    rename_person Ex.B payload Ex.ingested =
      Returns (JObj [("from", JStr "person_1"); ("to", JStr "bob")]) w' /\
    kind_at (tree w') (TEMP_ROOT Ex.B ++ [Ex.sid; "bob"; "f1_p1.jpg"]) =
    IsFile (Jpeg (Crop (Frame 100 200 1) 10 90 10 90)) /\
    kind_at (tree w') (TEMP_ROOT Ex.B ++ [Ex.sid; "person_1"]) = Missing.
Proof.
  cbv zeta.
  destruct (rename_person_moves_group Ex.B
              {[ "session_id" := Ex.sid; "old_name" := "person_1"; "new_name" := "bob" ]}
              Ex.ingested Ex.sid "person_1" "bob")
    as (w' & Heq & Hto & Hgone & _);
    [apply Ex_B_names|vm_compute; reflexivity..|vm_compute; discriminate
    |vm_compute; reflexivity|].
  exists w'. split; [exact Heq|]. split; [|exact Hgone].
  rewrite (Hto ["f1_p1.jpg"]). vm_compute; reflexivity.
Defined.

(** ** Listings *)

Lemma entry_le_trans {A} : Transitive (fun a b : string * A => String.le a.1 b.1).
Proof. intros a b c H1 H2. by etrans. Qed.

Lemma entry_le_total {A} : Total (fun a b : string * A => String.le a.1 b.1).
Proof. intros a b. apply (total String.le). Qed.

Lemma StronglySorted_sublist {A} (R : relation A) l1 l2 :
  l1 `sublist_of` l2 -> StronglySorted R l2 -> StronglySorted R l1.
Proof.
  induction 1 as [|x l1 l2 Hs IH|x l1 l2 Hs IH]; intros H2; [done|..].
  - apply StronglySorted_inv in H2 as [H2 Hx]. constructor; [by apply IH|].
    rewrite Forall_forall in Hx |- *. intros y Hy. apply Hx.
    by eapply sublist_subseteq.
  - apply StronglySorted_inv in H2 as [H2 _]. by apply IH.
Qed.

Lemma omap_names_sublist {A C} (f : string * A -> option (string * C)) l :
  (forall x y, f x = Some y -> y.1 = x.1) ->
  map fst (omap f l) `sublist_of` map fst l.
Proof.
  intros Hf. induction l as [|x l IH]; [done|]. simpl.
  destruct (f x) as [y|] eqn:E; simpl.
  - rewrite (Hf _ _ E). by apply sublist_skip.
  - by apply sublist_cons.
Qed.

Lemma filter_names_sublist {A} (P : string * A -> Prop) `{!forall x, Decision (P x)} l :
  map fst (filter P l) `sublist_of` map fst l.
Proof.
  induction l as [|x l IH]; [done|]. rewrite filter_cons.
  destruct (decide (P x)); simpl; [by apply sublist_skip|by apply sublist_cons].
Qed.

Lemma sorted_entries_names (m : gmap string node) :
  StronglySorted String.le (map fst (sorted_entries (map_to_list m))) /\
  NoDup (map fst (sorted_entries (map_to_list m))).
Proof.
  split.
  - apply (StronglySorted_fmap fst (fun a b : string * node => String.le a.1 b.1));
      [done|].
    apply (@StronglySorted_merge_sort _ _ _ entry_le_trans entry_le_total).
  - unfold sorted_entries. rewrite merge_sort_Permutation.
    apply NoDup_fst_map_to_list.
Qed.

Lemma list_images_names sid g (files : gmap string node) :
  exists names,
    list_images sid g (map_to_list files) = map (web_path sid g) names /\
    StronglySorted String.le names /\ NoDup names /\
    forall f, f ∈ names <-> exists d, files !! f = Some (File d).
Proof.
  exists (map fst (filter (fun f : string * node => is_file_node f.2)
                          (sorted_entries (map_to_list files)))).
  destruct (sorted_entries_names files) as [Hs Hn].
  split; [|split; [|split]].
  - unfold list_images. by rewrite map_map.
  - eapply StronglySorted_sublist; [apply filter_names_sublist|done].
  - apply (sublist_NoDup _ _ Hn), filter_names_sublist.
  - intros f. rewrite list_elem_of_fmap. split.
    + intros ([f' n] & -> & [Hf Hin]%list_elem_of_filter). simpl in *.
      apply sorted_entries_elem, elem_of_map_to_list in Hin.
      destruct n as [d|?]; [|done]. by exists d.
    + intros (d & Hd). exists (f, File d). split; [done|].
      apply list_elem_of_filter. split; [done|].
      by apply sorted_entries_elem, elem_of_map_to_list.
Qed.

Lemma list_session_persons_unfold B sid w :
  list_session_persons B sid w =
  if negb (exists_ (tree w) (TEMP_ROOT B // sid))
  then Raises (HTTPException 404 "Session not found") w
  else match stat (tree w) (TEMP_ROOT B // sid) with
       | inr (_, Dir m) =>
           Returns (omap (fun person_folder : string * node =>
                            match person_folder.2 with
                            | Dir files =>
                                Some (person_folder.1,
                                      list_images sid person_folder.1 (map_to_list files))
                            | File _ => None
                            end)
                         (sorted_entries (map_to_list m))) w
       | inr (_, File _) => Raises (OSError ENOTDIR) w
       | inl e => Raises (OSError e) w
       end.
Proof.
  unfold list_session_persons. unfold_sys.
  destruct (exists_ _ _); [|done]. cbn [negb]. unfold iterdir.
  by destruct (stat _ _) as [e|[q [d|m]]].
Qed.

(** X9. The listing of a session, and the endpoint that wraps it, never
    change the store. They fail with 404 exactly when the session path
    does not exist, and with an error that no handler catches when it
    is a regular file; they return when it is a directory, the endpoint
    with the session id it was given and the listing as its person
    map. *)
Theorem get_session_persons_outcome B sid w :
  match get_session_persons B sid w with
  | Returns j w' =>
      w' = w /\ is_dir (tree w) (TEMP_ROOT B // sid) = true /\
      exists out, list_session_persons B sid w = Returns out w /\
                  j = JObj [("session_id", JStr sid); ("persons", json_of_map out)]
  | Raises e w' =>
      w' = w /\ list_session_persons B sid w = Raises e w /\
      (e = HTTPException 404 "Session not found" /\
       exists_ (tree w) (TEMP_ROOT B // sid) = false \/
       e = OSError ENOTDIR /\ is_file (tree w) (TEMP_ROOT B // sid) = true)
  | Beyond => False
  end.
Proof.
  unfold get_session_persons, bind. rewrite list_session_persons_unfold.
  unfold is_dir, is_file, exists_.
  destruct (stat (tree w) (TEMP_ROOT B // sid)) as [e|[q [d|m]]]; cbn [negb].
  - split; [done|]. split; [done|]. by left.
  - split; [done|]. split; [done|]. by right.
  - unfold ret. split; [done|]. split; [done|]. by eexists.
Qed.

(** X10. A listing that returns is complete and ordered: its keys are
    exactly the directories found directly in the session directory, in
    increasing order of their names and without repetition, and the
    images of a group are the web paths of exactly the regular files
    found directly in it, in increasing order of the file names. *)
Theorem list_session_persons_sorted_complete B sid w out w' :
  list_session_persons B sid w = Returns out w' ->
  exists q m,
    stat (tree w) (TEMP_ROOT B // sid) = inr (q, Dir m) /\
    StronglySorted String.le (map fst out) /\ NoDup (map fst out) /\
    (forall g, g ∈ map fst out <-> kind_at (tree w) (q ++ [g]) = IsDir) /\
    forall g imgs, (g, imgs) ∈ out ->
      exists names,
        imgs = map (web_path sid g) names /\
        StronglySorted String.le names /\ NoDup names /\
        forall f, f ∈ names <-> exists d, kind_at (tree w) (q ++ [g; f]) = IsFile d.
Proof.
  intros Hret. pose proof (list_session_persons_returns _ _ _ _ _ Hret) as (_ & q' & m' & Hst' & Hiff).
  rewrite list_session_persons_unfold in Hret.
  destruct (negb _); [done|].
  destruct (stat (tree w) (TEMP_ROOT B // sid)) as [e|[q [d|m]]] eqn:Hst; try done.
  injection Hst' as <- <-. injection Hret as Hout _.
  apply stat_inr in Hst as [_ Hq].
  exists q, m. split; [done|].
  destruct (sorted_entries_names m) as [Hs Hn].
  assert (map fst out `sublist_of` map fst (sorted_entries (map_to_list m))) as Hsub.
  { rewrite <- Hout. apply omap_names_sublist. intros [g n] y. simpl.
    destruct n; [done|]. by intros [= <-]. }
  split; [by eapply StronglySorted_sublist|]. split; [by apply (sublist_NoDup _ _ Hn)|]. split.
  - intros g. rewrite list_elem_of_fmap. unfold kind_at. rewrite lookup_path_snoc, Hq. split.
    + intros ([g' imgs] & -> & Hin). apply Hiff in Hin as (files & Hg & _).
      simpl. by rewrite Hg.
    + intros Hk. destruct (m !! g) as [[d|files]|] eqn:Hg; try done.
      exists (g, list_images sid g (map_to_list files)). split; [done|].
      apply Hiff. by exists files.
  - intros g imgs (files & Hg & ->)%Hiff.
    destruct (list_images_names sid g files) as (names & -> & Hss & Hnn & Hel).
    exists names. split; [done|]. split; [done|]. split; [done|].
    intros f. rewrite Hel. unfold kind_at.
    change [g; f] with ([g] ++ [f]). rewrite app_assoc, !lookup_path_snoc, Hq, Hg.
    split; intros [d Hd]; exists d.
    + by rewrite Hd.
    + destruct (files !! f) as [[d'|]|]; simpl in Hd; [|done..]. by injection Hd as ->.
Qed.

Lemma list_session_persons_sorted_complete_witness :
  exists out, list_session_persons Ex.B Ex.sid Ex.ingested = Returns out Ex.ingested /\
              map fst out = ["person_0"; "person_1"] /\
              StronglySorted String.le (map fst out).
Proof.
  eexists. split; [vm_compute; reflexivity|]. split; [reflexivity|].
  destruct (list_session_persons_sorted_complete Ex.B Ex.sid Ex.ingested
              [("person_0", [web_path Ex.sid "person_0" "f0_p0.jpg"]);
               ("person_1", [web_path Ex.sid "person_1" "f1_p1.jpg"])] Ex.ingested)
    as (q & m & _ & Hs & _); [vm_compute; reflexivity|].
  exact Hs.
Defined.

(** ** The list of sessions *)

Lemma list_sessions_unfold B w :
  list_sessions B w =
  match iterdir (tree w) (TEMP_ROOT B) with
  | inr entries =>
      Returns (JObj [("sessions",
                      JList (map JStr (map fst (filter (fun p : string * node =>
                                                          is_dir_node p.2) entries))))]) w
  | inl e => Raises (OSError e) w
  end.
Proof. unfold list_sessions. unfold_sys. by destruct (iterdir _ _). Qed.

Lemma iterdir_dir_names fs p (m : gmap string node) :
  Forall (fun c => is_name c = true) p -> lookup_path fs p = Some (Dir m) ->
  iterdir fs p = inr (map_to_list m).
Proof. intros Hp Hl. unfold iterdir. by rewrite (stat_names_entry _ _ _ Hp Hl). Qed.

Lemma session_names_spec (m : gmap string node) s :
  s ∈ map fst (filter (fun p : string * node => is_dir_node p.2) (map_to_list m)) <->
  exists files, m !! s = Some (Dir files).
Proof.
  rewrite list_elem_of_fmap. split.
  - intros ([s' n] & -> & [Hd Hin]%list_elem_of_filter). simpl in *.
    apply elem_of_map_to_list in Hin. destruct n; [done|]. by eexists.
  - intros (files & Hs). exists (s, Dir files). split; [done|].
    apply list_elem_of_filter. split; [done|]. by apply elem_of_map_to_list.
Qed.

Lemma list_sessions_of_dir B w :
  Forall (fun c => is_name c = true) B ->
  kind_at (tree w) (TEMP_ROOT B) = IsDir ->
  exists names,
    list_sessions B w = Returns (JObj [("sessions", JList (map JStr names))]) w /\
    NoDup names /\
    forall s, s ∈ names <-> kind_at (tree w) (TEMP_ROOT B ++ [s]) = IsDir.
Proof.
  intros HB [m Hm]%kind_at_dir.
  exists (map fst (filter (fun p : string * node => is_dir_node p.2) (map_to_list m))).
  split; [|split].
  - rewrite list_sessions_unfold.
    by rewrite (iterdir_dir_names _ _ m (TEMP_ROOT_names B HB) Hm).
  - apply (sublist_NoDup _ _ (NoDup_fst_map_to_list m)), filter_names_sublist.
  - intros s. rewrite session_names_spec. unfold kind_at. rewrite lookup_path_snoc, Hm.
    split; [by intros [files ->]|]. destruct (m !! s) as [[]|]; try done. by eexists.
Qed.

(** X11. [list_sessions] never changes the store. It returns exactly
    when the temporary root is a directory, and then gives, without
    repetition, the names of exactly the directories found directly in
    it (regular files there are left out); when the root is not a
    directory it fails with an error of the file system that no handler
    catches. *)
Theorem list_sessions_lists_directories B w :
  Forall (fun c => is_name c = true) B ->
  match list_sessions B w with
  | Returns j w' =>
      w' = w /\ kind_at (tree w) (TEMP_ROOT B) = IsDir /\
      exists names,
        j = JObj [("sessions", JList (map JStr names))] /\ NoDup names /\
        forall s, s ∈ names <-> kind_at (tree w) (TEMP_ROOT B ++ [s]) = IsDir
  | Raises e w' =>
      w' = w /\ kind_at (tree w) (TEMP_ROOT B) <> IsDir /\ exists err, e = OSError err
  | Beyond => False
  end.
Proof.
  intros HB. destruct (kind_at (tree w) (TEMP_ROOT B)) eqn:Hk.
  - rewrite list_sessions_unfold. unfold iterdir.
    destruct (stat _ _) as [e|[q [d|m]]] eqn:Hs; [by eauto| |].
    + split; [done|]. split; [done|]. by eexists.
    + apply stat_names in Hs as [_ Hl]; [|by apply TEMP_ROOT_names].
      unfold kind_at in Hk. by rewrite Hl in Hk.
  - rewrite list_sessions_unfold. unfold iterdir.
    destruct (stat _ _) as [e|[q [d'|m]]] eqn:Hs; [by eauto| |].
    + split; [done|]. split; [done|]. by eexists.
    + apply stat_names in Hs as [_ Hl]; [|by apply TEMP_ROOT_names].
      unfold kind_at in Hk. by rewrite Hl in Hk.
  - destruct (list_sessions_of_dir B w HB Hk) as (names & -> & Hn & Hs).
    split; [done|]. split; [done|]. by exists names.
Qed.

Lemma list_sessions_lists_directories_witness :
  list_sessions Ex.B Ex.ingested = Returns (JObj [("sessions", JList [JStr Ex.sid])]) Ex.ingested /\
  kind_at (tree Ex.ingested) (TEMP_ROOT Ex.B ++ [Ex.sid]) = IsDir.
Proof.
  assert (list_sessions Ex.B Ex.ingested =
          Returns (JObj [("sessions", JList [JStr Ex.sid])]) Ex.ingested) as Heq
    by (vm_compute; reflexivity).
  split; [exact Heq|].
  pose proof (list_sessions_lists_directories Ex.B Ex.ingested Ex_B_names) as H.
  rewrite Heq in H. destruct H as (_ & _ & names & Hj & _ & Hs).
  apply Hs. injection Hj as Hj.
  assert (names = [Ex.sid]) as ->.
  { destruct names as [|a [|b l]]; try discriminate Hj. by injection Hj as <-. }
  apply list_elem_of_here.
Defined.

(** ** Sessions from ingestion to promotion *)

Lemma upload_video_session_dir B r file model w j w' :
  upload_video B r file model w = Returns j w' ->
  is_dir (tree w') (session_dir B r) = true.
Proof.
  rewrite upload_video_unfold.
  unfold bind at 1.
  destruct (Sys.write_file (upload_path B r) (Blob file) w) as [[] w0|e0 w0|];
    cbn beta iota; [|done|done].
  unfold bind at 1, Sys.mkdir.
  destruct (FS.mkdir true true (tree w0) (session_dir B r)) as [t1 [e1|]] eqn:Hmk;
    cbn beta iota; [done|].
  pose proof (mkdir_is_dir _ _ _ _ _ Hmk) as Hd.
  destruct model as [model|]; [|by intros [= <- <-]].
  unfold try_except. pose proof (safe_ingest B r model (World t1 (written w0))) as Hs.
  destruct (ingest B r model _) as [j2 w2|e2 w2|] eqn:Hi; [| |done].
  - intros [= <- <-]. destruct Hs as [Hk _]. cbn [id tree] in Hk.
    by eapply is_dir_keeps_dirs.
  - intros Hc. by apply cleanup_never_returns in Hc.
Qed.

Lemma session_dir_names B r :
  Forall (fun c => is_name c = true) B ->
  Forall (fun c => is_name c = true) (session_dir B r).
Proof. intros HB. apply temp_names; [done|]. constructor; [apply is_name_hex|done]. Qed.

(** How [os.rename] treats what it finds at the target. *)
Lemma rename_inr_target fs src dst fs' sq sn dq :
  rename fs src dst = inr fs' ->
  stat fs src = inr (sq, sn) -> walk fs [] dst = inr dq -> sq <> dq ->
  match lookup_path fs dq, sn with
  | None, _ => True
  | Some (File _), File _ => True
  | Some (Dir m), Dir _ => size m = 0%nat
  | _, _ => False
  end.
Proof.
  unfold rename. intros Hr Hs Hw Hne. rewrite Hs, Hw in Hr.
  destruct (ends_with_dotdot src); [done|]. destruct (ends_with_dotdot dst); [done|].
  rewrite bool_decide_eq_false_2 in Hr by done.
  destruct (is_dir_node sn && strictly_below sq dq); [done|].
  destruct (lookup_path fs dq) as [[d|m]|], sn as [d'|m']; try done.
  destruct (Nat.eqb_spec (size m) 0); done.
Qed.

(** What a promotion that returns did to the tree. *)
Lemma confirm_session_moved B (payload : gmap string string) w sid j w' :
  Forall (fun c => is_name c = true) B ->
  is_name sid = true -> payload !! "session_id" = Some sid ->
  confirm_session B payload w = Returns j w' ->
  exists t1 entries sn,
    FS.mkdir true true (tree w) (PERSONS_DB B) = (t1, None) /\
    iterdir t1 (PERSONS_DB B) = inr entries /\
    let n := next_index 1 (filter (fun d => Py.startswith "database_" d)
                                  (map fst (filter (fun d : string * node =>
                                                      is_dir_node d.2) entries))) in
    let sq := TEMP_ROOT B ++ [sid] in
    let dq := PERSONS_DB B ++ ["database_" +:+ Py.str n] in
    j = JObj [("moved_to", JStr ("/persons/" +:+ "database_" +:+ Py.str n))] /\
    lookup_path t1 sq = Some sn /\
    match lookup_path t1 dq, sn with
    | None, _ => True
    | Some (File _), File _ => True
    | _, _ => False
    end /\
    kind_at t1 (removelast dq) = IsDir /\
    ¬ sq `prefix_of` dq /\
    tree w' = update dq (Some sn) (update sq None t1) /\
    written w' = written w.
Proof.
  intros HB Hsid Hp Hret. pose proof (is_name_nonempty _ Hsid) as Hne.
  apply (confirm_session_returns B w payload sid) in Hret
    as (t1 & entries & Hex & Hmk & Hit & Hmv & Hwr & ->); [|done..].
  exists t1, entries.
  set (n := next_index 1 _) in *.
  pose proof (allocated_name_free B HB t1 entries Hit) as Hfree.
  cbv zeta in Hfree. fold n in Hfree.
  rewrite (joinpath_name _ _ (is_name_database n)) in *.
  rewrite (joinpath_name _ _ Hsid) in *.
  assert (Forall (fun c => is_name c = true) (TEMP_ROOT B ++ [sid])) as Hsrc
    by (apply names_snoc; [by apply TEMP_ROOT_names|done]).
  assert (Forall (fun c => is_name c = true) (PERSONS_DB B ++ ["database_" +:+ Py.str n]))
    as Hdst by (apply names_snoc; [by apply PERSONS_DB_names|apply is_name_database]).
  apply shutil_move_moved in Hmv as [Hrn|[Hd _]]; cycle 1.
  { apply is_dir_true in Hd as (q & m & Hst).
    apply stat_names in Hst as [_ Hl]; [|done]. destruct Hfree. apply kind_at_dir. eauto. }
  pose proof Hrn as Hrn'.
  apply rename_inr in Hrn as (sq & sn & dq & Hst & Hw & _ & _ & Hcase).
  pose proof (rename_inr_target _ _ _ _ _ _ _ Hrn' Hst Hw) as Htgt.
  apply stat_names in Hst as [-> Hl]; [|done].
  apply walk_names in Hw as ->; [|done].
  assert (TEMP_ROOT B ++ [sid] <> PERSONS_DB B ++ ["database_" +:+ Py.str n]) as Hdiff.
  { intros Heq. apply app_inj_tail in Heq as [Heq _].
    by apply TEMP_ROOT_not_PERSONS_DB in Heq. }
  specialize (Htgt Hdiff).
  destruct Hcase as [[Heq _]|(Hsne & Hdne & Hspar & Hdpar & Hsd & Hds & Hfr & Ht')]; [done|].
  exists sn. split; [done|]. split; [done|]. cbv zeta.
  split; [unfold name; by rewrite last_last|]. split; [done|]. split; [|done].
  destruct (lookup_path t1 (PERSONS_DB B ++ _)) as [[d|m]|] eqn:Hdq; [exact Htgt| |done].
  destruct Hfree. apply kind_at_dir. eauto.
Qed.

Lemma persons_entry_not_in_temp B e l : ¬ (PERSONS_DB B ++ [e]) `prefix_of` (TEMP_ROOT B ++ l).
Proof.
  rewrite PERSONS_DB_eq, TEMP_ROOT_eq. intros [k Hk].
  destruct B as [|b0 B0] using rev_ind; [done|].
  rewrite removelast_last, <- !app_assoc in Hk. apply app_inv_head in Hk.
  simpl in Hk. by injection Hk.
Qed.

Lemma temp_not_above_persons B l : ¬ (TEMP_ROOT B ++ l) `prefix_of` PERSONS_DB B.
Proof.
  rewrite PERSONS_DB_eq, TEMP_ROOT_eq. intros [k Hk].
  destruct B as [|b0 B0] using rev_ind; [done|].
  rewrite removelast_last, <- !app_assoc in Hk. apply app_inv_head in Hk.
  simpl in Hk. by injection Hk.
Qed.

Lemma is_dir_names_kind fs p :
  Forall (fun c => is_name c = true) p -> is_dir fs p = true <-> kind_at fs p = IsDir.
Proof.
  intros Hp. rewrite is_dir_true, kind_at_dir. split.
  - intros (q & m & [_ Hl]%stat_names); [|done]. by eexists.
  - intros [m Hl]. exists p, m. by apply stat_names_entry.
Qed.

(** X12. Promotion of a session directory never overwrites: the entry
    [database_<n>] it lands on did not exist before, [n] is at least 1
    and greater than the index of every [database_<m>] directory of the
    permanent store, and whatever existed outside the session is as it
    was. *)
Theorem confirm_session_allocates_fresh B (payload : gmap string string) w sid j w' :
  Forall (fun c => is_name c = true) B ->
  is_name sid = true -> payload !! "session_id" = Some sid ->
  kind_at (tree w) (TEMP_ROOT B ++ [sid]) = IsDir ->
  confirm_session B payload w = Returns j w' ->
  exists n,
    1 <= n /\
    j = JObj [("moved_to", JStr ("/persons/" +:+ "database_" +:+ Py.str n))] /\
    let entry := PERSONS_DB B ++ ["database_" +:+ Py.str n] in
    kind_at (tree w) entry = Missing /\
    kind_at (tree w') entry = IsDir /\
    (forall m, kind_at (tree w) (PERSONS_DB B ++ ["database_" +:+ Py.str m]) = IsDir ->
               m < n) /\
    (forall P, kind_at (tree w) P <> Missing ->
               ¬ (TEMP_ROOT B ++ [sid]) `prefix_of` P ->
               kind_at (tree w') P = kind_at (tree w) P).
Proof.
  intros HB Hsid Hp Hdir Hret.
  destruct (confirm_session_moved B payload w sid j w' HB Hsid Hp Hret)
    as (t1 & entries & sn & Hmk & Hit & Hrest).
  set (n := next_index 1 _) in *. cbv zeta in Hrest.
  destruct Hrest as (-> & Hls & Htgt & Hpar & Hpre & Ht' & Hwr).
  pose proof (mkdir_grows true true (tree w) (PERSONS_DB B)) as Hg.
  rewrite Hmk in Hg. cbn [fst] in Hg.
  set (sq := TEMP_ROOT B ++ [sid]) in *.
  set (dq := PERSONS_DB B ++ ["database_" +:+ Py.str n]) in *.
  assert (exists m, sn = Dir m) as [msn ->].
  { assert (kind_at t1 sq = IsDir) as [m Hm]%kind_at_dir by (rewrite Hg; by rewrite Hdir).
    exists m. congruence. }
  assert (lookup_path t1 dq = None) as Hld by (by destruct (lookup_path t1 dq) as [[]|]).
  assert (sq <> []) as Hsne by (unfold sq; by destruct (TEMP_ROOT B)).
  assert (dq <> []) as Hdne by (unfold dq; by destruct (PERSONS_DB B)).
  destruct (rename_fresh_effect t1 sq dq (Dir msn)) as (Hto & Hgone & Helse); try done.
  exists n. split; [apply next_index_ge_start|]. split; [done|]. cbv zeta. fold dq sq.
  split; [|split; [|split]].
  - destruct (kind_at (tree w) dq) eqn:Hk; [done|..].
    + assert (kind_at t1 dq = IsFile d) as Hk' by (rewrite Hg; by rewrite Hk).
      apply kind_at_file in Hk'. congruence.
    + assert (kind_at t1 dq = IsDir) as [m Hk']%kind_at_dir by (rewrite Hg; by rewrite Hk).
      congruence.
  - unfold kind_at. rewrite Ht'. specialize (Hto []). rewrite !app_nil_r in Hto.
    by rewrite Hto, Hls.
  - intros m Hm.
    assert (kind_at t1 (PERSONS_DB B ++ ["database_" +:+ Py.str m]) = IsDir)
      as [mm Hmm]%kind_at_dir by (rewrite Hg; by rewrite Hm).
    apply iterdir_names in Hit as (mp & Hmp & ->); [|by apply PERSONS_DB_names].
    rewrite lookup_path_snoc, Hmp in Hmm.
    assert ("database_" +:+ Py.str m ∈
            filter (fun d => Py.startswith "database_" d)
                   (map fst (filter (fun d : string * node => is_dir_node d.2)
                                    (map_to_list mp)))) as Hin.
    { apply list_elem_of_filter. split; [by rewrite startswith_app|].
      apply list_elem_of_fmap. exists ("database_" +:+ Py.str m, Dir mm). split; [done|].
      apply list_elem_of_filter. split; [done|]. by apply elem_of_map_to_list. }
    pose proof (next_index_ge 1 _ _ m Hin (index_of_name_numbered "database" m eq_refl)).
    fold n in H. lia.
  - intros P HP HsP. rewrite Ht', Helse; [by apply Hg|done|].
    intros [k ->]. assert (kind_at t1 (dq ++ k) <> Missing) as Hk.
    { rewrite Hg; done. }
    apply Hk. apply kind_missing_below. by apply kind_at_missing.
Qed.

Lemma confirm_session_allocates_fresh_witness :
  exists w',
    confirm_session Ex.B (Ex.session_request Ex.sid) Ex.ingested =
      Returns (JObj [("moved_to", JStr "/persons/database_1")]) w' /\
    kind_at (tree w') (UPLOADS_DIR Ex.B ++ [Ex.sid +:+ ".mp4"]) = IsFile (Blob "video").
Proof.
  eexists. split; [vm_compute; reflexivity|].
  destruct (confirm_session_allocates_fresh Ex.B (Ex.session_request Ex.sid) Ex.ingested
              Ex.sid (JObj [("moved_to", JStr "/persons/database_1")])
              (run (confirm_session Ex.B (Ex.session_request Ex.sid)) Ex.ingested))
    as (n & _ & _ & _ & _ & _ & Hkeep);
    [apply Ex_B_names|vm_compute; reflexivity..|].
  rewrite Hkeep; [vm_compute; reflexivity|vm_compute; discriminate|].
  intros [k Hk]. vm_compute in Hk. discriminate Hk.
Defined.

(** X13. A session is listed from ingestion to promotion: after an
    ingestion that returns, [list_sessions] returns and the new session
    id is among the names; after a promotion of that session that
    returns, [list_sessions] still returns, the session id is no longer
    among the names, and every other session is listed as before. *)
Theorem session_listed_until_promoted B r file model w j w1 :
  Forall (fun c => is_name c = true) B ->
  upload_video B r file model w = Returns j w1 ->
  exists names,
    list_sessions B w1 = Returns (JObj [("sessions", JList (map JStr names))]) w1 /\
    (new_session_id r ∈ names) /\
    forall j2 w2,
      confirm_session B {[ "session_id" := new_session_id r ]} w1 = Returns j2 w2 ->
      exists names2,
        list_sessions B w2 = Returns (JObj [("sessions", JList (map JStr names2))]) w2 /\
        (new_session_id r ∉ names2) /\
        forall s, s <> new_session_id r -> (s ∈ names2 <-> s ∈ names).
Proof.
  intros HB Hup. set (sid := new_session_id r).
  pose proof (upload_video_session_dir _ _ _ _ _ _ _ Hup) as Hd.
  apply is_dir_names_kind in Hd; [|by apply session_dir_names].
  unfold session_dir in Hd. fold sid in Hd.
  assert (kind_at (tree w1) (TEMP_ROOT B) = IsDir) as Ht.
  { apply kind_at_dir in Hd as [m Hm]. by eapply lookup_prefix_dir. }
  destruct (list_sessions_of_dir B w1 HB Ht) as (names & Hl & _ & Hn).
  exists names. split; [done|]. split; [by apply Hn|].
  intros j2 w2 Hc.
  assert (is_name sid = true) as Hsid by apply is_name_hex.
  destruct (confirm_session_moved B _ w1 sid j2 w2 HB Hsid (lookup_singleton_eq _ _) Hc)
    as (t1 & entries & sn & Hmk & Hit & Hrest).
  set (n := next_index 1 _) in *. cbv zeta in Hrest.
  destruct Hrest as (-> & Hls & Htgt & Hpar & Hpre & Ht' & Hwr).
  pose proof (mkdir_grows true true (tree w1) (PERSONS_DB B)) as Hg.
  rewrite Hmk in Hg. cbn [fst] in Hg.
  assert (forall l, kind_at t1 (TEMP_ROOT B ++ l) = kind_at (tree w1) (TEMP_ROOT B ++ l))
    as Hsame.
  { intros l.
    pose proof (mkdir_names_only true (tree w1) (PERSONS_DB B) (PERSONS_DB_names B HB)
                  (TEMP_ROOT B ++ l) (temp_not_above_persons B l)) as Hk.
    by rewrite Hmk in Hk. }
  set (sq := TEMP_ROOT B ++ [sid]) in *.
  set (dq := PERSONS_DB B ++ ["database_" +:+ Py.str n]) in *.
  assert (exists m, sn = Dir m) as [msn ->].
  { assert (kind_at t1 sq = IsDir) as [m Hm]%kind_at_dir by (rewrite Hg; by rewrite Hd).
    exists m. congruence. }
  assert (lookup_path t1 dq = None) as Hld by (by destruct (lookup_path t1 dq) as [[]|]).
  assert (sq <> []) as Hsne by (unfold sq; by destruct (TEMP_ROOT B)).
  assert (dq <> []) as Hdne by (unfold dq; by destruct (PERSONS_DB B)).
  destruct (rename_fresh_effect t1 sq dq (Dir msn)) as (Hto & Hgone & Helse); try done.
  assert (kind_at (tree w2) (TEMP_ROOT B) = IsDir) as Ht2.
  { rewrite Ht', Helse.
    - specialize (Hsame []). rewrite app_nil_r in Hsame. by rewrite Hsame.
    - intros [k Hk]. unfold sq in Hk. rewrite <- app_assoc in Hk.
      apply (f_equal List.length) in Hk. rewrite length_app in Hk. simpl in Hk. lia.
    - pose proof (persons_entry_not_in_temp B ("database_" +:+ Py.str n) []) as Hp.
      by rewrite app_nil_r in Hp. }
  destruct (list_sessions_of_dir B w2 HB Ht2) as (names2 & Hl2 & _ & Hn2).
  exists names2. split; [done|]. split.
  - rewrite Hn2. fold sq. unfold kind_at. by rewrite Ht', Hgone.
  - intros s Hs. rewrite Hn, Hn2.
    rewrite Ht', Helse; [by rewrite Hsame| |apply persons_entry_not_in_temp].
    intros [k Hk]. unfold sq in Hk. rewrite <- app_assoc in Hk.
    apply app_inv_head in Hk. by injection Hk.
Qed.

Lemma session_listed_until_promoted_witness :
  exists names,
    list_sessions Ex.B Ex.ingested =
      Returns (JObj [("sessions", JList (map JStr names))]) Ex.ingested /\
    Ex.sid ∈ names.
Proof.
  destruct (session_listed_until_promoted Ex.B 5 "video" (Some Ex.per_frame) Ex.provisioned
              (JObj [("session_id", JStr Ex.sid); ("persons", Ex.first_persons)]) Ex.ingested)
    as (names & Hl & Hin & _); [apply Ex_B_names|vm_compute; reflexivity|].
  exists names. split; [exact Hl|exact Hin].
Defined.

(** ** Start-up *)

Lemma ensure_dirs ps w w' :
  fold_right (fun p k => Sys.mkdir true true p ;; k) (ret tt) ps w = Returns tt w' ->
  Forall (fun p => is_dir (tree w') p = true) ps /\
  grows (tree w) (tree w') /\ written w' = written w.
Proof.
  revert w. induction ps as [|p ps IH]; intros w; simpl.
  - intros [= <-]. split; [done|]. split; [apply grows_refl|done].
  - unfold bind at 1, Sys.mkdir.
    destruct (FS.mkdir true true (tree w) p) as [t [e|]] eqn:Hmk; [done|].
    intros (Hall & Hg & Hw)%IH. cbn [tree written] in *.
    pose proof (mkdir_grows true true (tree w) p) as Hg1. rewrite Hmk in Hg1.
    split; [|split; [by eapply grows_trans|done]].
    constructor; [|done].
    eapply is_dir_keeps_dirs; [by apply grows_keeps_dirs|]. by eapply mkdir_is_dir.
Qed.

Lemma ensure_dirs_again ps w :
  Forall (fun p => is_dir (tree w) p = true) ps ->
  fold_right (fun p k => Sys.mkdir true true p ;; k) (ret tt) ps w = Returns tt w.
Proof.
  induction 1 as [|p ps Hp _ IH]; [done|]. simpl.
  unfold bind at 1, Sys.mkdir. rewrite (mkdir_existing _ _ Hp).
  by destruct w.
Qed.

(** X14. When the start-up code returns, the six folders of the layout
    are directories, whatever the store held before is still there
    unchanged, and no file was opened for writing; running it again on
    the store it left returns without changing anything. *)
Theorem startup_ensures_folders B w w' :
  startup B w = Returns tt w' ->
  Forall (fun p => is_dir (tree w') p = true)
         [UPLOADS_DIR B; ANNOTATIONS_DIR B; PERSONS_DB B; TEMP_ROOT B; STATIC_DIR B;
          TEMPLATES_DIR B] /\
  grows (tree w) (tree w') /\ written w' = written w /\
  startup B w' = Returns tt w'.
Proof.
  intros H. apply ensure_dirs in H as (Hall & Hg & Hw).
  split; [done|]. split; [done|]. split; [done|]. by apply ensure_dirs_again.
Qed.

Lemma startup_ensures_folders_witness :
  let w' := run (startup Ex.B) (World (Dir ∅) []) in
  startup Ex.B (World (Dir ∅) []) = Returns tt w' /\
  is_dir (tree w') (TEMP_ROOT Ex.B) = true /\
  startup Ex.B w' = Returns tt w'.
Proof.
  cbv zeta.
  assert (startup Ex.B (World (Dir ∅) []) =
          Returns tt (run (startup Ex.B) (World (Dir ∅) []))) as Heq
    by (vm_compute; reflexivity).
  split; [exact Heq|].
  destruct (startup_ensures_folders _ _ _ Heq) as (Hall & _ & _ & Hagain).
  split; [|exact Hagain].
  apply Forall_cons in Hall as [_ Hall]. apply Forall_cons in Hall as [_ Hall].
  apply Forall_cons in Hall as [_ Hall]. by apply Forall_cons in Hall as [Ht _].
Defined.

(** ** Move image *)

Lemma shutil_move_fresh fs src tgt sn :
  Forall (fun c => is_name c = true) src -> Forall (fun c => is_name c = true) tgt ->
  src <> [] -> tgt <> [] ->
  lookup_path fs src = Some sn -> lookup_path fs tgt = None ->
  kind_at fs (removelast tgt) = IsDir ->
  ¬ src `prefix_of` tgt ->
  shutil_move fs src tgt = Moved (update tgt (Some sn) (update src None fs)).
Proof.
  intros Hs Ht Hsne Htne Hls Hlt Hpar Hpre. unfold shutil_move.
  assert (is_dir fs tgt = false) as ->.
  { destruct (is_dir fs tgt) eqn:E; [|done].
    apply is_dir_true in E as (q & m & [_ Hl]%stat_names); [congruence|done]. }
  by rewrite (rename_fresh _ _ _ sn).
Qed.

Lemma last_three {A} (l : list A) a b c d : List.last (l ++ [a; b; c]) d = c.
Proof. change [a; b; c] with ([a; b] ++ [c]). by rewrite app_assoc, last_last. Qed.

(** The handler on a request that addresses a file by a web path of
    the fixed pattern. *)
Lemma move_image_unfold_names B r (payload : gmap string string) w s g f d :
  is_name s = true -> is_name g = true -> is_name f = true -> is_name d = true ->
  payload !! "src" = Some (web_path s g f) ->
  payload !! "dest_person" = Some d ->
  move_image B r payload w =
  if negb (exists_ (tree w) (TEMP_ROOT B ++ [s; g; f]))
  then Raises (HTTPException 404 "Source file not found") w
  else
    match FS.mkdir true true (tree w) (TEMP_ROOT B ++ [s; d]) with
    | (t1, Some e) => Raises (OSError e) (World t1 (written w))
    | (t1, None) =>
        let f' := if exists_ t1 (TEMP_ROOT B ++ [s; d; f])
                  then (Py.splitext f).1 +:+ "_" +:+ Py.take 6 (Py.hex (Py.uuid4 r))
                       +:+ (Py.splitext f).2
                  else f in
        match shutil_move t1 (TEMP_ROOT B ++ [s; g; f]) (TEMP_ROOT B ++ [s; d; f']) with
        | Moved t =>
            Returns (JObj [("moved_to", JStr (web_path s d f'))]) (World t (written w))
        | MoveError => Raises ShutilError (World t1 (written w))
        | MoveOSError e => Raises (OSError e) (World t1 (written w))
        | MoveBeyond => Beyond
        end
    end.
Proof.
  intros Hs Hg Hf Hd Hsrc Hdest.
  pose proof (is_name_nonempty _ Hd) as Hdne.
  assert (web_path s g f <> EmptyString) as Hwne by done.
  unfold move_image. payload_fields.
  unfold web_path at 1. rewrite startswith_app. cbn [negb].
  rewrite split_web_path by done. cbn [List.length Nat.ltb Nat.leb nth List.last].
  pose proof (is_name_suffixed f r Hf) as Hf'.
  destruct (Py.splitext f) as [base ext] eqn:Hsplit. cbn [fst snd] in *.
  rewrite !joinpath_name, <- !app_assoc by done. cbn [app].
  unfold bind at 1, Sys.exists_ at 1, Sys.observe at 1. cbn [tree].
  destruct (exists_ (tree w) _); cbn [negb]; [|done].
  unfold bind at 1, Sys.mkdir at 1.
  destruct (FS.mkdir true true (tree w) _) as [t1 [e|]]; [done|]. cbn beta iota.
  unfold bind at 1, Sys.exists_ at 1, Sys.observe at 1. cbn [tree].
  destruct (exists_ t1 _).
  - unfold bind at 1, Sys.shutil_move at 1. cbn [tree written].
    destruct (shutil_move t1 _ _); try done. unfold ret, name. by rewrite last_three.
  - unfold bind at 1, Sys.shutil_move at 1. cbn [tree written].
    destruct (shutil_move t1 _ _); try done. unfold ret, name. by rewrite last_three.
Qed.



Lemma removelast_three {A} (l : list A) a b c : removelast (l ++ [a; b; c]) = l ++ [a; b].
Proof.
  change [a; b; c] with ([a; b] ++ [c]). by rewrite app_assoc, removelast_last.
Qed.

Lemma same_depth_prefix {A} (l : list A) a b c a' b' c' :
  (l ++ [a; b; c]) `prefix_of` (l ++ [a'; b'; c']) -> a = a' /\ b = b' /\ c = c'.
Proof.
  intros [k Hk]. rewrite <- app_assoc in Hk. apply app_inv_head in Hk.
  by injection Hk as -> -> -> _.
Qed.

(** The move of a file of a session onto a free name of a group
    directory of that session. *)
Lemma move_file_to_free B t1 s g f d f' data :
  Forall (fun c => is_name c = true) B ->
  is_name s = true -> is_name g = true -> is_name f = true -> is_name d = true ->
  is_name f' = true ->
  kind_at t1 (TEMP_ROOT B ++ [s; g; f]) = IsFile data ->
  kind_at t1 (TEMP_ROOT B ++ [s; d]) = IsDir ->
  kind_at t1 (TEMP_ROOT B ++ [s; d; f']) = Missing ->
  exists t,
    shutil_move t1 (TEMP_ROOT B ++ [s; g; f]) (TEMP_ROOT B ++ [s; d; f']) = Moved t /\
    kind_at t (TEMP_ROOT B ++ [s; d; f']) = IsFile data /\
    kind_at t (TEMP_ROOT B ++ [s; g; f]) = Missing /\
    forall P, P <> TEMP_ROOT B ++ [s; g; f] -> P <> TEMP_ROOT B ++ [s; d; f'] ->
              kind_at t P = kind_at t1 P.
Proof.
  intros HB Hs Hg Hf Hd Hf' Hsrc Hdir Hfree.
  set (sq := TEMP_ROOT B ++ [s; g; f]) in *. set (dq := TEMP_ROOT B ++ [s; d; f']) in *.
  assert (Forall (fun c => is_name c = true) sq) as Nsrc
    by (apply temp_names; by repeat constructor).
  assert (Forall (fun c => is_name c = true) dq) as Ndst
    by (apply temp_names; by repeat constructor).
  assert (sq <> []) as Hsne by (unfold sq; by destruct (TEMP_ROOT B)).
  assert (dq <> []) as Hdne by (unfold dq; by destruct (TEMP_ROOT B)).
  apply kind_at_file in Hsrc as Hls. apply kind_at_missing in Hfree as Hld.
  assert (kind_at t1 (removelast dq) = IsDir) as Hpar
    by (unfold dq; by rewrite removelast_three).
  assert (¬ sq `prefix_of` dq) as Hpre.
  { intros (_ & Hgd & Hff)%same_depth_prefix.
    assert (sq = dq) as E by (unfold sq, dq; by rewrite Hgd, Hff). congruence. }
  eexists. split; [by apply (shutil_move_fresh _ _ _ (File data))|].
  destruct (rename_fresh_effect t1 sq dq (File data)) as (Hto & Hgone & Helse); try done.
  split; [|split].
  - unfold kind_at. specialize (Hto []). rewrite !app_nil_r in Hto. by rewrite Hto, Hls.
  - by apply kind_at_missing.
  - intros P HPs HPd.
    destruct (decide (sq `prefix_of` P)) as [[k ->]|Hns].
    { destruct k as [|c k]; [by rewrite app_nil_r in HPs|].
      rewrite (kind_file_below t1 sq _ data) by done.
      apply kind_missing_below. by apply kind_at_missing. }
    destruct (decide (dq `prefix_of` P)) as [[k ->]|Hnd]; [|by apply Helse].
    destruct k as [|c k]; [by rewrite app_nil_r in HPd|].
    rewrite (kind_missing_below t1 dq) by done.
    unfold kind_at. rewrite Hto. fold (kind_at t1 (sq ++ c :: k)).
    by rewrite (kind_file_below t1 sq _ data).
Qed.

(** X16. Moving an image to another group where its name is free
    transfers it: the request returns the web path of the file in the
    destination group, the file is found there with its content and is
    no longer found in the group it left; the destination folder is made
    if it was missing, and every other path is as it was. No file is
    opened for writing. *)
Theorem move_image_transfers B r (payload : gmap string string) w s g f d data :
  Forall (fun c => is_name c = true) B ->
  is_name s = true -> is_name g = true -> is_name f = true -> is_name d = true ->
  payload !! "src" = Some (web_path s g f) ->
  payload !! "dest_person" = Some d ->
  kind_at (tree w) (TEMP_ROOT B ++ [s; g; f]) = IsFile data ->
  (forall x, kind_at (tree w) (TEMP_ROOT B ++ [s; d]) <> IsFile x) ->
  kind_at (tree w) (TEMP_ROOT B ++ [s; d; f]) = Missing ->
  exists w',
    move_image B r payload w = Returns (JObj [("moved_to", JStr (web_path s d f))]) w' /\
    kind_at (tree w') (TEMP_ROOT B ++ [s; d; f]) = IsFile data /\
    kind_at (tree w') (TEMP_ROOT B ++ [s; g; f]) = Missing /\
    kind_at (tree w') (TEMP_ROOT B ++ [s; d]) = IsDir /\
    (forall P, P <> TEMP_ROOT B ++ [s; g; f] -> P <> TEMP_ROOT B ++ [s; d; f] ->
               P <> TEMP_ROOT B ++ [s; d] -> kind_at (tree w') P = kind_at (tree w) P) /\
    written w' = written w.
Proof.
  intros HB Hs Hg Hf Hd Hsrc Hdest Hfile Hnofile Hfree.
  rewrite (move_image_unfold_names B r payload w s g f d) by done.
  assert (Forall (fun c => is_name c = true) (TEMP_ROOT B ++ [s; g; f])) as Nsrc
    by (apply temp_names; by repeat constructor).
  assert (Forall (fun c => is_name c = true) (TEMP_ROOT B ++ [s; d; f])) as Ndst
    by (apply temp_names; by repeat constructor).
  assert (Forall (fun c => is_name c = true) (TEMP_ROOT B ++ [s; d])) as Ndir
    by (apply temp_names; by repeat constructor).
  assert (Forall (fun c => is_name c = true) (TEMP_ROOT B ++ [s])) as Nses
    by (apply temp_names; by repeat constructor).
  apply kind_at_file in Hfile as Hlsrc.
  assert (exists_ (tree w) (TEMP_ROOT B ++ [s; g; f]) = true) as ->
    by (apply exists_true; eexists _, _; by apply stat_names_entry).
  cbn [negb].
  assert (kind_at (tree w) (TEMP_ROOT B ++ [s]) = IsDir) as Hses.
  { change [s; g; f] with ([s] ++ [g; f]) in Hlsrc. rewrite app_assoc in Hlsrc.
    by eapply lookup_prefix_dir. }
  destruct (mkdir_in_dir (tree w) (TEMP_ROOT B ++ [s]) d Nses Hd Hses) as [t1 Hmk].
  { by rewrite <- app_assoc. }
  rewrite <- app_assoc in Hmk. cbn [app] in Hmk.
  pose proof (mkdir_grows true true (tree w) (TEMP_ROOT B ++ [s; d])) as Hgrow.
  pose proof (mkdir_names_only true (tree w) _ Ndir) as Honly.
  pose proof (mkdir_is_dir _ _ _ _ _ Hmk) as Hisdir.
  rewrite Hmk in *. cbn [fst] in *.
  apply is_dir_names_kind in Hisdir; [|done].
  assert (forall P, P <> TEMP_ROOT B ++ [s; d] -> kind_at t1 P = kind_at (tree w) P) as Hsame.
  { intros P HP. destruct (kind_at (tree w) P) eqn:HkP;
      [|rewrite Hgrow; by rewrite HkP..].
    destruct (decide (P `prefix_of` (TEMP_ROOT B ++ [s; d]))) as [[k Hk]|Hn];
      [|by rewrite Honly].
    destruct k as [|c k] using rev_ind; [by rewrite app_nil_r in Hk|].
    clear IHk. rewrite app_assoc in Hk.
    change [s; d] with ([s] ++ [d]) in Hk. rewrite (app_assoc _ [s] [d]) in Hk.
    apply app_inj_tail in Hk as [Hk _].
    assert (kind_at (tree w) (P ++ k) = IsDir) as HPk by (by rewrite <- Hk).
    apply kind_at_dir in HPk as [m Hm].
    destruct k as [|c' k']; [rewrite app_nil_r in Hm; apply kind_at_missing in HkP; congruence|].
    pose proof (lookup_prefix_dir _ _ _ _ Hm ltac:(done)) as HP'. congruence. }
  assert (kind_at t1 (TEMP_ROOT B ++ [s; g; f]) = IsFile data) as Hfile1.
  { rewrite Hsame; [done|]. intros E. apply (f_equal List.length) in E.
    rewrite !length_app in E. simpl in E. lia. }
  assert (kind_at t1 (TEMP_ROOT B ++ [s; d; f]) = Missing) as Hfree1.
  { rewrite Hsame; [done|]. intros E. apply (f_equal List.length) in E.
    rewrite !length_app in E. simpl in E. lia. }
  rewrite (exists_false_of_missing t1 (TEMP_ROOT B ++ [s; d; f]))
    by (rewrite normalize_names by done; by apply kind_at_missing).
  cbv zeta.
  destruct (move_file_to_free B t1 s g f d f data) as (t & -> & Hnew & Hold & Helse);
    try done.
  eexists. split; [done|]. cbn [tree written].
  split; [done|]. split; [done|]. split; [|split; [|done]].
  - rewrite Helse; [done|..]; intros E; apply (f_equal List.length) in E;
      rewrite !length_app in E; simpl in E; lia.
  - intros P H1 H2 H3. rewrite Helse by done. by apply Hsame.
Qed.

Lemma move_image_transfers_witness :
  exists w',
    move_image Ex.B 0 (Ex.move_request (web_path Ex.sid "person_0" "f0_p0.jpg") "kept")
               Ex.ingested =
      Returns (JObj [("moved_to", JStr (web_path Ex.sid "kept" "f0_p0.jpg"))]) w' /\
    kind_at (tree w') (TEMP_ROOT Ex.B ++ [Ex.sid; "kept"; "f0_p0.jpg"]) =
      IsFile (Jpeg (Crop (Frame 100 200 0) 0 50 0 50)) /\
    kind_at (tree w') (TEMP_ROOT Ex.B ++ [Ex.sid; "person_0"; "f0_p0.jpg"]) = Missing.
Proof.
  destruct (move_image_transfers Ex.B 0
              (Ex.move_request (web_path Ex.sid "person_0" "f0_p0.jpg") "kept")
              Ex.ingested Ex.sid "person_0" "f0_p0.jpg" "kept"
              (Jpeg (Crop (Frame 100 200 0) 0 50 0 50)))
    as (w' & Heq & Hnew & Hold & _);
    [apply Ex_B_names|vm_compute; reflexivity..| |vm_compute; reflexivity|].
  { intros x. vm_compute. discriminate. }
  exists w'. split; [exact Heq|]. split; [exact Hnew|exact Hold].
Defined.

(** X17. When the name of the image is taken in the destination group
    and the name with the suffix is free, the image is stored under
    [<base>_<suffix><ext>], the suffix being the first six hexadecimal
    digits of a fresh uuid: the request returns that web path, the file
    is found under it with its content and no longer where it was, and
    every other path, the file that held the name included, is as it
    was. Moving an image to the group it is in falls under this case:
    it is renamed with a suffix. *)
Theorem move_image_suffixes_on_collision B r (payload : gmap string string) w s g f d data :
  Forall (fun c => is_name c = true) B ->
  is_name s = true -> is_name g = true -> is_name f = true -> is_name d = true ->
  payload !! "src" = Some (web_path s g f) ->
  payload !! "dest_person" = Some d ->
  kind_at (tree w) (TEMP_ROOT B ++ [s; g; f]) = IsFile data ->
  kind_at (tree w) (TEMP_ROOT B ++ [s; d; f]) <> Missing ->
  let suffix := Py.take 6 (Py.hex (Py.uuid4 r)) in
  let f' := (Py.splitext f).1 +:+ "_" +:+ suffix +:+ (Py.splitext f).2 in
  kind_at (tree w) (TEMP_ROOT B ++ [s; d; f']) = Missing ->
  String.length suffix = 6%nat /\ Py.all_chars Py.is_hex suffix = true /\
  exists w',
    move_image B r payload w = Returns (JObj [("moved_to", JStr (web_path s d f'))]) w' /\
    kind_at (tree w') (TEMP_ROOT B ++ [s; d; f']) = IsFile data /\
    kind_at (tree w') (TEMP_ROOT B ++ [s; g; f]) = Missing /\
    (forall P, P <> TEMP_ROOT B ++ [s; g; f] -> P <> TEMP_ROOT B ++ [s; d; f'] ->
               kind_at (tree w') P = kind_at (tree w) P) /\
    written w' = written w.
Proof.
  intros HB Hs Hg Hf Hd Hsrc Hdest Hfile Htaken suffix f' Hfree.
  split; [unfold suffix, Py.take; rewrite substring_take_length; [done|rewrite hex_length; lia]|].
  split; [apply all_chars_substring, hex_chars|].
  rewrite (move_image_unfold_names B r payload w s g f d) by done.
  assert (Forall (fun c => is_name c = true) (TEMP_ROOT B ++ [s; g; f])) as Nsrc
    by (apply temp_names; by repeat constructor).
  assert (Forall (fun c => is_name c = true) (TEMP_ROOT B ++ [s; d; f])) as Ndst
    by (apply temp_names; by repeat constructor).
  assert (Forall (fun c => is_name c = true) (TEMP_ROOT B ++ [s; d])) as Ndir
    by (apply temp_names; by repeat constructor).
  apply kind_at_file in Hfile as Hlsrc.
  assert (exists_ (tree w) (TEMP_ROOT B ++ [s; g; f]) = true) as ->
    by (apply exists_true; eexists _, _; by apply stat_names_entry).
  cbn [negb].
  destruct (lookup_path (tree w) (TEMP_ROOT B ++ [s; d; f])) as [n|] eqn:Hn;
    [|by apply kind_at_missing in Hn].
  assert (kind_at (tree w) (TEMP_ROOT B ++ [s; d]) = IsDir) as Hdir.
  { change [s; d; f] with ([s; d] ++ [f]) in Hn. rewrite app_assoc in Hn.
    by eapply lookup_prefix_dir. }
  rewrite mkdir_existing by (by apply is_dir_names_kind).
  assert (exists_ (tree w) (TEMP_ROOT B ++ [s; d; f]) = true) as ->
    by (apply exists_true; eexists _, _; by apply stat_names_entry).
  cbv zeta. fold suffix f'.
  destruct (move_file_to_free B (tree w) s g f d f' data) as (t & -> & Hnew & Hold & Helse);
    try done.
  { apply is_name_suffixed. done. }
  eexists. split; [done|]. by cbn [tree written].
Qed.

Lemma move_image_suffixes_on_collision_witness :
  exists w',
    move_image Ex.B (11259375 * 2 ^ 104) Ex.move_clash Ex.crowded =
      Returns (JObj [("moved_to", JStr (web_path Ex.sid "person_1" "f0_p0_abcdef.jpg"))]) w' /\
    kind_at (tree w') (TEMP_ROOT Ex.B ++ [Ex.sid; "person_1"; "f0_p0.jpg"]) =
      IsFile (Blob "other") /\
    kind_at (tree w') (TEMP_ROOT Ex.B ++ [Ex.sid; "person_1"; "f0_p0_000000.jpg"]) =
      IsFile (Blob "keep me").
Proof.
  destruct (move_image_suffixes_on_collision Ex.B (11259375 * 2 ^ 104) Ex.move_clash
              Ex.crowded Ex.sid "person_0" "f0_p0.jpg" "person_1"
              (Jpeg (Crop (Frame 100 200 0) 0 50 0 50)))
    as (_ & _ & w' & Heq & _ & _ & Helse & _);
    [apply Ex_B_names|vm_compute; reflexivity..|vm_compute; discriminate
    |vm_compute; reflexivity|].
  exists w'. split; [exact Heq|].
  split; (rewrite Helse; [vm_compute; reflexivity|vm_compute; discriminate..]).
Defined.

(** ** Add person *)

Lemma update_cons_snoc a q c x m :
  update (a :: q ++ [c]) x (Dir m) = Dir (alter (update (q ++ [c]) x) a m).
Proof. rewrite update_cons_dir. by destruct q. Qed.

Lemma lookup_update_parent q c x fs m :
  lookup_path fs q = Some (Dir m) ->
  lookup_path (update (q ++ [c]) x fs) q = Some (Dir (partial_alter (fun _ => x) c m)).
Proof.
  revert fs. induction q as [|a q IH]; intros fs Hl.
  - simpl in Hl. injection Hl as ->. done.
  - destruct fs as [d|m0]; [done|]. simpl in Hl.
    destruct (m0 !! a) as [n'|] eqn:Ha; [|done].
    change ((a :: q) ++ [c]) with (a :: q ++ [c]). rewrite update_cons_snoc.
    simpl. rewrite lookup_alter_eq, Ha. simpl. by apply IH.
Qed.

Lemma is_dir_exists fs p : is_dir fs p = true -> exists_ fs p = true.
Proof. intros (q & m & Hs)%is_dir_true. apply exists_true. eauto. Qed.

(** [mkdir] of a new entry of an existing path. *)
Lemma mkdir_new_child fs p c x ok t :
  Forall (fun c => is_name c = true) p -> is_name c = true ->
  lookup_path fs p = Some x -> exists_ fs (p ++ [c]) = false ->
  FS.mkdir true ok fs (p ++ [c]) = (t, None) ->
  exists m, x = Dir m /\ m !! c = None /\ t = update (p ++ [c]) (Some (Dir ∅)) fs.
Proof.
  intros Hp Hc Hl Hex. unfold FS.mkdir.
  rewrite mkdir_parents_unfold, rev_involutive.
  assert (is_dir fs (p ++ [c]) = false) as Hnd.
  { destruct (is_dir fs (p ++ [c])) eqn:E; [|done]. apply is_dir_exists in E. congruence. }
  unfold os_mkdir. rewrite walk_app, (walk_names_to_entry _ _ _ Hp Hl). simpl. rewrite Hl.
  destruct x as [d|m].
  - by rewrite Hnd, andb_false_r.
  - rewrite (is_name_not_dotdot c Hc).
    unfold exists_, stat in Hex. rewrite walk_app, (walk_names_to_entry _ _ _ Hp Hl) in Hex.
    simpl in Hex. rewrite Hl, (is_name_not_dotdot c Hc) in Hex.
    destruct (lookup_path fs (p ++ [c])) eqn:Hpc; [done|].
    intros [= <-]. exists m. split; [done|]. split; [|done].
    by rewrite lookup_path_snoc, Hl in Hpc.
Qed.

Lemma mkdir_new_child_ok fs p c m ok :
  Forall (fun c => is_name c = true) p -> is_name c = true ->
  lookup_path fs p = Some (Dir m) -> m !! c = None ->
  exists_ fs (p ++ [c]) = false /\
  FS.mkdir true ok fs (p ++ [c]) = (update (p ++ [c]) (Some (Dir ∅)) fs, None).
Proof.
  intros Hp Hc Hl Hm.
  assert (exists_ fs (p ++ [c]) = false) as Hex.
  { apply exists_false_of_missing. rewrite normalize_names by (by apply names_snoc).
    by rewrite lookup_path_snoc, Hl. }
  split; [done|].
  destruct (mkdir_child fs p p m c ok) as [t Ht]; [by apply stat_names_entry|done..|].
  rewrite Ht. by destruct (mkdir_new_child _ _ _ _ _ _ Hp Hc Hl Hex Ht) as (? & _ & _ & ->).
Qed.

(** The creation of the folder, once the name is chosen. *)
Lemma add_person_folder B w s new_name :
  Forall (fun c => is_name c = true) B -> is_name s = true -> is_name new_name = true ->
  exists_ (tree w) (TEMP_ROOT B // s) = true ->
  (let new_folder := TEMP_ROOT B // s // new_name in
   do taken <- Sys.exists_ new_folder;
   if taken then raise (HTTPException 400 "Person folder exists") else
   Sys.mkdir true false new_folder ;; ret (JObj [("person", JStr new_name)])) w =
  match lookup_path (tree w) (TEMP_ROOT B ++ [s]) with
  | Some (Dir m) =>
      match m !! new_name with
      | Some _ => Raises (HTTPException 400 "Person folder exists") w
      | None =>
          Returns (JObj [("person", JStr new_name)])
                  (World (update (TEMP_ROOT B ++ [s; new_name]) (Some (Dir ∅)) (tree w))
                         (written w))
      end
  | _ => Raises (OSError ENOTDIR) w
  end.
Proof.
  intros HB Hs Hn Hex. cbv zeta. rewrite !joinpath_name in * by done.
  assert (Forall (fun c => is_name c = true) (TEMP_ROOT B ++ [s])) as Nses
    by (apply temp_names; by repeat constructor).
  apply exists_true in Hex as (q & x & [_ Hl]%stat_names); [|done].
  rewrite Hl. unfold_sys. destruct x as [d|m].
  - assert (exists_ (tree w) ((TEMP_ROOT B ++ [s]) ++ [new_name]) = false) as ->.
    { apply exists_false_of_missing. rewrite normalize_names by (by apply names_snoc).
      by rewrite lookup_path_snoc, Hl. }
    unfold Sys.mkdir, FS.mkdir. rewrite mkdir_parents_unfold, rev_involutive.
    unfold os_mkdir. rewrite walk_app, (walk_names_to_entry _ _ _ Nses Hl). simpl.
    rewrite Hl. cbn [andb]. by destruct w.
  - destruct (m !! new_name) as [n|] eqn:Hm.
    + assert (exists_ (tree w) ((TEMP_ROOT B ++ [s]) ++ [new_name]) = true) as ->; [|done].
      apply exists_true. eexists _, n. apply stat_names_entry; [by apply names_snoc|].
      by rewrite lookup_path_snoc, Hl.
    + destruct (mkdir_new_child_ok (tree w) _ new_name m false Nses Hn Hl Hm) as [-> Hmk].
      unfold Sys.mkdir. rewrite Hmk. by rewrite <- app_assoc.
Qed.

(** X18. Whatever the request, [add_person] removes and changes nothing
    and opens no file for writing; it never leaves the model. When it
    returns, it returns the name of a folder that did not exist and is
    now a directory of the session; when it fails with one of its own
    400 or 404 answers the store is exactly as it was. *)
Theorem add_person_only_adds B (payload : gmap string string) w :
  match add_person B payload w with
  | Returns j w' =>
      grows (tree w) (tree w') /\ written w' = written w /\
      exists name,
        j = JObj [("person", JStr name)] /\
        let new_folder := TEMP_ROOT B // the (payload !! "session_id") // name in
        exists_ (tree w) new_folder = false /\ is_dir (tree w') new_folder = true
  | Raises e w' =>
      grows (tree w) (tree w') /\ written w' = written w /\
      forall code detail, e = HTTPException code detail -> w' = w
  | Beyond => False
  end.
Proof.
  unfold add_person.
  destruct (truthy_opt (payload !! "session_id")); cbn [negb];
    [|split; [apply grows_refl|done]].
  unfold bind at 1, Sys.exists_ at 1, Sys.observe at 1. cbn [tree].
  destruct (exists_ (tree w) _); cbn [negb]; [|split; [apply grows_refl|done]].
  assert (forall new_name,
    match (let new_folder := TEMP_ROOT B // the (payload !! "session_id") // new_name in
           do taken <- Sys.exists_ new_folder;
           if taken then raise (HTTPException 400 "Person folder exists") else
           Sys.mkdir true false new_folder ;; ret (JObj [("person", JStr new_name)])) w with
    | Returns j w' =>
        grows (tree w) (tree w') /\ written w' = written w /\
        exists name,
          j = JObj [("person", JStr name)] /\
          let new_folder := TEMP_ROOT B // the (payload !! "session_id") // name in
          exists_ (tree w) new_folder = false /\ is_dir (tree w') new_folder = true
    | Raises e w' =>
        grows (tree w) (tree w') /\ written w' = written w /\
        forall code detail, e = HTTPException code detail -> w' = w
    | Beyond => False
    end) as Hrest.
  { intros new_name. unfold_sys.
    destruct (exists_ (tree w) _) eqn:Hex; [split; [apply grows_refl|done]|].
    unfold Sys.mkdir.
    match goal with |- context [FS.mkdir true false (tree w) ?p] =>
      pose proof (mkdir_grows true false (tree w) p) as Hg;
      pose proof (mkdir_is_dir true false (tree w) p) as Hd;
      destruct (FS.mkdir true false (tree w) p) as [t [e|]] end; cbn [tree written fst] in *.
    - by split.
    - split; [done|]. split; [done|]. exists new_name. split; [done|]. cbv zeta.
      split; [done|]. by eapply Hd. }
  destruct (truthy_opt (payload !! "name")).
  - unfold bind at 1, ret at 1. apply Hrest.
  - unfold bind at 1. unfold bind at 1, Sys.iterdir.
    destruct (iterdir (tree w) _); [split; [apply grows_refl|done]|].
    unfold ret at 1. apply Hrest.
Qed.

Lemma add_person_folder_returns B w s new_name n w' :
  Forall (fun c => is_name c = true) B -> is_name s = true -> is_name n = true ->
  exists_ (tree w) (TEMP_ROOT B // s) = true ->
  (let new_folder := TEMP_ROOT B // s // new_name in
   do taken <- Sys.exists_ new_folder;
   if taken then raise (HTTPException 400 "Person folder exists") else
   Sys.mkdir true false new_folder ;; ret (JObj [("person", JStr new_name)])) w =
  Returns (JObj [("person", JStr n)]) w' ->
  exists m,
    lookup_path (tree w) (TEMP_ROOT B ++ [s]) = Some (Dir m) /\ m !! n = None /\
    w' = World (update (TEMP_ROOT B ++ [s; n]) (Some (Dir ∅)) (tree w)) (written w).
Proof.
  intros HB Hs Hn Hex Hret.
  assert (new_name = n) as ->.
  { revert Hret. cbv zeta. unfold_sys.
    destruct (exists_ (tree w) (TEMP_ROOT B // s // new_name)); [done|].
    unfold Sys.mkdir. destruct (FS.mkdir _ _ _ _) as [t [e|]]; [done|]. by intros [= ->]. }
  rewrite add_person_folder in Hret by done.
  destruct (lookup_path (tree w) (TEMP_ROOT B ++ [s])) as [[d|m]|]; try done.
  destruct (m !! n) eqn:Hm; [done|]. injection Hret as <-. by exists m.
Qed.

Local Abbreviation person_folders m :=
  (map fst (filter (fun p : string * node => is_dir_node p.2 && Py.startswith "person_" p.1)
                   (map_to_list m))).

Lemma person_folders_spec (m : gmap string node) e :
  e ∈ person_folders m <->
  exists files, m !! e = Some (Dir files) /\ Py.startswith "person_" e = true.
Proof.
  rewrite list_elem_of_fmap. split.
  - intros ([e' n'] & -> & [Hp Hm]%list_elem_of_filter). simpl in *.
    apply elem_of_map_to_list in Hm. apply andb_prop_elim in Hp as [Hd Hp].
    destruct n' as [d|files]; [done|]. exists files. split; [done|].
    by apply Is_true_true.
  - intros (files & Hm & Hp). exists (e, Dir files). split; [done|].
    apply list_elem_of_filter. split; [|by apply elem_of_map_to_list].
    simpl. by rewrite Hp.
Qed.

(** The handler on a request without a name, for a session id that is
    a single path component. *)
Lemma add_person_auto_names B (payload : gmap string string) w sid :
  Forall (fun c => is_name c = true) B -> is_name sid = true ->
  payload !! "session_id" = Some sid -> truthy_opt (payload !! "name") = false ->
  add_person B payload w =
  match lookup_path (tree w) (TEMP_ROOT B ++ [sid]) with
  | None => Raises (HTTPException 404 "Session not found") w
  | Some (File _) => Raises (OSError ENOTDIR) w
  | Some (Dir m) =>
      let k := next_index 0 (person_folders m) in
      match m !! ("person_" +:+ Py.str k) with
      | Some _ => Raises (HTTPException 400 "Person folder exists") w
      | None =>
          Returns (JObj [("person", JStr ("person_" +:+ Py.str k))])
                  (World (update (TEMP_ROOT B ++ [sid; "person_" +:+ Py.str k])
                                 (Some (Dir ∅)) (tree w))
                         (written w))
      end
  end.
Proof.
  intros HB Hsid Hs Hn.
  assert (Forall (fun c => is_name c = true) (TEMP_ROOT B ++ [sid])) as Nses
    by (apply temp_names; by repeat constructor).
  pose proof (is_name_nonempty _ Hsid) as Hsne.
  unfold add_person. payload_fields. rewrite Hn.
  unfold bind at 1, Sys.exists_ at 1, Sys.observe at 1. cbn [tree].
  destruct (lookup_path (tree w) (TEMP_ROOT B ++ [sid])) as [x|] eqn:Hl; cycle 1.
  { rewrite exists_false_of_missing; [done|].
    by rewrite joinpath_name, normalize_names by done. }
  assert (exists_ (tree w) (TEMP_ROOT B // sid) = true) as Hex.
  { apply exists_true. rewrite joinpath_name by done. eexists _, x.
    by apply stat_names_entry. }
  rewrite Hex. cbn [negb].
  unfold bind at 1. unfold bind at 1, Sys.iterdir, iterdir.
  rewrite joinpath_name by done. rewrite (stat_names_entry _ _ _ Nses Hl).
  destruct x as [d|m]; [done|]. unfold ret at 1. cbv zeta.
  rewrite <- (joinpath_name _ _ Hsid).
  rewrite (add_person_folder B w sid _ HB Hsid (is_name_person _) Hex).
  by rewrite Hl.
Qed.

Lemma index_of_person k : index_of_name ("person_" +:+ Py.str k) = Some k.
Proof. apply (index_of_name_numbered "person" k eq_refl). Qed.

Lemma person_name_inj k k' : "person_" +:+ Py.str k = "person_" +:+ Py.str k' -> k = k'.
Proof.
  intros E. pose proof (index_of_person k) as H1. rewrite E, index_of_person in H1.
  congruence.
Qed.

(** X19. Two create-group requests without a name, one after the other,
    get consecutive names: when the first returns [person_<k>], the
    second returns [person_<k+1>], unless a regular file of that name
    lies in the session. *)
Theorem add_person_auto_increments B (payload : gmap string string) w sid j w1 :
  Forall (fun c => is_name c = true) B -> is_name sid = true ->
  payload !! "session_id" = Some sid -> truthy_opt (payload !! "name") = false ->
  add_person B payload w = Returns j w1 ->
  exists k,
    0 <= k /\ j = JObj [("person", JStr ("person_" +:+ Py.str k))] /\
    ((forall d, kind_at (tree w) (TEMP_ROOT B ++ [sid; "person_" +:+ Py.str (k + 1)])
                <> IsFile d) ->
     exists w2,
       add_person B payload w1 =
       Returns (JObj [("person", JStr ("person_" +:+ Py.str (k + 1)))]) w2).
Proof.
  intros HB Hsid Hs Hn Hret.
  rewrite (add_person_auto_names B payload w sid) in Hret by done.
  destruct (lookup_path (tree w) (TEMP_ROOT B ++ [sid])) as [[d|m]|] eqn:Hl; try done.
  cbv zeta in Hret. set (k := next_index 0 (person_folders m)) in *.
  destruct (m !! ("person_" +:+ Py.str k)) eqn:Hk; [done|]. injection Hret as <- <-.
  exists k. split; [apply next_index_ge_start|]. split; [done|]. intros Hnofile.
  rewrite (add_person_auto_names B payload _ sid) by done. cbn [tree written].
  change [sid; "person_" +:+ Py.str k] with ([sid] ++ ["person_" +:+ Py.str k]).
  rewrite app_assoc, (lookup_update_parent _ _ _ _ m Hl). cbv zeta.
  set (m1 := partial_alter _ _ m).
  assert (forall e, m1 !! e = if decide (e = "person_" +:+ Py.str k) then Some (Dir ∅)
                              else m !! e) as Hm1.
  { intros e. unfold m1. destruct (decide _) as [->|Hne].
    - by rewrite lookup_partial_alter_eq.
    - by rewrite lookup_partial_alter_ne. }
  assert (next_index 0 (person_folders m1) = k + 1) as ->.
  { apply Z.le_antisymm.
    - destruct (next_index_attained 0 (person_folders m1)) as [->|(e & n & He & Hi & ->)].
      { pose proof (next_index_ge_start 0 (person_folders m)). fold k in H. lia. }
      apply person_folders_spec in He as (files & He & Hp). rewrite Hm1 in He.
      destruct (decide _) as [->|Hne].
      + rewrite index_of_person in Hi. injection Hi as <-. lia.
      + assert (e ∈ person_folders m) as Hin by (apply person_folders_spec; eauto).
        pose proof (next_index_ge 0 _ _ _ Hin Hi). fold k in H. lia.
    - apply (next_index_ge 0 _ ("person_" +:+ Py.str k) k); [|apply index_of_person].
      apply person_folders_spec. exists ∅. rewrite Hm1, decide_True by done.
      split; [done|]. apply startswith_app. }
  rewrite Hm1, decide_False by (intros E%person_name_inj; lia).
  destruct (m !! ("person_" +:+ Py.str (k + 1))) as [[d|files]|] eqn:Hk1.
  - destruct (Hnofile d). unfold kind_at.
    change [sid; "person_" +:+ Py.str (k + 1)] with ([sid] ++ ["person_" +:+ Py.str (k + 1)]).
    by rewrite app_assoc, lookup_path_snoc, Hl, Hk1.
  - assert (("person_" +:+ Py.str (k + 1)) ∈ person_folders m) as Hin.
    { apply person_folders_spec. exists files. split; [done|]. apply startswith_app. }
    pose proof (next_index_ge 0 _ _ _ Hin (index_of_person (k + 1))).
    fold k in H. lia.
  - by eexists.
Qed.

Lemma add_person_auto_increments_witness :
  exists w1 w2,
    add_person Ex.B (Ex.session_request "s") Ex.one_group =
      Returns (JObj [("person", JStr "person_1")]) w1 /\
    add_person Ex.B (Ex.session_request "s") w1 =
      Returns (JObj [("person", JStr "person_2")]) w2.
Proof.
  destruct (add_person_auto_increments Ex.B (Ex.session_request "s") Ex.one_group "s"
              (JObj [("person", JStr "person_1")])
              (run (add_person Ex.B (Ex.session_request "s")) Ex.one_group))
    as (k & _ & Hj & Hnext);
    [apply Ex_B_names|vm_compute; reflexivity..|].
  assert (k = 1) as ->.
  { apply (person_name_inj k 1). injection Hj as E.
    change ("person_" +:+ Py.str k) with ("person_" +:+ (EmptyString +:+ Py.str k)).
    by rewrite <- E. }
  destruct Hnext as [w2 H2]; [intros d; vm_compute; discriminate|].
  eexists _, w2. split; [vm_compute; reflexivity|exact H2].
Defined.

Lemma add_person_returns_tree B (payload : gmap string string) w sid n w' :
  Forall (fun c => is_name c = true) B -> is_name sid = true -> is_name n = true ->
  payload !! "session_id" = Some sid ->
  add_person B payload w = Returns (JObj [("person", JStr n)]) w' ->
  exists m,
    lookup_path (tree w) (TEMP_ROOT B ++ [sid]) = Some (Dir m) /\ m !! n = None /\
    w' = World (update (TEMP_ROOT B ++ [sid; n]) (Some (Dir ∅)) (tree w)) (written w).
Proof.
  intros HB Hsid Hn Hs. pose proof (is_name_nonempty _ Hsid) as Hsne.
  unfold add_person. payload_fields.
  unfold bind at 1, Sys.exists_ at 1, Sys.observe at 1. cbn [tree].
  destruct (exists_ (tree w) (TEMP_ROOT B // sid)) eqn:Hex; cbn [negb]; [|done].
  destruct (truthy_opt (payload !! "name")).
  - unfold bind at 1, ret at 1. by apply add_person_folder_returns.
  - unfold bind at 1. unfold bind at 1, Sys.iterdir.
    destruct (iterdir (tree w) _); [done|].
    unfold ret at 1. by apply add_person_folder_returns.
Qed.

Lemma list_images_empty sid g : list_images sid g (map_to_list (∅ : gmap string node)) = [].
Proof. by rewrite map_to_list_empty. Qed.

Lemma list_session_persons_of_dir B sid w (m : gmap string node) :
  Forall (fun c => is_name c = true) B -> is_name sid = true ->
  lookup_path (tree w) (TEMP_ROOT B ++ [sid]) = Some (Dir m) ->
  exists out,
    list_session_persons B sid w = Returns out w /\
    forall g imgs,
      (g, imgs) ∈ out <->
      exists files, m !! g = Some (Dir files) /\ imgs = list_images sid g (map_to_list files).
Proof.
  intros HB Hsid Hl.
  assert (Forall (fun c => is_name c = true) (TEMP_ROOT B ++ [sid])) as Nses
    by (apply temp_names; by repeat constructor).
  pose proof (stat_names_entry _ _ _ Nses Hl) as Hst.
  rewrite <- (joinpath_name _ _ Hsid) in Hst.
  rewrite list_session_persons_unfold.
  assert (exists_ (tree w) (TEMP_ROOT B // sid) = true) as -> by (apply exists_true; eauto).
  cbn [negb]. rewrite Hst. eexists. split; [done|].
  intros g imgs. rewrite list_elem_of_omap. split.
  - intros ([g' n] & Hin & Hf). simpl in Hf.
    apply sorted_entries_elem, elem_of_map_to_list in Hin.
    destruct n as [d|files]; [done|]. injection Hf as <- <-. by exists files.
  - intros (files & Hm & ->). exists (g, Dir files). split; [|done].
    by apply sorted_entries_elem, elem_of_map_to_list.
Qed.

(** X20. A group that was just created is listed, empty, and the
    listing is otherwise what it was: after a create-group request that
    returned the name [n] (a single path component, as is the session
    id), the listing of the session holds [n] with no images, besides
    exactly the groups and images it held before; [n] was not among
    them. *)
Theorem add_person_then_listed B (payload : gmap string string) w sid n w' :
  Forall (fun c => is_name c = true) B -> is_name sid = true -> is_name n = true ->
  payload !! "session_id" = Some sid ->
  add_person B payload w = Returns (JObj [("person", JStr n)]) w' ->
  exists out out',
    list_session_persons B sid w = Returns out w /\
    list_session_persons B sid w' = Returns out' w' /\
    (n ∉ map fst out) /\
    forall g imgs, (g, imgs) ∈ out' <-> (g = n /\ imgs = []) \/ (g, imgs) ∈ out.
Proof.
  intros HB Hsid Hn Hs Hret.
  destruct (add_person_returns_tree B payload w sid n w' HB Hsid Hn Hs Hret)
    as (m & Hl & Hm & ->).
  destruct (list_session_persons_of_dir B sid w m HB Hsid Hl) as (out & Hout & Hiff).
  assert (lookup_path (update (TEMP_ROOT B ++ [sid; n]) (Some (Dir ∅)) (tree w))
                      (TEMP_ROOT B ++ [sid]) = Some (Dir (<[n := Dir ∅]> m))) as Hl'.
  { change [sid; n] with ([sid] ++ [n]). rewrite app_assoc.
    by rewrite (lookup_update_parent _ _ _ _ m Hl). }
  destruct (list_session_persons_of_dir B sid (World _ (written w)) _ HB Hsid Hl')
    as (out' & Hout' & Hiff').
  exists out, out'. split; [done|]. split; [done|]. split.
  - intros ([g imgs] & -> & (files & Hg & _)%Hiff)%list_elem_of_fmap. simpl in Hm. congruence.
  - intros g imgs. rewrite Hiff', Hiff. split.
    + intros (files & Hg & ->). destruct (decide (g = n)) as [->|Hne].
      * rewrite lookup_insert_eq in Hg. injection Hg as <-. left.
        by rewrite list_images_empty.
      * rewrite lookup_insert_ne in Hg by done. right. by exists files.
    + intros [[-> ->]|(files & Hg & ->)].
      * exists ∅. by rewrite lookup_insert_eq, list_images_empty.
      * exists files. split; [|done]. rewrite lookup_insert_ne; [done|]. congruence.
Qed.

Lemma add_person_then_listed_witness :
  let w' := run (add_person Ex.B (Ex.named_request Ex.sid "new group")) Ex.ingested in
  add_person Ex.B (Ex.named_request Ex.sid "new group") Ex.ingested =
    Returns (JObj [("person", JStr "new_group")]) w' /\
  exists out',
    list_session_persons Ex.B Ex.sid w' = Returns out' w' /\
    ("new_group", []) ∈ out'.
Proof.
  cbv zeta.
  assert (add_person Ex.B (Ex.named_request Ex.sid "new group") Ex.ingested =
          Returns (JObj [("person", JStr "new_group")])
                  (run (add_person Ex.B (Ex.named_request Ex.sid "new group")) Ex.ingested))
    as Heq by (vm_compute; reflexivity).
  split; [exact Heq|].
  assert (is_name Ex.sid = true) as Hsid by (vm_compute; reflexivity).
  assert (Ex.named_request Ex.sid "new group" !! "session_id" = Some Ex.sid) as Hs
    by (vm_compute; reflexivity).
  destruct (add_person_then_listed Ex.B _ Ex.ingested Ex.sid "new_group" _
              Ex_B_names Hsid eq_refl Hs Heq)
    as (out & out' & _ & Hl' & _ & Hiff).
  exists out'. split; [exact Hl'|]. apply Hiff. left. split; reflexivity.
Defined.

(** ** The person map *)

Lemma maps_ret {A} (P : list (string * list string) -> Prop) (a : A) R :
  maps P (ret a) (fun _ => P) R.
Proof. by intros s Hs. Qed.

Lemma maps_conseq {A} (P P' : list (string * list string) -> Prop) (m : M pipe A)
    (Q Q' : A -> list (string * list string) -> Prop) (R R' : _ -> Prop) :
  (forall pm, P' pm -> P pm) -> (forall a pm, Q a pm -> Q' a pm) ->
  (forall pm, R pm -> R' pm) ->
  maps P m Q R -> maps P' m Q' R'.
Proof.
  intros HP HQ HR Hm s Hs. specialize (Hm s (HP _ Hs)). destruct (m s); auto.
Qed.

Lemma maps_bind {A C} P (m : M pipe A) (k : A -> M pipe C) Q Q' R :
  maps P m Q R -> (forall a, maps (Q a) (k a) Q' R) -> maps P (bind m k) Q' R.
Proof.
  intros Hm Hk s Hs. unfold bind. specialize (Hm s Hs).
  destruct (m s) as [a s'|e s'|]; [by apply Hk|done|done].
Qed.

Lemma maps_try_except {A} P (m : M pipe A) (h : exc -> M pipe A) Q R R' :
  maps P m Q R -> (forall e, maps R (h e) Q R') -> maps P (try_except m h) Q R'.
Proof.
  intros Hm Hh s Hs. unfold try_except. specialize (Hm s Hs).
  destruct (m s) as [a s'|e s'|]; [done|by apply Hh|done].
Qed.

Lemma maps_for_each {A} (I : list (string * list string) -> Prop) (l : list A)
    (body : A -> M pipe unit) :
  (forall x, maps I (body x) (fun _ => I) I) -> maps I (for_each l body) (fun _ => I) I.
Proof.
  intros Hb. induction l as [|x l IH]; [apply maps_ret|].
  cbn [for_each]. apply (maps_bind I _ _ (fun _ => I)); [apply Hb|]. by intros _.
Qed.

Lemma maps_in_store {A} (I : list (string * list string) -> Prop) (m : M world A) :
  maps I (in_store m) (fun _ => I) I.
Proof. intros s Hs. unfold in_store, lift. by destruct (m (store s)). Qed.

Lemma maps_raise {A} (I : list (string * list string) -> Prop) e Q :
  maps I (raise (A:=A) e) Q I.
Proof. by intros s Hs. Qed.

Lemma maps_save_crop B sid key crop fname (I I' : list (string * list string) -> Prop) :
  (forall pm, I pm -> I' (setdefault_append key (web_path sid key fname) pm)) ->
  maps I (save_crop_and_map B sid key crop fname) (fun _ => I') I.
Proof.
  intros Hstep. unfold save_crop_and_map.
  apply (maps_bind I _ _ (fun _ => I)); [apply maps_in_store|]. intros _.
  apply (maps_bind I _ _ (fun _ => I)); [apply maps_in_store|]. intros _.
  intros s Hs. cbn [person_map]. by apply Hstep.
Qed.

(** *** [setdefault] and [append] *)

Lemma setdefault_append_keys k v d :
  map fst (setdefault_append k v d) =
  if bool_decide (k ∈ map fst d) then map fst d else map fst d ++ [k].
Proof.
  induction d as [|[k' vs] d IH]; [done|]. simpl.
  destruct (String.eqb_spec k' k) as [->|Hne].
  - simpl. by rewrite bool_decide_eq_true_2 by apply list_elem_of_here.
  - simpl. rewrite IH. destruct (bool_decide (k ∈ map fst d)) eqn:E.
    + apply bool_decide_eq_true_1 in E.
      by rewrite bool_decide_eq_true_2 by (by apply list_elem_of_further).
    + apply bool_decide_eq_false_1 in E.
      rewrite bool_decide_eq_false_2; [done|].
      intros [?|?]%elem_of_cons; congruence.
Qed.

Lemma setdefault_append_fresh k v d :
  k ∉ map fst d -> setdefault_append k v d = d ++ [(k, [v])].
Proof.
  induction d as [|[k' vs] d IH]; [done|]. simpl. intros Hk.
  destruct (String.eqb_spec k' k) as [->|Hne]; [destruct Hk; apply list_elem_of_here|].
  rewrite IH; [done|]. intros ?. apply Hk. by apply list_elem_of_further.
Qed.

Lemma setdefault_append_groups (P : string -> list string -> Prop) k v d :
  Forall (fun kv => P kv.1 kv.2) d ->
  P k [v] -> (forall vs, P k vs -> P k (vs ++ [v])) ->
  Forall (fun kv => P kv.1 kv.2) (setdefault_append k v d).
Proof.
  intros Hd H1 Happ. induction Hd as [|[k' vs] d Hx Hd IH]; [by repeat constructor|].
  simpl. destruct (String.eqb_spec k' k) as [->|Hne].
  - constructor; [by apply Happ|done].
  - by constructor.
Qed.

Lemma grouped_nil sid ok : grouped sid ok [].
Proof. split; constructor. Qed.

Lemma grouped_append sid (ok : string -> string -> Prop) key f pm :
  ok key f -> grouped sid ok pm ->
  grouped sid ok (setdefault_append key (web_path sid key f) pm).
Proof.
  intros Hok [Hn Hall]. split.
  - rewrite setdefault_append_keys. destruct (bool_decide _) eqn:E; [done|].
    apply bool_decide_eq_false_1 in E. apply NoDup_app. split; [done|].
    split; [|apply NoDup_singleton]. intros x Hx ->%list_elem_of_singleton. done.
  - apply (setdefault_append_groups
             (fun k vs => vs <> [] /\
                          Forall (fun u => exists f, ok k f /\ u = web_path sid k f) vs)).
    + done.
    + split; [done|]. constructor; [by exists f|done].
    + intros vs [_ Hvs]. split; [by destruct vs|].
      apply Forall_app. split; [done|]. constructor; [by exists f|done].
Qed.

(** ** The pipeline *)

(** What an ingestion with a detector that returns is made of. *)
Lemma upload_video_pipeline B r file model w j w' :
  upload_video B r file (Some model) w = Returns j w' ->
  exists w0 pm w1,
    run_pipe (if has_track model
              then track_all B (new_session_id r) (track_stream model)
              else detect_loop B (new_session_id r) 0 0 (capture model)) w0 =
      Returns pm w1 /\
    j = JObj [("session_id", JStr (new_session_id r)); ("persons", json_of_map pm)] /\
    kind_at (tree w') (normalize (ann_file B r)) = IsFile (Json (json_of_map pm)) /\
    kind_at (tree w') (normalize (summary_path B r)) = IsFile (Json j).
Proof.
  rewrite upload_video_unfold.
  unfold bind at 1, Sys.write_file at 1.
  destruct (write_file (tree w) (upload_path B r) (Blob file)) as [e0|t0]; [done|].
  unfold bind at 1, Sys.mkdir. cbn [tree written].
  destruct (FS.mkdir true true t0 (session_dir B r)) as [t1 [e1|]]; [done|].
  unfold try_except.
  destruct (ingest B r model _) as [j' w4|e2 w2|] eqn:Hin;
    [|by intros ?%cleanup_never_returns|done].
  intros [= <- <-]. revert Hin. unfold ingest.
  unfold bind at 1.
  destruct (run_pipe _ _) as [pm w2|e2 w2|] eqn:Hrun; [|done..].
  unfold bind at 1, Sys.write_file at 1.
  destruct (write_file (tree w2) (ann_file B r) _) as [e3|t3] eqn:Hw3; [done|].
  unfold bind at 1, Sys.write_file at 1. cbn [tree written].
  destruct (write_file t3 (summary_path B r) _) as [e4|t4] eqn:Hw4; [done|].
  unfold ret. intros [= <- <-]. cbn [tree written].
  eexists _, pm, w2. split; [exact Hrun|]. split; [done|].
  apply write_file_kinds in Hw3 as [Hk _];
    [|unfold ann_file; by destruct (session_dir B r)].
  apply write_file_kinds in Hw4 as [Hs Ho];
    [|unfold summary_path; by destruct (ANNOTATIONS_DIR B)].
  split; [|done]. rewrite Ho; [done|apply normalize_snapshot_not_summary].
Qed.

Lemma run_pipe_maps (I R : list (string * list string) -> Prop) (m : M pipe unit) w pm w' :
  maps (fun pm0 => pm0 = []) m (fun _ => I) R ->
  run_pipe m w = Returns pm w' -> I pm.
Proof.
  intros Hm. unfold run_pipe. specialize (Hm (Pipe w []) eq_refl).
  destruct (m (Pipe w [])); [|done..]. by intros [= <- _].
Qed.

(** *** Tracking mode *)

Lemma maps_track_frame B sid i result :
  maps (grouped sid track_names) (track_frame B sid i result)
       (fun _ => grouped sid track_names) (grouped sid track_names).
Proof.
  unfold track_frame. destruct (orig_img result) as [frame|]; [|apply maps_ret].
  destruct (tr_boxes result) as [boxes|]; [|apply maps_ret].
  destruct (tb_xyxy boxes) as [xyxy|]; [|apply maps_ret].
  destruct (shape frame) as [h w0]. apply maps_for_each. intros [k tid].
  destruct (xyxy !! k) as [[coords|]|]; try apply maps_ret.
  destruct (clamp_box h w0 coords) as [[[[x1 y1] x2] y2]|]; [|apply maps_ret].
  apply maps_save_crop. intros pm Hpm. apply grouped_append; [|done].
  by exists tid, i.
Qed.

Lemma maps_track_loop B sid i stream :
  maps (grouped sid track_names) (track_loop B sid i stream)
       (fun _ => grouped sid track_names) (grouped sid track_names).
Proof.
  revert i. induction stream as [|result rest IH]; intros i; [apply maps_ret|].
  cbn [track_loop].
  apply (maps_bind _ _ _ (fun _ => grouped sid track_names)); [|by intros _].
  eapply maps_try_except; [apply maps_track_frame|]. intros _. apply maps_ret.
Qed.

Lemma maps_track_all B sid stream :
  maps (fun pm => pm = []) (track_all B sid stream)
       (fun _ => grouped sid track_names) (grouped sid track_names).
Proof.
  unfold track_all.
  apply (maps_bind _ _ _ (fun _ => grouped sid track_names)).
  - eapply maps_conseq; [| | |apply maps_track_loop]; try done.
    intros pm ->. apply grouped_nil.
  - intros _. destruct stream.2; [apply maps_raise|apply maps_ret].
Qed.




(** X22. The person map that an ingestion in tracking mode returns is
    grouped by track id: the keys are distinct, no group is empty, and
    every image of the group [person_<id>] is the web path, in that
    group of the new session, of a file [f<frame>_id<id>.jpg] with the
    same id. *)
Theorem tracking_groups_by_identity B r file model w j w' :
  has_track model = true ->
  upload_video B r file (Some model) w = Returns j w' ->
  exists pm,
    j = JObj [("session_id", JStr (new_session_id r)); ("persons", json_of_map pm)] /\
    grouped (new_session_id r) track_names pm.
Proof.
  intros Ht (w0 & pm & w1 & Hrun & -> & _)%upload_video_pipeline.
  exists pm. split; [done|]. rewrite Ht in Hrun.
  eapply run_pipe_maps; [apply maps_track_all|exact Hrun].
Qed.

(** *** The fallback *)

(** The map of the fallback when [next_pid] is [pid]. *)
Local Abbreviation fallback_map sid pid :=
  (fun pm => (exists n, pid = Z.of_nat n /\ one_each n pm) /\ grouped sid detect_names pm).

Lemma person_fresh n i : (i < n)%nat ->
  "person_" +:+ Py.str (Z.of_nat n) <> "person_" +:+ Py.str (Z.of_nat i).
Proof. intros Hi E%person_name_inj. lia. Qed.

Lemma one_each_append n pm v :
  one_each n pm ->
  one_each (S n) (setdefault_append ("person_" +:+ Py.str (Z.of_nat n)) v pm).
Proof.
  intros [Hk Hv]. rewrite setdefault_append_fresh.
  - split.
    + rewrite map_app, Hk, seq_S, map_app. done.
    + apply Forall_app. split; [done|]. constructor; [by eexists|done].
  - rewrite Hk. intros (i & E & Hi%elem_of_seq)%list_elem_of_fmap.
    apply person_fresh in E; [done|lia].
Qed.

Lemma maps_detect_boxes B sid frame i pid boxes :
  maps (fallback_map sid pid) (detect_boxes B sid frame i pid boxes)
       (fun pid' => fallback_map sid pid') (fun _ => True).
Proof.
  revert pid. induction boxes as [|b rest IH]; intros pid; [by intros s Hs|].
  cbn [detect_boxes]. destruct (db_cls b) as [cls|]; [|apply IH].
  destruct (negb (cls =? 0)); [apply IH|].
  destruct (db_xyxy b) as [coords|]; [|apply IH].
  destruct (shape frame) as [h w0].
  destruct (clamp_box h w0 coords) as [[[[x1 y1] x2] y2]|]; [|apply IH].
  apply (maps_bind _ _ _ (fun _ => fallback_map sid (pid + 1))); [|intros _; apply IH].
  apply (maps_conseq (fallback_map sid pid) _ _ (fun _ => fallback_map sid (pid + 1)) _
                     (fallback_map sid pid) _); [done..|].
  apply maps_save_crop. intros pm [(n & -> & Hn) Hg]. split.
  - exists (S n). split; [lia|]. by apply one_each_append.
  - apply grouped_append; [|done]. by exists (Z.of_nat n), i.
Qed.

Lemma maps_detect_loop B sid i pid frames :
  maps (fallback_map sid pid) (detect_loop B sid i pid frames)
       (fun _ pm => exists pid', fallback_map sid pid' pm) (fun _ => True).
Proof.
  revert i pid. induction frames as [|[frame answer] rest IH]; intros i pid;
    [intros s Hs; by exists pid|].
  cbn [detect_loop].
  apply (maps_bind _ _ _ (fun pid' => fallback_map sid pid')); [|intros pid'; apply IH].
  destruct (i mod SAMPLE_EVERY_N_FRAMES =? 0); [|by intros s Hs].
  apply (maps_bind _ _ _ (fun _ => fallback_map sid pid)).
  { apply (maps_conseq (fallback_map sid pid) _ _ (fun _ => fallback_map sid pid) _
                       (fallback_map sid pid) _); [done..|]. apply maps_in_store. }
  intros _. apply (maps_bind _ _ _ (fun _ => fallback_map sid pid)).
  { destruct answer; by intros s Hs. }
  intros [|[[|b bs]|] ?]; try (by intros s Hs). apply maps_detect_boxes.
Qed.

(** X23. Without tracking every detection that is kept gets a group of
    its own: the person map that the ingestion returns holds the groups
    [person_0], [person_1], ... up to the number of crops, in this
    order, with exactly one image each, the image of [person_<p>] being
    a file [f<frame>_p<p>.jpg]. Identities are never merged across
    frames. *)
Theorem fallback_one_group_per_detection B r file model w j w' :
  has_track model = false ->
  upload_video B r file (Some model) w = Returns j w' ->
  exists pm n,
    j = JObj [("session_id", JStr (new_session_id r)); ("persons", json_of_map pm)] /\
    one_each n pm /\ grouped (new_session_id r) detect_names pm.
Proof.
  intros Ht (w0 & pm & w1 & Hrun & -> & _)%upload_video_pipeline.
  rewrite Ht in Hrun.
  assert (exists pid', fallback_map (new_session_id r) pid' pm)
    as (pid' & (n & _ & Hn) & Hg).
  { eapply (run_pipe_maps (fun pm => exists pid', fallback_map (new_session_id r) pid' pm)
                          (fun _ => True)); [|exact Hrun].
    apply (maps_conseq (fallback_map (new_session_id r) 0) _ _
                       (fun _ pm => exists pid', fallback_map (new_session_id r) pid' pm) _
                       (fun _ => True) _); [|done..|apply maps_detect_loop].
    intros pm0 ->. split; [|apply grouped_nil]. exists 0%nat. by repeat split. }
  by exists pm, n.
Qed.

Lemma fallback_one_group_per_detection_witness :
  exists pm n,
    upload_video Ex.B 5 "video" (Some Ex.per_frame) Ex.provisioned =
      Returns (JObj [("session_id", JStr Ex.sid); ("persons", json_of_map pm)]) Ex.ingested /\
    one_each n pm.
Proof.
  assert (upload_video Ex.B 5 "video" (Some Ex.per_frame) Ex.provisioned =
          Returns (JObj [("session_id", JStr Ex.sid); ("persons", Ex.first_persons)])
                  Ex.ingested) as Heq by (vm_compute; reflexivity).
  destruct (fallback_one_group_per_detection Ex.B 5 "video" Ex.per_frame Ex.provisioned
              _ _ eq_refl Heq) as (pm & n & Hj & Hn & _).
  exists pm, n. split; [|exact Hn]. rewrite Heq. f_equal. exact Hj.
Defined.

Lemma tracking_groups_by_identity_witness :
  let box := TrackBoxes (Some [7]) (Some [Some (0, 0, 50, 50)]) in
  let model := Detector true
                 ([TrackResult (Some (Frame 100 200 0)) (Some box);
                   TrackResult (Some (Frame 100 200 1)) (Some box);
                   TrackResult (Some (Frame 100 200 2)) (Some box)], None) [] in
  let pm := [("person_7", [web_path Ex.sid "person_7" "f0_id7.jpg";
                           web_path Ex.sid "person_7" "f1_id7.jpg";
                           web_path Ex.sid "person_7" "f2_id7.jpg"])] in
  let w' := run (upload_video Ex.B 5 "video" (Some model)) Ex.provisioned in
  upload_video Ex.B 5 "video" (Some model) Ex.provisioned =
    Returns (JObj [("session_id", JStr Ex.sid); ("persons", json_of_map pm)]) w' /\
  exists pm', json_of_map pm' = json_of_map pm /\ grouped Ex.sid track_names pm'.
Proof.
  intros box model pm w'.
  assert (upload_video Ex.B 5 "video" (Some model) Ex.provisioned =
          Returns (JObj [("session_id", JStr Ex.sid); ("persons", json_of_map pm)]) w')
    as Heq by (vm_compute; reflexivity).
  split; [exact Heq|].
  destruct (tracking_groups_by_identity Ex.B 5 "video" model Ex.provisioned _ _ eq_refl Heq)
    as (pm' & Hj & Hg).
  exists pm'. split; [|exact Hg].
  exact (eq_sym (f_equal (fun j => match j with
                                   | JObj [_; (_, persons)] => persons
                                   | _ => j
                                   end) Hj)).
Defined.

(** X24. The three records of an ingestion with a detector agree: the
    summary in the annotations folder holds exactly the body that is
    returned, whose person map is the one written to the snapshot of the
    session; the session id they carry is made of 32 hexadecimal
    digits. *)
Theorem upload_video_records_agree B r file model w j w' :
  upload_video B r file (Some model) w = Returns j w' ->
  exists pm,
    j = JObj [("session_id", JStr (new_session_id r)); ("persons", json_of_map pm)] /\
    kind_at (tree w') (normalize (summary_path B r)) = IsFile (Json j) /\
    kind_at (tree w') (normalize (ann_file B r)) = IsFile (Json (json_of_map pm)) /\
    String.length (new_session_id r) = 32%nat /\
    Py.all_chars Py.is_hex (new_session_id r) = true.
Proof.
  intros (w0 & pm & w1 & _ & Hj & Hsnap & Hsum)%upload_video_pipeline.
  exists pm. split; [done|]. split; [done|]. split; [done|].
  split; [apply hex_length|apply hex_chars].
Qed.

Lemma upload_video_records_agree_witness :
  kind_at (tree Ex.ingested) (ANNOTATIONS_DIR Ex.B ++ [Ex.sid +:+ "_summary.json"]) =
    IsFile (Json (JObj [("session_id", JStr Ex.sid); ("persons", Ex.first_persons)])) /\
  kind_at (tree Ex.ingested) Ex.snapshot = IsFile (Json Ex.first_persons).
Proof.
  assert (upload_video Ex.B 5 "video" (Some Ex.per_frame) Ex.provisioned =
          Returns (JObj [("session_id", JStr Ex.sid); ("persons", Ex.first_persons)])
                  Ex.ingested) as Heq by (vm_compute; reflexivity).
  destruct (upload_video_records_agree _ _ _ _ _ _ _ Heq) as (pm & Hj & Hsum & Hsnap & _).
  split; [exact Hsum|]. vm_compute; reflexivity.
Defined.

(** ** From the listing to a correction *)

(** X25. Every image of a listing can be handed back to [delete_image]
    (session, group and file being single path components): the request
    with that web path returns, the file is gone, the next listing of
    the session has the same groups and does not hold the web path any
    more. *)
Theorem listed_image_can_be_deleted B sid w out g imgs f :
  Forall (fun c => is_name c = true) B ->
  is_name sid = true -> is_name g = true -> is_name f = true ->
  list_session_persons B sid w = Returns out w ->
  (g, imgs) ∈ out -> web_path sid g f ∈ imgs ->
  exists w' out',
    delete_image B {[ "path" := web_path sid g f ]} w =
      Returns (JObj [("deleted", JStr (web_path sid g f))]) w' /\
    kind_at (tree w') (TEMP_ROOT B ++ [sid; g; f]) = Missing /\
    list_session_persons B sid w' = Returns out' w' /\
    (forall x, x ∈ map fst out' <-> x ∈ map fst out) /\
    (forall imgs', (g, imgs') ∈ out' -> web_path sid g f ∉ imgs').
Proof.
  intros HB Hsid Hg Hf Hlist Hin Hu.
  assert (Forall (fun c => is_name c = true) (TEMP_ROOT B ++ [sid])) as Nses
    by (apply temp_names; by repeat constructor).
  assert (Forall (fun c => is_name c = true) (TEMP_ROOT B ++ [sid; g; f])) as Nfile
    by (apply temp_names; by repeat constructor).
  destruct (list_session_persons_returns _ _ _ _ _ Hlist) as (_ & q & m & Hst & Hiff).
  rewrite joinpath_name in Hst by done.
  apply stat_names in Hst as [-> Hm]; [|done].
  apply Hiff in Hin as (files & Hfiles & ->).
  apply list_images_elem in Hu as (f0 & d & Hf0 & <-%web_path_inj).
  assert (lookup_path (tree w) (TEMP_ROOT B ++ [sid; g; f]) = Some (File d)) as Hfile.
  { change [sid; g; f] with ([sid] ++ [g; f]).
    rewrite (app_assoc (TEMP_ROOT B) [sid]), lookup_path_app, Hm. simpl.
    by rewrite Hfiles, Hf0. }
  set (payload := ({[ "path" := web_path sid g f ]} : gmap string string)).
  assert (payload !! "path" = Some (web_path sid g f)) as Hp by apply lookup_singleton_eq.
  pose proof (delete_image_unfold B payload w) as Hdel. cbv zeta in Hdel.
  rewrite Hp, the_some, truthy_some in Hdel by done.
  destruct (well_formed_web_path sid g f Hsid Hg Hf) as (_ & Hstart & Hlen).
  rewrite Hstart in Hdel. apply Nat.ltb_ge in Hlen. rewrite Hlen in Hdel.
  cbn [negb orb] in Hdel. rewrite image_file_web_path in Hdel by done.
  assert (exists_ (tree w) (TEMP_ROOT B ++ [sid; g; f]) = true) as Hex
    by (apply exists_true; eexists _, _; by apply stat_names_entry).
  rewrite Hex in Hdel. cbn [negb] in Hdel.
  destruct (unlink (tree w) (TEMP_ROOT B ++ [sid; g; f])) as [e|t] eqn:Hun.
  { unfold unlink in Hun. by rewrite (stat_names_entry _ _ _ Nfile Hfile) in Hun. }
  apply unlink_inr in Hun as (d' & _ & Hgone & Hother); [|by destruct (TEMP_ROOT B)].
  rewrite normalize_names in Hgone, Hother by done.
  assert (kind_at t (TEMP_ROOT B ++ [sid]) = IsDir) as [m' Hm']%kind_at_dir.
  { rewrite Hother; [by apply kind_at_dir; eexists|].
    intros E. apply (f_equal List.length) in E. rewrite !length_app in E. simpl in E. lia. }
  destruct (list_session_persons_of_dir B sid (World t (written w)) m' HB Hsid Hm')
    as (out' & Hout' & Hiff').
  exists (World t (written w)), out'. split; [done|]. split; [done|]. split; [done|].
  split.
  - intros x. rewrite !list_elem_of_fmap.
    assert (kind_of (m' !! x) = kind_of (m !! x)) as Hx.
    { pose proof (Hother (TEMP_ROOT B ++ [sid; x])) as Hk.
      change [sid; x] with ([sid] ++ [x]) in Hk.
      rewrite (app_assoc (TEMP_ROOT B) [sid]) in Hk.
      unfold kind_at in Hk.
      rewrite (lookup_path_snoc t), (lookup_path_snoc (tree w)), Hm, Hm' in Hk. apply Hk.
      intros E. apply (f_equal List.length) in E. rewrite !length_app in E. simpl in E. lia. }
    split; intros ([x' imgs'] & -> & Hx').
    + apply Hiff' in Hx' as (files' & Hx' & _). simpl in *. rewrite Hx' in Hx.
      destruct (m !! x') as [[|files0]|] eqn:E0; try done.
      exists (x', list_images sid x' (map_to_list files0)). split; [done|].
      apply Hiff. by exists files0.
    + apply Hiff in Hx' as (files0 & Hx' & _). simpl in *. rewrite Hx' in Hx.
      destruct (m' !! x') as [[|files']|] eqn:E0; try done.
      exists (x', list_images sid x' (map_to_list files')). split; [done|].
      apply Hiff'. by exists files'.
  - intros imgs' (files' & Hg' & ->)%Hiff'.
    intros (f1 & d1 & Hf1 & <-%web_path_inj)%list_images_elem.
    apply kind_at_missing in Hgone.
    change [sid; g; f] with ([sid] ++ [g; f]) in Hgone.
    rewrite (app_assoc (TEMP_ROOT B) [sid]), lookup_path_app, Hm' in Hgone. simpl in Hgone.
    rewrite Hg', Hf1 in Hgone. congruence.
Qed.

Lemma listed_image_can_be_deleted_witness :
  exists w' out',
    delete_image Ex.B {[ "path" := web_path Ex.sid "person_1" "f1_p1.jpg" ]} Ex.ingested =
      Returns (JObj [("deleted", JStr (web_path Ex.sid "person_1" "f1_p1.jpg"))]) w' /\
    list_session_persons Ex.B Ex.sid w' = Returns out' w' /\
    forall imgs', (("person_1", imgs') ∈ out') ->
                  (web_path Ex.sid "person_1" "f1_p1.jpg" ∉ imgs').
Proof.
  assert (list_session_persons Ex.B Ex.sid Ex.ingested =
          Returns [("person_0", [web_path Ex.sid "person_0" "f0_p0.jpg"]);
                   ("person_1", [web_path Ex.sid "person_1" "f1_p1.jpg"])] Ex.ingested)
    as Hl by (vm_compute; reflexivity).
  assert (is_name Ex.sid = true) as Hsid by (vm_compute; reflexivity).
  destruct (listed_image_can_be_deleted Ex.B Ex.sid Ex.ingested _ "person_1"
              [web_path Ex.sid "person_1" "f1_p1.jpg"] "f1_p1.jpg"
              Ex_B_names Hsid eq_refl eq_refl Hl)
    as (w' & out' & Hd & _ & Hl' & _ & Hno).
  - apply list_elem_of_further, list_elem_of_here.
  - apply list_elem_of_here.
  - exists w', out'. split; [exact Hd|]. split; [exact Hl'|exact Hno].
Defined.

(** ** The session path check *)

Lemma append_empty_r s : s +:+ EmptyString = s.
Proof.
  induction s as [|a s IH]; [done|].
  change (String a s +:+ EmptyString) with (String a (s +:+ EmptyString)). by rewrite IH.
Qed.

(** The string of a path with at least one component. *)
Lemma to_string_cons c p :
  to_string (c :: p) = String "/" (c +:+ match p with [] => EmptyString | _ => to_string p end).
Proof.
  unfold to_string. destruct p as [|c' p]; simpl; [|done].
  change ("/" +:+ c) with (String "/" c). f_equal.
  by rewrite append_empty_r.
Qed.

Lemma prefix_cons a s b t :
  String.prefix (String a s) (String b t) = true <-> a = b /\ String.prefix s t = true.
Proof.
  simpl. destruct (ascii_dec a b) as [->|Hne]; split;
    [done|by intros [_ ?]|done|by intros [? _]].
Qed.

Lemma prefix_empty s : String.prefix EmptyString s = true.
Proof. by destruct s. Qed.

Lemma prefix_app_same s x y : String.prefix (s +:+ x) (s +:+ y) = String.prefix x y.
Proof.
  induction s as [|a s IH]; [done|]. simpl. by destruct (ascii_dec a a).
Qed.

Lemma prefix_app_r t c y : String.prefix t c = true -> String.prefix t (c +:+ y) = true.
Proof.
  revert c. induction t as [|a t IH]; intros c; [intros _; apply prefix_empty|].
  destruct c as [|b c]; [done|]. change (String b c +:+ y) with (String b (c +:+ y)).
  rewrite !prefix_cons. intros [-> H]. split; [done|]. by apply IH.
Qed.

(** What follows a component in the string of a path: nothing, or a
    slash. *)
Local Abbreviation rest_of_path y :=
  (y = EmptyString \/ exists y', y = String "/" y').

Lemma rest_of_path_to_string p :
  rest_of_path match p with [] => EmptyString | _ => to_string p end.
Proof.
  destruct p as [|c p]; [by left|]. right. rewrite to_string_cons. by eexists.
Qed.

Lemma prefix_within t c y :
  Py.all_chars (fun a => negb (Ascii.eqb a "/")) t = true -> rest_of_path y ->
  String.prefix t (c +:+ y) = true -> String.prefix t c = true.
Proof.
  intros Ht Hy. revert c. induction t as [|a t IH]; intros c; [intros _; apply prefix_empty|].
  simpl in Ht. apply andb_prop in Ht as [Ha Ht].
  destruct c as [|b c].
  - change (EmptyString +:+ y) with y. destruct Hy as [->|[y' ->]]; [done|].
    rewrite prefix_cons. intros [-> _]. done.
  - change (String b c +:+ y) with (String b (c +:+ y)).
    rewrite !prefix_cons. intros [-> H]. split; [done|]. by apply IH.
Qed.

Lemma prefix_component f x c y :
  Py.all_chars (fun a => negb (Ascii.eqb a "/")) f = true ->
  Py.all_chars (fun a => negb (Ascii.eqb a "/")) c = true ->
  rest_of_path y ->
  String.prefix (f +:+ String "/" x) (c +:+ y) = true ->
  c = f /\ String.prefix (String "/" x) y = true.
Proof.
  intros Hf Hc Hy. revert c Hc. induction f as [|a f IH]; intros c Hc.
  - destruct c as [|b c]; [done|].
    change (String b c +:+ y) with (String b (c +:+ y)).
    change (EmptyString +:+ String "/" x) with (String "/" x).
    rewrite prefix_cons. intros [<- _]. done.
  - simpl in Hf. apply andb_prop in Hf as [Ha Hf].
    change (String a f +:+ String "/" x) with (String a (f +:+ String "/" x)).
    destruct c as [|b c].
    + destruct Hy as [->|[y' ->]]; [done|].
      change (EmptyString +:+ String "/" y') with (String "/" y').
      rewrite prefix_cons. intros [-> _]. done.
    + simpl in Hc. apply andb_prop in Hc as [Hb Hc].
      change (String b c +:+ y) with (String b (c +:+ y)).
      rewrite prefix_cons. intros [-> H]. destruct (IH Hf c Hc H) as [-> ?]. done.
Qed.

(** The string of [F / t] is a prefix of the string of [q] exactly when
    [q] continues [F] with a component that starts with [t]. *)
Lemma to_string_prefix F t q :
  Forall (fun c => Py.all_chars (fun a => negb (Ascii.eqb a "/")) c = true) F ->
  Py.all_chars (fun a => negb (Ascii.eqb a "/")) t = true ->
  Forall (fun c => Py.all_chars (fun a => negb (Ascii.eqb a "/")) c = true) q ->
  t <> EmptyString ->
  String.prefix (to_string (F ++ [t])) (to_string q) = true <->
  exists c rest, q = F ++ c :: rest /\ String.prefix t c = true.
Proof.
  intros HF Ht Hq Hne. revert q Hq. induction HF as [|f F Hf HF IH]; intros q Hq.
  - cbn [app]. rewrite to_string_cons. destruct q as [|c q].
    + split; [|by intros (? & ? & ? & _)]. rewrite append_empty_r.
      change (to_string []) with "/". rewrite prefix_cons. intros [_ H]. by destruct t.
    + inversion_clear Hq as [|?? Hc Hq']. rewrite to_string_cons, prefix_cons. split.
      * intros [_ H]. exists c, q. split; [done|].
        apply (prefix_within _ _ _ Ht (rest_of_path_to_string q)).
        revert H. clear. generalize (c +:+ match q with [] => EmptyString | _ => to_string q end).
        intros s. by rewrite append_empty_r.
      * intros (c' & rest & [= <- <-] & H). split; [done|].
        rewrite append_empty_r.
        by apply prefix_app_r.
  - cbn [app]. rewrite to_string_cons.
    assert (exists x, to_string (F ++ [t]) = String "/" x) as [x Hx].
    { destruct F; cbn [app]; rewrite to_string_cons; by eexists. }
    assert (match F ++ [t] with [] => EmptyString | _ => to_string (F ++ [t]) end =
            to_string (F ++ [t])) as -> by (by destruct F).
    destruct q as [|c q].
    + split; [|by intros (? & ? & ? & _)]. rewrite Hx.
      change (to_string []) with "/". rewrite prefix_cons. intros [_ H]. by destruct f.
    + inversion_clear Hq as [|?? Hc Hq']. rewrite to_string_cons, prefix_cons. split.
      * intros [_ H]. rewrite Hx in H.
        apply prefix_component in H as [-> H]; [|done|done|apply rest_of_path_to_string].
        rewrite <- Hx in H.
        assert (q <> []) as Hqne by (intros ->; by rewrite Hx in H).
        assert (match q with [] => EmptyString | _ => to_string q end = to_string q) as E
          by (by destruct q).
        rewrite E in H. apply IH in H as (c' & rest & -> & H); [|done].
        by exists c', rest.
      * intros (c' & rest & [= <- ->] & H). split; [done|]. rewrite prefix_app_same.
        assert (match F ++ c' :: rest with [] => EmptyString | _ => to_string (F ++ c' :: rest) end
                = to_string (F ++ c' :: rest)) as -> by (by destruct F).
        apply IH; [|by eexists _, _].
        apply Forall_app. apply Forall_app in Hq' as [? ?]. done.
Qed.

Lemma no_slash_normalize_from st p :
  Forall (fun c => Py.all_chars (fun a => negb (Ascii.eqb a "/")) c = true) st ->
  Forall (fun c => Py.all_chars (fun a => negb (Ascii.eqb a "/")) c = true) p ->
  Forall (fun c => Py.all_chars (fun a => negb (Ascii.eqb a "/")) c = true) (normalize_from st p).
Proof.
  intros Hst Hp. revert st Hst. induction Hp as [|c p Hc Hp IH]; intros st Hst; [done|].
  cbn. apply IH. destruct (String.eqb c "..").
  - clear -Hst. induction Hst as [|x l Hx Hl IHl]; [done|]. simpl. destruct l; [done|].
    by constructor.
  - apply Forall_app. by repeat constructor.
Qed.

Lemma no_slash_parts s :
  Forall (fun c => Py.all_chars (fun a => negb (Ascii.eqb a "/")) c = true) (parts s).
Proof.
  unfold parts. apply Forall_forall. intros c [_ Hc]%list_elem_of_filter.
  revert c Hc. apply Forall_forall, split_no_sep.
Qed.

Lemma FRONTEND_DIR_eq B : FRONTEND_DIR B = removelast B ++ ["annotation-frontend"].
Proof. unfold FRONTEND_DIR, parent. by rewrite joinpath_name. Qed.

Lemma TEMP_ROOT_FRONTEND B : TEMP_ROOT B = FRONTEND_DIR B ++ ["temp"].
Proof. unfold TEMP_ROOT. by rewrite joinpath_name. Qed.

(** X26. [safe_temp_session_path] tests a prefix of strings, not of
    components: with a backend directory of plain names, it accepts a
    session id exactly when its normalised path continues the frontend
    directory with a component that begins with [temp], so the
    temporary store and every sibling such as [temp_old] pass, and all
    other paths get status 400. An id that is one plain name is accepted
    and gives its folder in the temporary store. *)
Theorem safe_temp_session_path_accepts B sid :
  Forall (fun c => is_name c = true) B ->
  let q := normalize (TEMP_ROOT B // sid) in
  ((exists c rest, q = FRONTEND_DIR B ++ c :: rest /\ Py.startswith "temp" c = true) ->
   safe_temp_session_path B sid = inr q) /\
  (~ (exists c rest, q = FRONTEND_DIR B ++ c :: rest /\ Py.startswith "temp" c = true) ->
   safe_temp_session_path B sid = inl (HTTPException 400 "Invalid session path")) /\
  (is_name sid = true -> safe_temp_session_path B sid = inr (TEMP_ROOT B ++ [sid])).
Proof.
  intros HB q.
  pose proof (TEMP_ROOT_names B HB) as HT.
  assert (Forall (fun c => Py.all_chars (fun a => negb (Ascii.eqb a "/")) c = true) (TEMP_ROOT B))
    as HTs by (eapply Forall_impl; [exact HT|]; intros c; apply name_no_slash).
  assert (Forall (fun c => Py.all_chars (fun a => negb (Ascii.eqb a "/")) c = true) q) as Hq.
  { apply no_slash_normalize_from; [done|]. unfold joinpath.
    destruct (Py.startswith "/" sid); [apply no_slash_parts|].
    apply Forall_app. split; [done|apply no_slash_parts]. }
  assert (Py.startswith (to_string (normalize (TEMP_ROOT B))) (to_string q) = true <->
          exists c rest, q = FRONTEND_DIR B ++ c :: rest /\ Py.startswith "temp" c = true) as Hiff.
  { rewrite normalize_names by done. rewrite TEMP_ROOT_FRONTEND. unfold Py.startswith.
    apply to_string_prefix; [|done|done|done].
    rewrite TEMP_ROOT_FRONTEND in HTs. by apply Forall_app in HTs as [? _]. }
  assert (forall P : Prop, (safe_temp_session_path B sid = inr q <-> P) ->
          (~ P -> safe_temp_session_path B sid = inl (HTTPException 400 "Invalid session path")))
    as Hneg.
  { intros P HP Hn. unfold safe_temp_session_path in *. fold q in HP |- *.
    destruct (Py.startswith _ (to_string q)); cbn [negb] in *; [|done]. destruct Hn. by apply HP. }
  assert (safe_temp_session_path B sid = inr q <->
          exists c rest, q = FRONTEND_DIR B ++ c :: rest /\ Py.startswith "temp" c = true) as Hsafe.
  { rewrite <- Hiff. unfold safe_temp_session_path. fold q.
    destruct (Py.startswith _ (to_string q)); cbn [negb]; split; done. }
  split; [apply Hsafe|]. split; [by apply Hneg|].
  intros Hs.
  assert (q = TEMP_ROOT B ++ [sid]) as Hqe.
  { unfold q. rewrite joinpath_name by done. apply normalize_names.
    apply Forall_app. split; [done|by repeat constructor]. }
  rewrite <- Hqe. apply Hsafe. exists "temp", [sid]. split; [|done].
  rewrite Hqe, TEMP_ROOT_FRONTEND, <- app_assoc. done.
Qed.

Lemma safe_temp_session_path_accepts_witness :
  safe_temp_session_path Ex.B "../temp_old/x" = inr (FRONTEND_DIR Ex.B ++ ["temp_old"; "x"]) /\
  safe_temp_session_path Ex.B "../static" = inl (HTTPException 400 "Invalid session path") /\
  safe_temp_session_path Ex.B "abc" = inr (TEMP_ROOT Ex.B ++ ["abc"]).
Proof.
  destruct (safe_temp_session_path_accepts Ex.B "../temp_old/x" Ex_B_names) as (Hyes & _ & _).
  destruct (safe_temp_session_path_accepts Ex.B "../static" Ex_B_names) as (_ & Hno & _).
  destruct (safe_temp_session_path_accepts Ex.B "abc" Ex_B_names) as (_ & _ & Hname).
  split; [|split].
  - apply Hyes. exists "temp_old", ["x"]. split; reflexivity.
  - apply Hno. intros (c & rest & Hq & Hc).
    assert (c = "static") as -> by (vm_compute in Hq; congruence).
    discriminate Hc.
  - apply Hname. reflexivity.
Defined.
